(** * UFO² installation diagnostics: configuration validation and connectivity

    A shallow embedding of the configuration-diagnostic logic of the
    repository's standalone scripts

      - [comprehensive_validation.py]        ([validate_config])
      - [fixed_comprehensive_validation.py]  ([check_config_file],
                                              [check_api_connectivity])
      - [darbot/darbot_validation.py]        ([check_critical_dependencies],
                                              [check_ufo_imports],
                                              [check_config],
                                              [check_azure_deployment], [main])
      - [darbot/fix_azure_config.py]         ([fix_azure_openai_config], [main])
      - [test_api_connectivity.py]           ([load_config],
                                              [test_azure_openai_direct])
      - [comprehensive_test.py]              ([check_python_packages],
                                              [check_configuration],
                                              the summary of [main])
      - [test_mission.py]                    ([test_required_packages],
                                              [test_config_file],
                                              the summary of [main])

    together with the properties the specification states about them.

    Python values are modelled by the type [yaml] of parsed YAML documents,
    Python text by the Rocq string of its UTF-8 encoding ([len] and
    [str.strip] act on code points), and the scripts' effects (console
    output, the file system, the process environment, standard input, module
    imports, the OpenAI SDK and the remote chat-completion endpoint,
    exceptions) by a state-and-exception monad over an explicit [world]. *)

From Stdlib Require Import String Ascii ZArith QArith Lia.
From stdpp Require Import base option list gmap strings pretty.

Local Open Scope stdpp_scope.

(** ** Python strings *)

(** A Python [str] is kept as its UTF-8 encoding: a code point below 128 is
    one byte, any other a lead byte (192 and above) followed by continuation
    bytes (128 to 191).  Searching for a text ([in], [startswith],
    [endswith]) on the bytes is searching for it on the code points. *)
Module PyStr.

(** [c.lower()] on one ASCII character. *)
Definition lower_ascii (c : ascii) : ascii :=
  let n := nat_of_ascii c in
  if (65 <=? n)%nat && (n <=? 90)%nat then ascii_of_nat (n + 32) else c.

(** [s.lower()], exact on the ASCII range.  The bytes of the other code
    points are kept: Python maps a capital letter outside ASCII to its small
    form, which is outside ASCII too but for U+212A and U+0130; the scripts
    compare lower-cased text with ASCII texts only, none of which those two
    can complete. *)
Fixpoint lower (s : string) : string :=
  match s with
  | EmptyString => EmptyString
  | String c s' => String (lower_ascii c) (lower s')
  end.

(** [s.startswith(p)] *)
Fixpoint startswith (s p : string) {struct p} : bool :=
  match p, s with
  | EmptyString, _ => true
  | String _ _, EmptyString => false
  | String a p', String b s' => if ascii_dec a b then startswith s' p' else false
  end.

(** [s.endswith(p)] *)
Definition endswith (s p : string) : bool :=
  startswith (String.rev s) (String.rev p).

(** [sub in s] for two strings: [sub] occurs in [s] as a substring. *)
Fixpoint contains (sub s : string) : bool :=
  startswith s sub ||
  match s with
  | EmptyString => false
  | String _ s' => contains sub s'
  end.

(** [s[2:-1]] for a text that starts with two ASCII characters and ends
    with one, as the scripts take it (after [startswith("${")] and
    [endswith("}")]): drop the first two bytes and the last one. *)
Definition slice_2_m1 (s : string) : string :=
  substring 2 (String.length s - 3) s.

(** Is [c] a continuation byte, that is, not the first byte of a code
    point? *)
Definition continuation (c : ascii) : bool :=
  let n := nat_of_ascii c in (128 <=? n)%nat && (n <=? 191)%nat.

(** [len(s)]: the number of code points. *)
Fixpoint len (s : string) : nat :=
  match s with
  | EmptyString => 0
  | String c s' => if continuation c then len s' else S (len s')
  end.

(** [c.isspace()], the white space [str.strip()] removes, by the UTF-8 bytes
    of the code point: U+0009 to U+000D and U+001C to U+0020 (one byte);
    U+0085 and U+00A0 (two bytes); U+1680, U+2000 to U+200A, U+2028, U+2029,
    U+202F, U+205F and U+3000 (three bytes). *)
Definition isspace1 (a : ascii) : bool :=
  let a := nat_of_ascii a in
  ((9 <=? a)%nat && (a <=? 13)%nat) || ((28 <=? a)%nat && (a <=? 32)%nat).

Definition isspace2 (a b : ascii) : bool :=
  let a := nat_of_ascii a in
  let b := nat_of_ascii b in
  (a =? 194)%nat && ((b =? 133)%nat || (b =? 160)%nat).

Definition isspace3 (a b c : ascii) : bool :=
  let a := nat_of_ascii a in
  let b := nat_of_ascii b in
  let c := nat_of_ascii c in
  ((a =? 225)%nat && (b =? 154)%nat && (c =? 128)%nat)
  || ((a =? 226)%nat && (b =? 128)%nat
      && (((128 <=? c)%nat && (c <=? 138)%nat)
          || (c =? 168)%nat || (c =? 169)%nat || (c =? 175)%nat))
  || ((a =? 226)%nat && (b =? 129)%nat && (c =? 159)%nat)
  || ((a =? 227)%nat && (b =? 128)%nat && (c =? 128)%nat).

(** [s.lstrip()]; with [backwards], the same on a text whose bytes are in
    reverse order. *)
Fixpoint lstrip (backwards : bool) (s : string) : string :=
  match s with
  | EmptyString => EmptyString
  | String a s1 =>
      if isspace1 a then lstrip backwards s1 else
      match s1 with
      | EmptyString => s
      | String b s2 =>
          if (if backwards then isspace2 b a else isspace2 a b)
          then lstrip backwards s2 else
          match s2 with
          | EmptyString => s
          | String c s3 =>
              if (if backwards then isspace3 c b a else isspace3 a b c)
              then lstrip backwards s3 else s
          end
      end
  end.

(** [s.strip()] *)
Definition strip (s : string) : string :=
  String.rev (lstrip true (String.rev (lstrip false s))).

(** [s == t] as a boolean. *)
Definition eqb (s t : string) : bool := bool_decide (s = t).

(** [s in [t1, ..., tn]] for a list of strings. *)
Definition in_list (s : string) (l : list string) : bool :=
  bool_decide (s ∈ l).

(** [s.split(".")[0]]: the text before the first dot. *)
Fixpoint before_dot (s : string) : string :=
  match s with
  | EmptyString => EmptyString
  | String c s' => if Ascii.eqb c "." then EmptyString else String c (before_dot s')
  end.

(** [s.replace('-', '_')] *)
Fixpoint replace_dash (s : string) : string :=
  match s with
  | EmptyString => EmptyString
  | String c s' => String (if Ascii.eqb c "-" then "_"%char else c) (replace_dash s')
  end.

End PyStr.

(** ** Parsed YAML documents and the Python operations used on them *)

(** The result of [yaml.safe_load]: the scalar kinds the scripts can meet
    (null, booleans, integers, strings), sequences and mappings.  A mapping is
    a Python [dict] with string keys; it is kept as an association list in
    insertion order, which is the order [dict.items()] iterates in.  A
    document is a tree: the other scalar kinds of YAML (floats, timestamps),
    keys that are not strings, and anchors with aliases (by which the loader
    puts one and the same [dict] at several places of a document) are
    outside the model. *)
#[warnings="-register-all"]
Inductive yaml : Type :=
| YNull
| YBool (b : bool)
| YInt (z : Z)
| YStr (s : string)
| YSeq (l : list yaml)
| YMap (m : list (string * yaml)).

(** Python exceptions raised by the modelled operations, all of them
    subclasses of [Exception].  [ModuleNotFoundError] is the subclass of
    [ImportError] raised for a module that is not installed; [OtherError]
    stands for any class not named here. *)
Inductive exn : Type :=
| KeyError (k : string)
| TypeError
| AttributeError
| ImportError (module : string)
| ModuleNotFoundError (module : string)
| OSError (path : string)
| YAMLError
| EOFError
| ZeroDivisionError
| NameError (variable : string)
| APIError (message : string)
| OtherError (kind message : string).

Definition result (A : Type) : Type := (exn + A)%type.

Module Py.

(** [d.get(k)] on the association list of a dict. *)
Fixpoint lookup (k : string) (m : list (string * yaml)) : option yaml :=
  match m with
  | [] => None
  | (k', v) :: m' => if decide (k = k') then Some v else lookup k m'
  end.

(** [d[k] = v]: replaces the value in place, or appends a new key. *)
Fixpoint update (k : string) (v : yaml) (m : list (string * yaml))
  : list (string * yaml) :=
  match m with
  | [] => [(k, v)]
  | (k', v') :: m' =>
      if decide (k = k') then (k, v) :: m' else (k', v') :: update k v m'
  end.

(** Structural equality [v == w] restricted to what the scripts compare:
    a value against a string literal. *)
Definition eq_str (v : yaml) (s : string) : bool :=
  match v with
  | YStr t => PyStr.eqb t s
  | _ => false
  end.

(** Truth value of a Python object: [bool(v)]. *)
Definition truthy (v : yaml) : bool :=
  match v with
  | YNull => false
  | YBool b => b
  | YInt z => negb (z =? 0)%Z
  | YStr s => negb (PyStr.eqb s "")
  | YSeq l => match l with [] => false | _ => true end
  | YMap m => match m with [] => false | _ => true end
  end.

(** [k in v] for a string literal [k]: key membership on a dict, substring
    test on a string, element membership on a list, [TypeError] on the
    scalars that are not iterable. *)
Definition contains (k : string) (v : yaml) : result bool :=
  match v with
  | YMap m => inr (bool_decide (is_Some (lookup k m)))
  | YStr s => inr (PyStr.contains k s)
  | YSeq l => inr (existsb (fun x => eq_str x k) l)
  | YNull | YBool _ | YInt _ => inl TypeError
  end.

(** [v[k]] for a string literal [k]. *)
Definition getitem (v : yaml) (k : string) : result yaml :=
  match v with
  | YMap m => match lookup k m with Some x => inr x | None => inl (KeyError k) end
  | YStr _ | YSeq _ => inl TypeError
  | YNull | YBool _ | YInt _ => inl TypeError
  end.

(** [v.get(k, default)] *)
Definition get (v : yaml) (k : string) (default : yaml) : result yaml :=
  match v with
  | YMap m => inr (from_option id default (lookup k m))
  | _ => inl AttributeError
  end.

(** [v.lower()] *)
Definition lower (v : yaml) : result string :=
  match v with
  | YStr s => inr (PyStr.lower s)
  | _ => inl AttributeError
  end.

(** [v.startswith(p)] *)
Definition startswith (v : yaml) (p : string) : result bool :=
  match v with
  | YStr s => inr (PyStr.startswith s p)
  | _ => inl AttributeError
  end.

(** [v.endswith(p)] *)
Definition endswith (v : yaml) (p : string) : result bool :=
  match v with
  | YStr s => inr (PyStr.endswith s p)
  | _ => inl AttributeError
  end.

(** [len(v)] *)
Definition len (v : yaml) : result nat :=
  match v with
  | YStr s => inr (PyStr.len s)
  | YSeq l => inr (length l)
  | YMap m => inr (length m)
  | YNull | YBool _ | YInt _ => inl TypeError
  end.

(** [v in [s1, ..., sn]] for a list of string literals: equality against
    each literal, which never raises. *)
Definition in_strings (v : yaml) (l : list string) : bool :=
  existsb (eq_str v) l.

(** [v.items()] *)
Definition items (v : yaml) : result (list (string * yaml)) :=
  match v with
  | YMap m => inr m
  | _ => inl AttributeError
  end.

End Py.

(** ** The world the scripts run in *)

(** Severity of a console line: which of the scripts' [print_*] helpers (or a
    bare [print], or [traceback.print_exc]) produced it. *)
Inductive level : Type :=
| HEADER | SUCCESS | WARNING | ERROR | INFO | PLAIN | TRACEBACK.

Global Instance level_eq_dec : EqDecision level.
Proof. solve_decision. Defined.

(** The OpenAI SDK client a probe is issued through. *)
Inductive client : Type :=
| AzureOpenAI (azure_endpoint api_key api_version : yaml)
| OpenAI (api_key : yaml).

(** One call of [client.chat.completions.create]. *)
Record request : Type := Request {
  via : client;
  model : yaml;
  content : string;       (* the single user-role message *)
  max_tokens : nat
}.

(** File-system operations, in the order they were performed. *)
Inductive fs_event : Type :=
| OpenedForWrite (path : string)           (* [open(path, 'w')]: truncates *)
| ReadAll (path : string)                  (* [open(path, 'r')] and [read()] *)
| Wrote (path : string) (text : string).   (* [f.write(text)], flushed *)

(** What lies outside the scripts and is fixed during one run.  An import
    runs the code of the module, which can raise any exception; the
    constructor of an SDK client checks its arguments against the process
    environment, sends nothing, and can raise as well. *)
Record platform : Type := Platform {
  script_dir : string;                        (* [Path(__file__).parent] *)
  importable : string → bool;                 (* does [import m] succeed *)
  import_exception : string → exn;            (* what it raises when not *)
  client_error : client → gmap string string → option exn;
                                              (* what the constructor raises *)
  safe_load : string → result yaml;           (* [yaml.safe_load] *)
  dump : yaml → string;                       (* [yaml.dump] *)
  create : request → result string;           (* the reply's message content *)
  str : yaml → string;                        (* [str(v)] in an f-string *)
  str_exn : exn → string                      (* [str(e)] *)
}.

(** What a run reads and changes.  [faults] is the schedule of I/O failures:
    every file operation consumes one entry and raises [OSError] when it is
    [true]; an exhausted schedule means no further failure. *)
Record world : Type := World {
  fs : gmap string string;
  environ : gmap string string;
  stdin : list string;
  faults : list bool;
  stdout : list (level * string);
  io_trace : list fs_event;
  sent : list request
}.

(** ** The state-and-exception monad *)

Definition M (A : Type) : Type := world → result A * world.

Definition ret {A} (a : A) : M A := fun w => (inr a, w).

Definition raise {A} (e : exn) : M A := fun w => (inl e, w).

Definition bind {A B} (c : M A) (k : A → M B) : M B :=
  fun w => match c w with
           | (inr a, w') => k a w'
           | (inl e, w') => (inl e, w')
           end.

(** [try: c except Exception as e: h e] *)
Definition try_except {A} (c : M A) (h : exn → M A) : M A :=
  fun w => match c w with
           | (inr a, w') => (inr a, w')
           | (inl e, w') => h e w'
           end.

(** Runs [c] and hands its outcome, exception included, to what follows. *)
Definition attempt {A} (c : M A) : M (result A) :=
  fun w => let '(r, w') := c w in (inr r, w').

(** Lifting of a Python operation that may raise. *)
Definition lift {A} (r : result A) : M A :=
  match r with inr a => ret a | inl e => raise e end.

Global Instance M_ret : MRet M := @ret.
Global Instance M_bind : MBind M := fun A B k c => bind c k.

Section Primitives.

Definition emit (l : level) (text : string) : M unit :=
  fun w => (inr tt,
            World (fs w) (environ w) (stdin w) (faults w)
                  (stdout w ++ [(l, text)]) (io_trace w) (sent w)).

Definition print_header := emit HEADER.
Definition print_success := emit SUCCESS.
Definition print_warning := emit WARNING.
Definition print_error := emit ERROR.
Definition print_info := emit INFO.
Definition print := emit PLAIN.

(** [traceback.print_exc()] *)
Definition print_exc (e : exn) : M unit := emit TRACEBACK "".

(** [path.exists()] *)
Definition exists_ (path : string) : M bool :=
  fun w => (inr (bool_decide (is_Some (fs w !! path))), w).

(** One step of the failure schedule. *)
Definition next_fault (w : world) : bool * list bool :=
  match faults w with
  | [] => (false, [])
  | b :: rest => (b, rest)
  end.

(** [open(path, 'r').read()] *)
Definition read_text (path : string) : M string :=
  fun w =>
    let '(failing, rest) := next_fault w in
    let w' := World (fs w) (environ w) (stdin w) rest (stdout w)
                    (io_trace w ++ [ReadAll path]) (sent w) in
    if failing then (inl (OSError path), w') else
    match fs w !! path with
    | Some text => (inr text, w')
    | None => (inl (OSError path), w')
    end.

(** [open(path, 'w')]: creates or truncates the file. *)
Definition open_w (path : string) : M unit :=
  fun w =>
    let '(failing, rest) := next_fault w in
    if failing
    then (inl (OSError path),
          World (fs w) (environ w) (stdin w) rest (stdout w)
                (io_trace w) (sent w))
    else (inr tt,
          World (<[path := ""]> (fs w)) (environ w) (stdin w) rest (stdout w)
                (io_trace w ++ [OpenedForWrite path]) (sent w)).

(** [f.write(text)] on a file opened for writing, up to the flush when the
    [with] block closes it. *)
Definition write (path : string) (text : string) : M unit :=
  fun w =>
    let '(failing, rest) := next_fault w in
    if failing
    then (inl (OSError path),
          World (fs w) (environ w) (stdin w) rest (stdout w)
                (io_trace w) (sent w))
    else (inr tt,
          World (<[path := from_option id "" (fs w !! path) +:+ text]> (fs w))
                (environ w) (stdin w) rest (stdout w)
                (io_trace w ++ [Wrote path text]) (sent w)).

(** [input()] *)
Definition input : M string :=
  fun w => match stdin w with
           | [] => (inl EOFError, w)
           | line :: rest =>
               (inr line,
                World (fs w) (environ w) rest (faults w) (stdout w)
                      (io_trace w) (sent w))
           end.

(** [os.environ.get(name, "")] *)
Definition environ_get (name : string) : M string :=
  fun w => (inr (from_option id "" (environ w !! name)), w).

Context (P : platform).

(** [import m] / [from m import ...] *)
Definition import (m : string) : M unit :=
  if importable P m then ret tt else raise (import_exception P m).

(** [AzureOpenAI(...)] / [OpenAI(...)]: the client, unless the constructor
    raises. *)
Definition new_client (c : client) : M client :=
  fun w => match client_error P c (environ w) with
           | Some e => (inl e, w)
           | None => (inr c, w)
           end.

(** [client.chat.completions.create(...)], returning
    [response.choices[0].message.content]. *)
Definition chat (r : request) : M string :=
  fun w =>
    (create P r,
     World (fs w) (environ w) (stdin w) (faults w) (stdout w)
           (io_trace w) (sent w ++ [r])).

End Primitives.

(** Text of a value interpolated in an f-string: a string is inserted as it
    is, any other value through the platform's [str]. *)
Definition format (P : platform) (v : yaml) : string :=
  match v with
  | YStr s => s
  | _ => str P v
  end.

(** [for field in fields: if field not in host_agent: print_error(missing
    field); return False  else: print_success(present field)].  The result is
    [false] when the enclosing function has returned [False], [true] when the
    loop ran to its end.  Console text is recorded without the ANSI colour
    sequences and blank lines the scripts wrap around it. *)
Fixpoint require_each (missing present : string → string)
    (fields : list string) (host_agent : yaml) : M bool :=
  match fields with
  | [] => ret true
  | field :: rest =>
      found ← lift (Py.contains field host_agent);
      if negb found
      then print_error (missing field);; ret false
      else print_success (present field);;
           require_each missing present rest host_agent
  end.

(** [for field in fields: if field not in host_agent:
    missing_fields.append(field)] *)
Fixpoint collect_missing (fields : list string) (host_agent : yaml)
  : M (list string) :=
  match fields with
  | [] => ret []
  | field :: rest =>
      found ← lift (Py.contains field host_agent);
      others ← collect_missing rest host_agent;
      ret (if negb found then field :: others else others)
  end.

(** [', '.join(l)] *)
Fixpoint join (l : list string) : string :=
  match l with
  | [] => ""
  | [x] => x
  | x :: rest => x +:+ ", " +:+ join rest
  end.

(** [' '.join(l)] *)
Fixpoint join_spaces (l : list string) : string :=
  match l with
  | [] => ""
  | [x] => x
  | x :: rest => x +:+ " " +:+ join_spaces rest
  end.

(** [check_dependency(module_name)] of darbot/darbot_validation.py.  The
    inner handler is [except ImportError]; the outer ones are
    [except ImportError] and [except Exception]. *)
Definition check_dependency (P : platform) (module_name : string)
  : M (bool * string) :=
  try_except
    (if PyStr.contains "." module_name
     then
       let base_module := PyStr.before_dot module_name in
       import P base_module;;
       try_except
         (import P module_name;;
          ret (true, module_name +:+ " successfully imported"))
         (fun e =>
            match e with
            | ImportError _ | ModuleNotFoundError _ =>
                ret (false, "Failed to import submodule " +:+ module_name +:+
                            ": " +:+ str_exn P e)
            | _ => raise e
            end)
     else
       import P module_name;;
       ret (true, module_name +:+ " successfully imported"))
    (fun e =>
       match e with
       | ImportError _ | ModuleNotFoundError _ =>
           ret (false, "Import error: " +:+ str_exn P e)
       | _ => ret (false, "Unexpected error: " +:+ str_exn P e)
       end).

(** [for dep in critical_deps: success, message = check_dependency(dep) ...]
    of [check_critical_dependencies].  The state is [all_ok] and the list of
    missing dependencies. *)
Fixpoint check_each_dependency (P : platform) (deps : list string)
    (state : bool * list string) : M (bool * list string) :=
  match deps with
  | [] => ret state
  | dep :: rest =>
      checked ← check_dependency P dep;
      if checked.1 : bool
      then print_success checked.2;;
           check_each_dependency P rest state
      else print_error checked.2;;
           check_each_dependency P rest (false, state.2 ++ [dep])
  end.

(** ** comprehensive_validation.py *)

(** The file as it stands is rejected by the Python compiler: lines 328, 376
    and 377 each hold two statements run together, so none of its functions
    can be called.  [validate_config] is embedded from its text, for the
    statements on what the validators never do. *)
Module comprehensive_validation.
Section Script.
Context (P : platform).

Definition config_path : string := script_dir P +:+ "/ufo/config/config.yaml".

Definition model_names : list string :=
  ["gpt-4"; "gpt-4o"; "gpt-35-turbo"; "gpt-3.5-turbo"].

(** The block under [# Azure OpenAI specific checks]; [false] when it has
    made [validate_config] return [False]. *)
Definition azure_checks (host_agent : yaml) : M bool :=
  print "Azure OpenAI Configuration:";;
  ok ← require_each (fun field => "Missing " +:+ field +:+ " in Azure configuration")
                    (fun field => field +:+ " is configured")
                    ["API_BASE"; "API_VERSION"; "API_DEPLOYMENT_ID"] host_agent;
  if negb ok then ret false else
  api_deployment ← lift (Py.getitem host_agent "API_DEPLOYMENT_ID");
  api_base ← lift (Py.getitem host_agent "API_BASE");
  (if Py.in_strings api_deployment model_names
   then print_warning ("API_DEPLOYMENT_ID '" +:+ format P api_deployment +:+
                       "' looks like a model name, not a deployment name");;
        print_info "In Azure OpenAI, you need to use your actual deployment name, not the model name";;
        print_info "Check Azure Portal or Azure OpenAI Studio for your deployment names"
   else ret tt);;
  base_lower ← lift (Py.lower api_base);
  (if PyStr.contains "your-resource" base_lower || PyStr.contains "your" base_lower
   then print_error ("API_BASE contains placeholder text: " +:+ format P api_base);;
        print_info "Replace with your actual Azure OpenAI endpoint URL"
   else ret tt);;
  api_key ← lift (Py.getitem host_agent "API_KEY");
  suspicious ← (if Py.eq_str api_key "YOUR_API_KEY" then ret true
                else n ← lift (Py.len api_key); ret (n <? 10)%nat);
  (if suspicious : bool
   then print_error "API_KEY appears to be a placeholder or invalid";;
        print_info "Update with your actual Azure OpenAI API key"
   else ret tt);;
  ret true.

(** [for key, value in host_agent.items(): ...]; the result is
    [has_env_vars]. *)
Fixpoint scan_env_vars (items : list (string * yaml)) (has_env_vars : bool)
  : M bool :=
  match items with
  | [] => ret has_env_vars
  | (key, value) :: rest =>
      match value with
      | YStr text =>
          if PyStr.contains "${" text || PyStr.contains "%" text
          then print_success (key +:+ " uses environment variables");;
               scan_env_vars rest true
          else scan_env_vars rest has_env_vars
      | _ => scan_env_vars rest has_env_vars
      end
  end.

(** The rest of the [try] block, from [# Check for environment variables]
    to the summary. *)
Definition environment_and_models (config host_agent : yaml) : M bool :=
  print "Environment Variables:";;
  items ← lift (Py.items host_agent);
  has_env_vars ← scan_env_vars items false;
  (if negb has_env_vars
   then print_warning "No environment variables detected in configuration";;
        print_info "Consider using environment variables for API keys and endpoints";;
        print_info "Example: API_KEY: ${AZURE_OPENAI_API_KEY}"
   else ret tt);;
  print "Model Configurations:";;
  has_models ← lift (Py.contains "MODELS" config);
  (if has_models : bool
   then print_success "MODELS section found in configuration"
   else print_warning "No MODELS section found in configuration");;
  print "Configuration Summary:";;
  print_success "Configuration file is valid";;
  ret true.

(** The body of the [try] block of [validate_config] once the document is
    loaded. *)
Definition validate_loaded (config : yaml) : M bool :=
  if negb (Py.truthy config)
  then print_error "Config file is empty or invalid YAML";; ret false else
  has_host ← lift (Py.contains "HOST_AGENT" config);
  if negb has_host
  then print_error "Missing HOST_AGENT in config";; ret false else
  host_agent ← lift (Py.getitem config "HOST_AGENT");
  print "API Configuration:";;
  ok ← require_each (fun field => "Missing " +:+ field +:+ " in HOST_AGENT configuration")
                    (fun field => field +:+ " is configured")
                    ["API_TYPE"; "API_KEY"] host_agent;
  if negb ok then ret false else
  api_type ← lift (Py.getitem host_agent "API_TYPE");
  lowered ← lift (Py.lower api_type);
  ok ← (if PyStr.eqb lowered "azure" then azure_checks host_agent else ret true);
  if negb ok then ret false else
  environment_and_models config host_agent.

Definition validate_config : M bool :=
  print_header "Configuration Validation";;
  present ← exists_ config_path;
  if negb present
  then print_error ("Config file not found: " +:+ config_path);;
       print_info "Create config.yaml from config.yaml.template";;
       ret false
  else
    try_except
      (import P "yaml";;
       text ← read_text config_path;
       config ← lift (safe_load P text);
       validate_loaded config)
      (fun e =>
         match e with
         | ImportError _ | ModuleNotFoundError _ =>
             print_error "Failed to import yaml module";;
             print_info "Run: pip install pyyaml";;
             ret false
         | _ =>
             print_error ("Error validating config: " +:+ str_exn P e);;
             print_exc e;;
             ret false
         end).

End Script.
End comprehensive_validation.

(** ** fixed_comprehensive_validation.py *)

Module fixed_comprehensive_validation.
Section Script.
Context (P : platform).

Definition config_path : string := script_dir P +:+ "/ufo/config/config.yaml".

(** [# Check for HOST_AGENT or AGENT_SETTINGS.HOST_AGENT]: the [if]/[elif]
    chain that both [check_config_file] and [check_api_connectivity] start
    from.  [Some (nested, host_agent)] tells which branch assigned
    [host_agent]; [None] is the [else] branch. *)
Definition find_host_agent (config : yaml) : result (option (bool * yaml)) :=
  match Py.contains "HOST_AGENT" config with
  | inl e => inl e
  | inr true =>
      match Py.getitem config "HOST_AGENT" with
      | inl e => inl e
      | inr host_agent => inr (Some (false, host_agent))
      end
  | inr false =>
      match Py.contains "AGENT_SETTINGS" config with
      | inl e => inl e
      | inr false => inr None
      | inr true =>
          match Py.getitem config "AGENT_SETTINGS" with
          | inl e => inl e
          | inr settings =>
              match Py.contains "HOST_AGENT" settings with
              | inl e => inl e
              | inr false => inr None
              | inr true =>
                  match Py.getitem settings "HOST_AGENT" with
                  | inl e => inl e
                  | inr host_agent => inr (Some (true, host_agent))
                  end
              end
          end
      end
  end.

(** The checks of [check_config_file] on the located agent section. *)
Definition check_host_agent (host_agent : yaml) : M bool :=
  missing_fields ← collect_missing ["API_TYPE"; "API_BASE"; "API_KEY"] host_agent;
  if negb (bool_decide (missing_fields = []))
  then print_error ("Missing required fields in configuration: " +:+ join missing_fields);;
       ret false
  else
  raw_type ← lift (Py.getitem host_agent "API_TYPE");
  api_type ← lift (Py.lower raw_type);
  print_info ("API Type: " +:+ api_type);;
  ok ← (if PyStr.in_list api_type ["azure"; "aoai"]
        then
          print_info "Using Azure OpenAI";;
          has_deployment ← lift (Py.contains "API_DEPLOYMENT_ID" host_agent);
          if negb has_deployment
          then print_error "API_DEPLOYMENT_ID is required for Azure OpenAI";;
               ret false
          else
          deployment_id ← lift (Py.getitem host_agent "API_DEPLOYMENT_ID");
          looks_like_model ← lift (Py.startswith deployment_id "gpt-");
          (if looks_like_model : bool
           then print_warning ("API_DEPLOYMENT_ID '" +:+ format P deployment_id +:+
                               "' looks like a model name, not a deployment name");;
                print_info "In Azure OpenAI, you need to use your actual deployment name, not the model name"
           else ret tt);;
          api_key ← lift (Py.getitem host_agent "API_KEY");
          braces ← lift (Py.startswith api_key "${");
          percent ← (if braces : bool then ret true
                     else lift (Py.startswith api_key "%"));
          (if percent : bool
           then print_info "Using environment variables for API keys (recommended)"
           else print_warning "Consider using environment variables for API keys instead of hardcoding them");;
          ret true
        else ret true);
  if negb ok then ret false else
  print_success "Config file has required structure";;
  ret true.

Definition check_config_file : M bool :=
  print_header "Configuration Check";;
  present ← exists_ config_path;
  if negb present
  then print_error ("Config file not found at " +:+ config_path);;
       print_info "You need to create a config.yaml file from the template";;
       ret false
  else
    try_except
      (import P "yaml";;
       text ← read_text config_path;
       config ← lift (safe_load P text);
       if negb (Py.truthy config)
       then print_error "Config file is empty or invalid";; ret false
       else
       found ← lift (find_host_agent config);
       match found with
       | None => print_error "Could not find HOST_AGENT configuration";; ret false
       | Some (nested, host_agent) =>
           print_info (if nested : bool
                       then "Found AGENT_SETTINGS.HOST_AGENT configuration"
                       else "Found HOST_AGENT configuration");;
           check_host_agent host_agent
       end)
      (fun e =>
         print_error ("Error reading or parsing config file: " +:+ str_exn P e);;
         print_exc e;;
         ret false).

(** [# Resolve environment variables]: the block applied in turn to
    [api_key], [api_base] and [api_deployment] (and to [api_key] again in
    the OpenAI branch).  [None] when the check has printed "is not set" and
    returned [False]; otherwise the value to go on with. *)
Definition resolve_env_var (value : yaml) : M (option yaml) :=
  starts ← lift (Py.startswith value "${");
  ends ← (if starts : bool then lift (Py.endswith value "}") else ret false);
  if ends : bool then
    match value with
    | YStr text =>
        let env_var := PyStr.slice_2_m1 text in
        resolved ← environ_get env_var;
        if negb (Py.truthy (YStr resolved))
        then print_error ("Environment variable " +:+ env_var +:+ " is not set");;
             ret None
        else ret (Some (YStr resolved))
    | _ => raise AttributeError
    end
  else ret (Some value).

(** The Azure branch of [check_api_connectivity], inside its own [try]. *)
Definition test_azure (host_agent : yaml) : M bool :=
  try_except
    (print_info "Testing Azure OpenAI connectivity...";;
     import P "openai";;
     api_base ← lift (Py.getitem host_agent "API_BASE");
     api_key ← lift (Py.getitem host_agent "API_KEY");
     api_deployment ← lift (Py.getitem host_agent "API_DEPLOYMENT_ID");
     api_version ← lift (Py.get host_agent "API_VERSION" (YStr "2024-02-15-preview"));
     key ← resolve_env_var api_key;
     match key with None => ret false | Some api_key =>
     base ← resolve_env_var api_base;
     match base with None => ret false | Some api_base =>
     deployment ← resolve_env_var api_deployment;
     match deployment with None => ret false | Some api_deployment =>
     client ← new_client P (AzureOpenAI api_base api_key api_version);
     print_info ("Testing connection to deployment: " +:+ format P api_deployment);;
     reply ← chat P (Request client api_deployment "Say hello" 10);
     print_success "Successfully connected to Azure OpenAI API!";;
     print_info ("Response: " +:+ reply);;
     ret true
     end end end)
    (fun e =>
       let error_msg := str_exn P e in
       print_error ("API test failed: " +:+ error_msg);;
       (if PyStr.contains "unavailable_model" error_msg
        then print_warning "This appears to be an issue with your deployment ID.";;
             print_info "In Azure OpenAI, the deployment ID should be the name you gave your deployment in Azure portal";;
             print_info "For example, if you deployed GPT-4o with the name 'my-gpt4o', your deployment ID should be 'my-gpt4o'"
        else ret tt);;
       ret false).

(** The OpenAI branch of [check_api_connectivity]. *)
Definition test_openai (host_agent : yaml) : M bool :=
  try_except
    (print_info "Testing OpenAI connectivity...";;
     import P "openai";;
     api_key ← lift (Py.getitem host_agent "API_KEY");
     key ← resolve_env_var api_key;
     match key with None => ret false | Some api_key =>
     client ← new_client P (OpenAI api_key);
     reply ← chat P (Request client (YStr "gpt-3.5-turbo") "Say hello" 10);
     print_success "Successfully connected to OpenAI API!";;
     print_info ("Response: " +:+ reply);;
     ret true
     end)
    (fun e => print_error ("API test failed: " +:+ str_exn P e);; ret false).

Definition check_api_connectivity : M bool :=
  print_header "API Connectivity Test";;
  present ← exists_ config_path;
  if negb present
  then print_error ("Config file not found: " +:+ config_path);; ret false
  else
    try_except
      (print_info "This test will attempt to connect to the configured API";;
       print_info "Would you like to continue? (y/n)";;
       line ← input;
       let choice := PyStr.lower (PyStr.strip line) in
       if negb (PyStr.eqb choice "y")
       then print_warning "API test skipped by user";; ret true
       else
       import P "yaml";;
       text ← read_text config_path;
       config ← lift (safe_load P text);
       found ← lift (find_host_agent config);
       match found with
       | None => print_error "Could not find HOST_AGENT configuration";; ret false
       | Some (_, host_agent) =>
           raw_type ← lift (Py.getitem host_agent "API_TYPE");
           api_type ← lift (Py.lower raw_type);
           if PyStr.in_list api_type ["azure"; "aoai"] then test_azure host_agent
           else if PyStr.eqb api_type "openai" then test_openai host_agent
           else print_error ("Unsupported API type: " +:+ api_type);; ret false
       end)
      (fun e =>
         match e with
         | ModuleNotFoundError _ =>
             print_error ("Missing required package: " +:+ str_exn P e);;
             print_info "Make sure all required packages are installed";;
             ret false
         | _ =>
             print_error ("Error during API connectivity test: " +:+ str_exn P e);;
             print_exc e;;
             ret false
         end).

End Script.
End fixed_comprehensive_validation.

(** ** darbot/darbot_validation.py *)

Module darbot_validation.
Section Script.
Context (P : platform).

Definition config_path : string := script_dir P +:+ "/ufo/config/config.yaml".

Definition model_names : list string :=
  ["gpt-4"; "gpt-4o"; "gpt-35-turbo"; "gpt-3.5-turbo"].

Definition check_config : M bool :=
  print_header "Config Check";;
  present ← exists_ config_path;
  if negb present
  then print_error ("Config file not found: " +:+ config_path);; ret false
  else
    try_except
      (import P "yaml";;
       text ← read_text config_path;
       config ← lift (safe_load P text);
       if negb (Py.truthy config)
       then print_error "Config file is empty or invalid YAML";; ret false
       else
       has_host ← lift (Py.contains "HOST_AGENT" config);
       if negb has_host
       then print_error "Missing HOST_AGENT section in config";; ret false
       else
       host_agent ← lift (Py.getitem config "HOST_AGENT");
       missing_fields ← collect_missing ["API_TYPE"; "API_KEY"; "API_BASE"] host_agent;
       if negb (bool_decide (missing_fields = []))
       then print_error ("Missing required fields in HOST_AGENT config: " +:+
                         join missing_fields);;
            ret false
       else
       raw_type ← lift (Py.getitem host_agent "API_TYPE");
       api_type ← lift (Py.lower raw_type);
       (if PyStr.in_list api_type ["aoai"; "azure"]
        then
          print_info "Found Azure OpenAI configuration";;
          has_deployment ← lift (Py.contains "API_DEPLOYMENT_ID" host_agent);
          (if negb has_deployment
           then print_warning "Missing API_DEPLOYMENT_ID in Azure configuration"
           else ret tt);;
          deployment_id ← lift (Py.get host_agent "API_DEPLOYMENT_ID" (YStr ""));
          if Py.in_strings deployment_id model_names
          then print_warning ("API_DEPLOYMENT_ID '" +:+ format P deployment_id +:+
                              "' looks like a model name, not a deployment name");;
               print_info "In Azure OpenAI, you need to use your actual deployment name, not the model name"
          else ret tt
        else ret tt);;
       print_success "Config file has basic required structure";;
       ret true)
      (fun e =>
         match e with
         | ImportError _ | ModuleNotFoundError _ =>
             print_error "Failed to import yaml module";;
             print_info "Run: pip install pyyaml";;
             ret false
         | _ =>
             print_error ("Error checking config: " +:+ str_exn P e);;
             print_exc e;;
             ret false
         end).

(** ["unavailable_model" in error_str or "not found" in error_str] *)
Definition deployment_not_found (error_str : string) : bool :=
  PyStr.contains "unavailable_model" error_str || PyStr.contains "not found" error_str.

(** The [except Exception as e] handler of the connection test.
    [deployment_id] is bound only when the exception came after its
    assignment; reading it unbound raises [NameError]. *)
Definition connection_failed (deployment_id : option yaml) (e : exn) : M bool :=
  print_error ("Azure OpenAI connection failed: " +:+ str_exn P e);;
  let error_str := PyStr.lower (str_exn P e) in
  (if deployment_not_found error_str
   then print_warning "The deployment name in your config doesn't match any deployment in your Azure OpenAI resource";;
        match deployment_id with
        | Some d => print_info ("Current deployment ID: " +:+ format P d)
        | None => raise (NameError "deployment_id")
        end;;
        print_info "Check Azure Portal for your actual deployment names";;
        print_info "For example, if your deployment is named 'gpt4o', use that instead of 'gpt-4o'"
   else ret tt);;
  ret false.

(** The [# Try a basic connection test] block of [check_azure_deployment]. *)
Definition connection_test (host_agent : yaml) : M bool :=
  settings ← attempt
    (import P "openai";;
     api_base ← lift (Py.getitem host_agent "API_BASE");
     api_key ← lift (Py.getitem host_agent "API_KEY");
     api_version ← lift (Py.get host_agent "API_VERSION" (YStr "2024-02-15-preview"));
     deployment_id ← lift (Py.get host_agent "API_DEPLOYMENT_ID" (YStr ""));
     ret (api_base, api_key, api_version, deployment_id));
  match settings with
  | inl e => connection_failed None e
  | inr (api_base, api_key, api_version, deployment_id) =>
      try_except
        (print_info ("Testing connection to " +:+ format P api_base +:+
                     " with deployment " +:+ format P deployment_id);;
         client ← new_client P (AzureOpenAI api_base api_key api_version);
         reply ← chat P (Request client deployment_id "Say hello" 10);
         print_success "Successfully connected to Azure OpenAI API";;
         print_info ("Response: " +:+ reply);;
         ret true)
        (connection_failed (Some deployment_id))
  end.

Definition check_azure_deployment : M bool :=
  print_header "Azure OpenAI Deployment Check";;
  try_except
    (import P "yaml";;
     present ← exists_ config_path;
     if negb present
     then print_error "Config file not found";; ret false
     else
     text ← read_text config_path;
     config ← lift (safe_load P text);
     has_host ← lift (Py.contains "HOST_AGENT" config);
     if negb has_host
     then print_error "Missing HOST_AGENT section in config";; ret false
     else
     host_agent ← lift (Py.getitem config "HOST_AGENT");
     raw_type ← lift (Py.get host_agent "API_TYPE" (YStr ""));
     api_type ← lift (Py.lower raw_type);
     if negb (PyStr.in_list api_type ["aoai"; "azure"])
     then print_info "Not using Azure OpenAI, skipping deployment check";; ret true
     else
     print_info "Would you like to test Azure OpenAI connectivity? (y/n)";;
     line ← input;
     let choice := PyStr.lower (PyStr.strip line) in
     if negb (PyStr.eqb choice "y")
     then print_info "Skipping Azure OpenAI connectivity test";; ret true
     else connection_test host_agent)
    (fun e =>
       match e with
       | ImportError _ | ModuleNotFoundError _ =>
           print_error ("Import error: " +:+ str_exn P e);; ret false
       | _ =>
           print_error ("Error during Azure deployment check: " +:+ str_exn P e);;
           print_exc e;;
           ret false
       end).

Definition critical_deps : list string :=
  ["azure.identity"; "openai"; "faiss"; "cv2"; "yaml"; "numpy"; "pywinauto";
   "pyautogui"; "torch"].

Definition check_critical_dependencies : M bool :=
  print_header "Critical Dependency Check";;
  state ← check_each_dependency P critical_deps (true, []);
  let '(all_ok, missing_deps) := state in
  (if all_ok : bool
   then print_success "All critical dependencies are installed."
   else print_error ("Missing dependencies: " +:+ join missing_deps);;
        print_info ("Run: pip install " +:+ join_spaces missing_deps));;
  ret all_ok.

(** [from ufo import ufo as ufo_module] is taken as the import of the
    submodule [ufo.ufo]. *)
Definition check_ufo_imports : M bool :=
  print_header "UFO Import Test";;
  try_except
    (import P "ufo";;
     print_success "Successfully imported UFO main package";;
     try_except
       (import P "ufo.ufo";;
        print_success "Successfully imported UFO module";;
        ret true)
       (fun e =>
          match e with
          | ImportError _ | ModuleNotFoundError _ =>
              print_error ("Failed to import UFO module: " +:+ str_exn P e);;
              ret false
          | _ => raise e
          end))
    (fun e =>
       match e with
       | ImportError _ | ModuleNotFoundError _ =>
           print_error ("Failed to import UFO package: " +:+ str_exn P e);;
           ret false
       | _ => raise e
       end).

(** [for name, result in tests: ...] of [main]. *)
Definition print_results (tests : list (string * bool)) : M unit :=
  foldr (fun '(name, result) rest =>
           (if result : bool
            then print_success (name +:+ ": PASS")
            else print_error (name +:+ ": FAIL"));;
           rest)
        (ret tt) tests.

(** [sys.version.split()[0]] *)
Context (python_version : string).

(** [main]: the exit code of the script.  The rules of [=] signs around the
    banner are not recorded. *)
Definition main : M Z :=
  print "UFO² QUICK VALIDATION CHECK";;
  print "Date: 2025-05-25";;
  print ("Python: " +:+ python_version);;
  dep_check ← check_critical_dependencies;
  import_check ← check_ufo_imports;
  config_check ← check_config;
  azure_check ← check_azure_deployment;
  print_header "Validation Summary";;
  let tests := [("Critical Dependencies", dep_check);
                ("UFO Imports", import_check);
                ("Config Structure", config_check);
                ("Azure Deployment", azure_check)] in
  print_results tests;;
  let all_ok := forallb (fun test => test.2) tests in
  if all_ok
  then print "UFO² VALIDATION SUCCESSFUL!";;
       print_success "Your UFO² installation appears to be correctly set up.";;
       ret 0%Z
  else print "UFO² VALIDATION PARTIALLY SUCCESSFUL";;
       print_warning "Some checks failed. Review the output above for details.";;
       ret 1%Z.

End Script.
End darbot_validation.

(** ** test_api_connectivity.py *)

(** The branch of the troubleshooting chain an error text selects. *)
Inductive category : Type :=
| DeploymentMismatch      (* TROUBLESHOOTING UNAVAILABLE_MODEL ERROR *)
| AuthFailure             (* TROUBLESHOOTING AUTHENTICATION ERROR *)
| EndpointMisconfig       (* TROUBLESHOOTING ENDPOINT ERROR *)
| Unclassified.           (* no branch taken: the raw error only *)

Module test_api_connectivity.
Section Script.
Context (P : platform).

Definition config_path : string := script_dir P +:+ "/ufo/config/config.yaml".

(** The bare [print] calls of this script carry their severity as an emoji
    prefix, recorded here as the level of the line. *)
Definition load_config : M yaml :=
  present ← exists_ config_path;
  if negb present
  then print_error ("Config file not found at " +:+ config_path);; ret YNull
  else
    try_except
      (text ← read_text config_path;
       lift (safe_load P text))
      (fun e => print_error ("Error loading config: " +:+ str_exn P e);; ret YNull).

(** The [if]/[elif] chain under [# Provide specific guidance for common
    errors], as the branch it takes. *)
Definition classify (error_msg : string) : category :=
  if PyStr.contains "unavailable_model" error_msg then DeploymentMismatch
  else if PyStr.contains "authentication failed" (PyStr.lower error_msg)
          || PyStr.contains "unauthorized" (PyStr.lower error_msg)
  then AuthFailure
  else if PyStr.contains "location" (PyStr.lower error_msg)
          || PyStr.contains "endpoint" (PyStr.lower error_msg)
  then EndpointMisconfig
  else Unclassified.

(** What each branch prints. *)
Definition guidance (c : category) (api_deployment api_base : yaml) : M unit :=
  match c with
  | DeploymentMismatch =>
      print "TROUBLESHOOTING UNAVAILABLE_MODEL ERROR:";;
      print "The deployment ID in your config doesn't match any deployment in your Azure OpenAI resource.";;
      print ("Current deployment ID: " +:+ format P api_deployment);;
      print "Possible solutions:";;
      print "1. Check your Azure portal for the exact deployment name";;
      print "2. Create a new deployment with this name in Azure OpenAI Studio";;
      print "3. Update the API_DEPLOYMENT_ID in config.yaml to match an existing deployment";;
      print "4. Use environment variables: ${AZURE_OPENAI_DEPLOYMENT}"
  | AuthFailure =>
      print "TROUBLESHOOTING AUTHENTICATION ERROR:";;
      print "Your API key appears to be invalid.";;
      print "Possible solutions:";;
      print "1. Generate a new key in Azure portal";;
      print "2. Check for leading/trailing spaces in your key";;
      print "3. Use environment variables: ${AZURE_OPENAI_API_KEY}"
  | EndpointMisconfig =>
      print "TROUBLESHOOTING ENDPOINT ERROR:";;
      print "Your API endpoint appears to be incorrect.";;
      print ("Current endpoint: " +:+ format P api_base);;
      print "Possible solutions:";;
      print "1. Check the Azure portal for the correct endpoint URL";;
      print "2. Make sure the URL format is: https://{resource-name}.openai.azure.com";;
      print "3. Use environment variables: ${AZURE_OPENAI_ENDPOINT}"
  | Unclassified => ret tt
  end.

Definition test_azure_openai_direct : M bool :=
  config ← load_config;
  if negb (Py.truthy config) then ret false else
  settings ← lift (Py.get config "AGENT_SETTINGS" (YMap []));
  host_agent ← lift (Py.get settings "HOST_AGENT" (YMap []));
  api_type ← lift (Py.get host_agent "API_TYPE" (YStr ""));
  lowered ← lift (Py.lower api_type);
  if negb (PyStr.eqb lowered "azure")
  then print_info "Not using Azure OpenAI, skipping direct Azure OpenAI test";;
       ret true
  else
  print "=== Testing Direct Azure OpenAI Connectivity ===";;
  api_base ← lift (Py.get host_agent "API_BASE" (YStr ""));
  api_key ← lift (Py.get host_agent "API_KEY" (YStr ""));
  api_deployment ← lift (Py.get host_agent "API_DEPLOYMENT_ID" (YStr ""));
  api_version ← lift (Py.get host_agent "API_VERSION" (YStr "2024-05-01"));
  if negb (Py.truthy api_base) || negb (Py.truthy api_key)
     || negb (Py.truthy api_deployment)
  then print_error "Missing Azure OpenAI configuration";; ret false
  else
    try_except
      (import P "openai";;
       client ← new_client P (AzureOpenAI api_base api_key api_version);
       print_success "Successfully created Azure OpenAI client";;
       print ("Testing connection to deployment: " +:+ format P api_deployment);;
       try_except
         (reply ← chat P (Request client api_deployment "Hello, Azure OpenAI!" 10);
          print_success "Successfully connected to Azure OpenAI API";;
          print_success ("Model responded with: " +:+ reply);;
          ret true)
         (fun e =>
            let error_msg := str_exn P e in
            print_error ("API request failed: " +:+ error_msg);;
            guidance (classify error_msg) api_deployment api_base;;
            ret false))
      (fun e =>
         match e with
         | ImportError _ | ModuleNotFoundError _ =>
             print_error "Failed to import OpenAI library";;
             print "Try: pip install openai";;
             ret false
         | _ =>
             print_error ("Unexpected error: " +:+ str_exn P e);;
             print_exc e;;
             ret false
         end).

End Script.
End test_api_connectivity.

(** ** darbot/fix_azure_config.py *)

Module fix_azure_config.
Section Script.
Context (P : platform).

Definition config_path : string := script_dir P +:+ "/ufo/config/config.yaml".

(** [str(config_path) + ".backup"] *)
Definition backup_path : string := config_path +:+ ".backup".

Definition common_model_names : list string :=
  ["gpt-4o"; "gpt-4"; "gpt-35-turbo"; "gpt-3.5-turbo"].

(** [not v or "your" in v.lower()] *)
Definition missing_or_placeholder (v : yaml) : M bool :=
  if negb (Py.truthy v) then ret true
  else lowered ← lift (Py.lower v); ret (PyStr.contains "your" lowered).

(** [# Check for common issues]: the result is [issues_detected]. *)
Definition check_common_issues (api_base api_key api_deployment : yaml) : M bool :=
  base_issue ← missing_or_placeholder api_base;
  (if base_issue : bool
   then print_warning "API_BASE is missing or contains placeholder text"
   else ret tt);;
  key_issue ← missing_or_placeholder api_key;
  (if key_issue : bool
   then print_warning "API_KEY is missing or contains placeholder text"
   else ret tt);;
  let deployment_issue := Py.in_strings api_deployment common_model_names in
  (if deployment_issue
   then print_warning ("API_DEPLOYMENT_ID '" +:+ format P api_deployment +:+
                       "' looks like a model name, not a deployment name");;
        print_info "In Azure OpenAI, the deployment ID should match your actual deployment name in Azure OpenAI Studio"
   else ret tt);;
  ret (base_issue || key_issue || deployment_issue).

(** One of the three [# Fix ...] steps: when [applies], prompt, read a line
    and, unless it is blank, assign it to [host_agent[field]].  The state
    threaded through is the agent section and [changes_made]. *)
Definition fix_field (applies : bool) (prompts : list string) (field : string)
    (state : list (string * yaml) * bool) : M (list (string * yaml) * bool) :=
  if applies then
    foldr (fun line rest => print_info line;; rest) (ret tt) prompts;;
    line ← input;
    let answer := PyStr.strip line in
    if Py.truthy (YStr answer)
    then ret (Py.update field (YStr answer) state.1, true)
    else ret state
  else ret state.

(** [# Save changes], for [changes_made = True]: [config] is the document
    with the edited agent section in it. *)
Definition save_changes (config : yaml) : M bool :=
  try_except
    (open_w backup_path;;
     original ← read_text config_path;
     write backup_path original;;
     print_success ("Original configuration backed up to " +:+ backup_path);;
     open_w config_path;;
     write config_path (dump P config);;
     print_success "Configuration updated successfully";;
     ret true)
    (fun e => print_error ("Failed to save configuration: " +:+ str_exn P e);;
              ret false).

(** [# Ask if user wants to fix issues], [# Update configuration] and
    [# Save changes]: what [fix_azure_openai_config] does once an issue has
    been detected. *)
Definition update_configuration
    (config host_agent api_base api_key api_deployment : yaml) : M bool :=
  print_info "Would you like to update the configuration to fix these issues? (y/n)";;
  line ← input;
  let choice := PyStr.lower (PyStr.strip line) in
  if negb (PyStr.eqb choice "y")
  then print_info "No changes were made to your configuration";; ret false
  else
  (* [host_agent] is the very dict stored under [config["HOST_AGENT"]]: the
     assignments below are seen by [yaml.dump(config, f)], at that place of
     the document.  Both are dicts here, [get] and the subscript having
     succeeded on them. *)
  fields ← lift (Py.items host_agent);
  base_issue ← missing_or_placeholder api_base;
  state ← fix_field base_issue
    ["Enter your Azure OpenAI endpoint URL (e.g., https://your-resource.openai.azure.com):"]
    "API_BASE" (fields, false);
  key_issue ← missing_or_placeholder api_key;
  state ← fix_field key_issue ["Enter your Azure OpenAI API key:"] "API_KEY" state;
  state ← fix_field (Py.in_strings api_deployment common_model_names)
    ["Current deployment ID '" +:+ format P api_deployment +:+ "' looks like a model name";
     "Enter your actual Azure OpenAI deployment name:"]
    "API_DEPLOYMENT_ID" state;
  let '(fields, changes_made) := state in
  if changes_made : bool
  then
    match config with
    | YMap document => save_changes (YMap (Py.update "HOST_AGENT" (YMap fields) document))
    | _ => raise TypeError
    end
  else print_info "No changes were made to your configuration";; ret false.

Definition fix_azure_openai_config : M bool :=
  print_header "Azure OpenAI Configuration Helper";;
  present ← exists_ config_path;
  if negb present
  then print_error ("Config file not found at " +:+ config_path);; ret false
  else
  loaded ← attempt (text ← read_text config_path; lift (safe_load P text));
  match loaded with
  | inl e => print_error ("Failed to load config: " +:+ str_exn P e);; ret false
  | inr config =>
  has_host ← lift (Py.contains "HOST_AGENT" config);
  if negb has_host
  then print_error "Missing HOST_AGENT section in config";; ret false
  else
  host_agent ← lift (Py.getitem config "HOST_AGENT");
  raw_type ← lift (Py.get host_agent "API_TYPE" (YStr ""));
  api_type ← lift (Py.lower raw_type);
  if negb (PyStr.in_list api_type ["azure"; "aoai"])
  then print_info "Not using Azure OpenAI. No fixes needed.";; ret true
  else
  print_info "Current Azure OpenAI Configuration:";;
  api_base ← lift (Py.get host_agent "API_BASE" (YStr ""));
  api_key ← lift (Py.get host_agent "API_KEY" (YStr ""));
  api_deployment ← lift (Py.get host_agent "API_DEPLOYMENT_ID" (YStr ""));
  api_model ← lift (Py.get host_agent "API_MODEL" (YStr ""));
  print ("API_TYPE:          " +:+ api_type);;
  print ("API_BASE:          " +:+ format P api_base);;
  print ("API_KEY:           " +:+ (if Py.truthy api_key then "[REDACTED]" else "[MISSING]"));;
  print ("API_DEPLOYMENT_ID: " +:+ format P api_deployment);;
  print ("API_MODEL:         " +:+ format P api_model);;
  print "";;
  issues_detected ← check_common_issues api_base api_key api_deployment;
  if negb issues_detected
  then print_success "No common issues detected in your Azure OpenAI configuration";;
       ret true
  else update_configuration config host_agent api_base api_key api_deployment
  end.

(** The double quote character, as a text. *)
Definition dquote : string := String (ascii_of_nat 34) EmptyString.

(** [main]: the exit code of the script.  The rules of [=] signs around the
    banner are not recorded, nor the indentation of the printed commands. *)
Definition main : M Z :=
  print "UFO² AZURE OPENAI CONFIGURATION HELPER";;
  print "Date: 2025-05-25";;
  success ← fix_azure_openai_config;
  if success : bool
  then print_header "Next Steps";;
       print_info "Try running a test request with:";;
       print ("python -m ufo --request " +:+ dquote +:+ "Hello, what can you do?"
              +:+ dquote);;
       print "";;
       print_info "If you still encounter issues, consider:";;
       print "1. Checking your Azure OpenAI Studio for correct deployment names";;
       print "2. Using environment variables instead of hardcoded keys";;
       print "3. Running the comprehensive validation script:";;
       print "python quick_check.py";;
       print "";;
       ret 0%Z
  else print_header "Configuration Update";;
       print_warning "Configuration update was incomplete or unsuccessful";;
       print_info "Please manually review your configuration in:";;
       print "ufo/config/config.yaml";;
       print "";;
       ret 1%Z.

End Script.
End fix_azure_config.

(** ** comprehensive_test.py *)

Module comprehensive_test.
Section Script.
(** [f"{x:.1f}"] *)
Context (fixed1 : Q → string).

(** [sum(1 for _, result in test_results if result)] *)
Definition passed_count (test_results : list (string * bool)) : nat :=
  length (filter (fun r => r.2 = true) test_results).

(** [(passed_tests / total_tests) * 100].  Python computes it in binary
    floating point; the model uses the exact rational.  [main] has seven
    checks, and none of 0/7 ... 7/7 lies at a threshold, so the comparisons
    below come out the same. *)
Definition success_rate (passed_tests total_tests : nat) : Q :=
  Qmult (Qdiv (inject_Z (Z.of_nat passed_tests)) (inject_Z (Z.of_nat total_tests)))
        (inject_Z 100).

(** The overall verdict printed by the summary. *)
Inductive verdict : Type := Ready | UsableWithIssues | NotReady.

Definition verdict_of (rate : Q) : verdict :=
  if Qle_bool (inject_Z 80) rate then Ready
  else if Qle_bool (inject_Z 60) rate then UsableWithIssues
  else NotReady.

(** [# Print summary] of [main], on the collected results. *)
Definition print_summary (test_results : list (string * bool)) : M bool :=
  print_header "VALIDATION SUMMARY";;
  let passed_tests := passed_count test_results in
  let total_tests := length test_results in
  if (total_tests =? 0)%nat then raise ZeroDivisionError else
  let rate := success_rate passed_tests total_tests in
  foldr (fun '(test_name, result) rest =>
           emit (if result : bool then SUCCESS else ERROR)
                ((if result : bool then "PASS " else "FAIL ") +:+ test_name);;
           rest)
        (ret tt) test_results;;
  print ("Overall Success Rate: " +:+ fixed1 rate +:+ "% (" +:+
         pretty passed_tests +:+ "/" +:+ pretty total_tests +:+ ")");;
  match verdict_of rate with
  | Ready => print "UFO² setup is ready for operation!";; ret true
  | UsableWithIssues =>
      print_warning "UFO² setup has minor issues but may be functional";; ret true
  | NotReady =>
      print_error "UFO² setup has significant issues requiring attention";; ret false
  end.

(** [main], given the outcomes of the seven checks it runs (the checks
    themselves are directory, package and command-line probes). *)
Definition main (virtual_environment python_packages ufo_installation
    configuration cli_functionality directory_structure
    system_requirements : bool) : M bool :=
  print_header "UFO² Comprehensive Validation Suite";;
  print "This script validates the complete UFO² setup including:";;
  print "• Virtual environment configuration";;
  print "• Python package dependencies";;
  print "• UFO installation and modules";;
  print "• Configuration files";;
  print "• CLI functionality";;
  print "• Directory structure";;
  print "• System requirements";;
  print_summary
    [("Virtual Environment", virtual_environment);
     ("Python Packages", python_packages);
     ("UFO Installation", ufo_installation);
     ("Configuration", configuration);
     ("CLI Functionality", cli_functionality);
     ("Directory Structure", directory_structure);
     ("System Requirements", system_requirements)].


Context (P : platform).

(** [print_test(test_name, status, details)]: the status is recorded as the
    level of the line. *)
Definition print_test (test_name status details : string) : M unit :=
  emit (if PyStr.eqb status "PASS" then SUCCESS
        else if PyStr.eqb status "FAIL" then ERROR else WARNING) test_name;;
  if Py.truthy (YStr details) then print details else ret tt.

Definition required_packages : list string :=
  ["pandas"; "azure-identity"; "faiss-cpu"; "sentence-transformers";
   "langchain-huggingface"; "lxml"; "opencv-python"; "pyautogui"; "pywinauto";
   "openai"; "pyyaml"; "numpy"; "torch"].

(** [for package in required_packages: ...]; the result is
    [missing_packages]. *)
Fixpoint check_packages (packages : list string) (missing_packages : list string)
  : M (list string) :=
  match packages with
  | [] => ret missing_packages
  | package :: rest =>
      imported ← try_except
        (import P (PyStr.replace_dash package);;
         print_test ("Package: " +:+ package) "PASS" "";;
         ret true)
        (fun e =>
           match e with
           | ImportError _ | ModuleNotFoundError _ =>
               print_test ("Package: " +:+ package) "FAIL"
                          "Not installed or import failed";;
               ret false
           | _ => raise e
           end);
      check_packages rest (if imported : bool then missing_packages
                           else missing_packages ++ [package])
  end.

Definition check_python_packages : M (bool * list string) :=
  print_header "Python Package Dependencies";;
  missing_packages ← check_packages required_packages [];
  ret (bool_decide (missing_packages = []), missing_packages).

(** [Path("ufo/config/config.yaml")], relative to the working directory. *)
Definition config_path : string := "ufo/config/config.yaml".

Definition required_sections : list string :=
  ["HOST_AGENT"; "APP_AGENT"; "BACKUP_AGENT"].

(** [for section in required_sections: ...] of [check_configuration]. *)
Fixpoint check_sections (sections : list string) (config : yaml) : M unit :=
  match sections with
  | [] => ret tt
  | section :: rest =>
      present ← lift (Py.contains section config);
      (if present : bool
       then
         agent_config ← lift (Py.getitem config section);
         api_type ← lift (Py.get agent_config "API_TYPE" (YStr ""));
         api_base ← lift (Py.get agent_config "API_BASE" (YStr ""));
         api_key ← lift (Py.get agent_config "API_KEY" (YStr ""));
         api_model ← lift (Py.get agent_config "API_MODEL" (YStr ""));
         print_test (section +:+ " Configuration")
                    (if Py.truthy api_type && Py.truthy api_base
                        && Py.truthy api_key && Py.truthy api_model
                     then "PASS" else "WARN")
                    ("Type: " +:+ format P api_type +:+ ", Model: " +:+
                     format P api_model)
       else print_test (section +:+ " Configuration") "FAIL" "Section missing");;
      check_sections rest config
  end.

Definition check_configuration : M bool :=
  print_header "Configuration Check";;
  present ← exists_ config_path;
  if negb present
  then print_test "Config File Exists" "FAIL" ("File not found: " +:+ config_path);;
       ret false
  else
  print_test "Config File Exists" "PASS" ("Found: " +:+ config_path);;
  try_except
    (text ← read_text config_path;
     config ← lift (safe_load P text);
     check_sections required_sections config;;
     ret true)
    (fun e => print_test "Config File Parse" "FAIL" (str_exn P e);; ret false).

End Script.
End comprehensive_test.

(** ** test_mission.py *)

Module test_mission.
Section Script.
Context (fixed1 : Q → string).

(** [sum(results)] *)
Definition passed_count (results : list bool) : nat :=
  length (filter (fun r => r = true) results).

(** [# Summary] of [main]: the exit code. *)
Definition print_summary (results : list bool) : M Z :=
  print "TEST SUMMARY";;
  let passed := passed_count results in
  let total := length results in
  print ("Tests Passed: " +:+ pretty passed +:+ "/" +:+ pretty total);;
  if (total =? 0)%nat then raise ZeroDivisionError else
  print ("Success Rate: " +:+
         fixed1 (Qmult (Qdiv (inject_Z (Z.of_nat passed)) (inject_Z (Z.of_nat total)))
                       (inject_Z 100)) +:+ "%");;
  if (passed =? total)%nat
  then print "ALL TESTS PASSED! UFO² is ready for operation.";; ret 0%Z
  else if Qle_bool (Qmult (inject_Z (Z.of_nat total)) (8 # 10))
                   (inject_Z (Z.of_nat passed))
  then print_success "MOSTLY WORKING! UFO² should be functional with minor issues.";;
       ret 0%Z
  else print_warning "ISSUES DETECTED! Please review failed tests above.";;
       ret 1%Z.

(** [main], given the outcomes of its five tests. *)
Definition main (virtual_environment required_packages config_file
    ufo_import ufo_cli : bool) : M Z :=
  print "UFO² Mission Test Suite";;
  print_summary [virtual_environment; required_packages; config_file;
                 ufo_import; ufo_cli].

Context (P : platform).

Definition config_path : string := script_dir P +:+ "/ufo/config/config.yaml".

(** The bare [print] calls of this script carry their severity as an emoji
    prefix, recorded here as the level of the line. *)
Definition test_config_file : M bool :=
  print "Testing configuration file...";;
  present ← exists_ config_path;
  if negb present
  then print_error ("Config file not found at " +:+ config_path);; ret false
  else
    try_except
      (content ← read_text config_path;
       if PyStr.contains "AZURE_OPENAI_API_BASE" content
          && PyStr.contains "AZURE_OPENAI_API_KEY" content
       then print_success "Configuration file exists and contains Azure OpenAI settings";;
            ret true
       else print_warning "Configuration file exists but may be missing required settings";;
            ret false)
      (fun e => print_error ("Error reading config file: " +:+ str_exn P e);;
                ret false).

Definition required_packages : list string :=
  ["pandas"; "azure-identity"; "faiss-cpu"; "sentence-transformers";
   "langchain-huggingface"; "lxml"; "opencv-python"; "pyautogui"].

(** [for package in required_packages: ...]; the result is
    [failed_packages]. *)
Fixpoint import_packages (packages : list string) (failed_packages : list string)
  : M (list string) :=
  match packages with
  | [] => ret failed_packages
  | package :: rest =>
      imported ← try_except
        (import P (PyStr.replace_dash package);;
         print_success package;;
         ret true)
        (fun e =>
           match e with
           | ImportError _ | ModuleNotFoundError _ => print_error package;; ret false
           | _ => raise e
           end);
      import_packages rest (if imported : bool then failed_packages
                            else failed_packages ++ [package])
  end.

Definition test_required_packages : M bool :=
  print "Testing required packages...";;
  failed_packages ← import_packages required_packages [];
  if bool_decide (failed_packages = [])
  then print_success "All required packages are installed";; ret true
  else print_warning ("Missing packages: " +:+ join failed_packages);;
       ret false.

End Script.
End test_mission.

(** ** Vocabulary of the statements *)

(** The brace form of an environment reference: the whole value is
    [${...}]. *)
Definition is_reference (s : string) : bool :=
  PyStr.startswith s "${" && PyStr.endswith s "}".

(** The next file operation is not scheduled to fail. *)
Definition next_io_succeeds (w : world) : Prop := (next_fault w).1 = false.

(** A platform for running the scripts on concrete inputs: every module can
    be imported, the SDK builds a client from an endpoint and a key that are
    texts, the parser knows the empty stream, [null] and the documents of a
    table, and the endpoint answers every request with [reply]. *)
Definition table_parser (documents : list (string * yaml)) (text : string)
  : result yaml :=
  if bool_decide (text = "" ∨ text = "null") then inr YNull
  else match Py.lookup text documents with
       | Some document => inr document
       | None => inl YAMLError
       end.

Definition text_credentials (c : client) : option exn :=
  match c with
  | AzureOpenAI (YStr _) (YStr _) _ | OpenAI (YStr _) => None
  | _ => Some (OtherError "OpenAIError" "Missing credentials")
  end.

Definition example_platform (documents : list (string * yaml))
    (reply : result string) : platform :=
  Platform "/opt/UFO" (fun _ => true) ModuleNotFoundError
           (fun c _ => text_credentials c) (table_parser documents)
           (fun _ => "HOST_AGENT: {}") (fun _ => reply)
           (fun _ => "")
           (fun e => match e with
                     | APIError m | OtherError _ m => m
                     | _ => ""
                     end).

(** A world whose file system holds [files], with [lines] waiting on
    standard input, an empty environment and no scheduled failure. *)
Definition example_world (files : list (string * string)) (lines : list string)
  : world :=
  World (list_to_map files) ∅ lines [] [] [] [].

(** A field of the agent section that holds a string when it is there. *)
Definition string_valued (field : string) (host_agent : list (string * yaml)) : Prop :=
  ∀ v, Py.lookup field host_agent = Some v → ∃ s, v = YStr s.

(** The text of a field of the agent section, the empty text when the field
    is absent or not a text. *)
Definition text_of (field : string) (host_agent : list (string * yaml)) : string :=
  match Py.lookup field host_agent with
  | Some (YStr s) => s
  | _ => ""
  end.

(** The lower-cased API_TYPE of the section is azure or aoai. *)
Definition azure_section (host_agent : list (string * yaml)) : Prop :=
  ∃ api_type, Py.lookup "API_TYPE" host_agent = Some (YStr api_type)
              ∧ (PyStr.lower api_type = "azure" ∨ PyStr.lower api_type = "aoai").

(** The fields of [fields] that are not keys of the section. *)
Definition absent (fields : list string) (host_agent : list (string * yaml))
  : list string :=
  List.filter (fun field => negb (bool_decide (is_Some (Py.lookup field host_agent))))
              fields.

(** The findings of [check_config_file] on a located agent section whose
    API_TYPE, API_KEY and API_DEPLOYMENT_ID are texts: its result, and the
    lines it prints after the one that tells where the section was found. *)
Definition host_agent_report (host_agent : list (string * yaml))
  : bool * list (level * string) :=
  let missing := absent ["API_TYPE"; "API_BASE"; "API_KEY"] host_agent in
  let api_type := PyStr.lower (text_of "API_TYPE" host_agent) in
  let deployment_id := text_of "API_DEPLOYMENT_ID" host_agent in
  let api_key := text_of "API_KEY" host_agent in
  if negb (bool_decide (missing = []))
  then (false,
        [(ERROR, "Missing required fields in configuration: " +:+ join missing)])
  else if negb (PyStr.in_list api_type ["azure"; "aoai"])
  then (true,
        [(INFO, "API Type: " +:+ api_type);
         (SUCCESS, "Config file has required structure")])
  else if negb (bool_decide (is_Some (Py.lookup "API_DEPLOYMENT_ID" host_agent)))
  then (false,
        [(INFO, "API Type: " +:+ api_type);
         (INFO, "Using Azure OpenAI");
         (ERROR, "API_DEPLOYMENT_ID is required for Azure OpenAI")])
  else (true,
        [(INFO, "API Type: " +:+ api_type);
         (INFO, "Using Azure OpenAI")]
        ++ (if PyStr.startswith deployment_id "gpt-"
            then [(WARNING, "API_DEPLOYMENT_ID '" +:+ deployment_id +:+
                            "' looks like a model name, not a deployment name");
                  (INFO, "In Azure OpenAI, you need to use your actual deployment name, not the model name")]
            else [])
        ++ [if PyStr.startswith api_key "${" || PyStr.startswith api_key "%"
            then (INFO, "Using environment variables for API keys (recommended)")
            else (WARNING, "Consider using environment variables for API keys instead of hardcoding them");
            (SUCCESS, "Config file has required structure")]).

(** What a setting stands for once environment references are resolved: the
    value of the variable for a text of the brace form (the empty text when
    it is unset), the text itself otherwise. *)
Definition resolved (w : world) (s : string) : string :=
  if is_reference s
  then from_option id "" (environ w !! PyStr.slice_2_m1 s)
  else s.

(** A reference, if it is one, names a variable that is set and not
    empty. *)
Definition resolvable (w : world) (s : string) : Prop :=
  is_reference s = true → resolved w s ≠ "".

(** The exception of [import m] that an [except ImportError] handler lets
    through, if there is one. *)
Definition escaping (P : platform) (m : string) : option exn :=
  if importable P m then None
  else match import_exception P m with
       | ImportError _ | ModuleNotFoundError _ => None
       | e => Some e
       end.

(** The first exception that escapes when the modules are imported in turn,
    each under [except ImportError]. *)
Fixpoint first_escaping (P : platform) (modules : list string) : option exn :=
  match modules with
  | [] => None
  | m :: rest =>
      match escaping P m with
      | Some e => Some e
      | None => first_escaping P rest
      end
  end.



Definition is_read (e : fs_event) : Prop :=
  match e with ReadAll _ => True | _ => False end.

(** From [w] to [w1] no file was written: the files are the same and the
    operations in between are reads. *)
Definition leaves_files (w w1 : world) : Prop :=
  fs w1 = fs w
  ∧ ∃ reads, io_trace w1 = io_trace w ++ reads ∧ Forall is_read reads.

Definition read_only {A} (c : M A) : Prop := ∀ w, leaves_files w (c w).2.

(** The line printed when the configuration helper changes nothing. *)
Definition no_changes_line : level * string :=
  (INFO, "No changes were made to your configuration").



(** Every line a computation prints satisfies [Q], whatever the world it runs
    in and however it ends. *)
Definition emits_only (Q : level * string → Prop) {A} (c : M A) : Prop :=
  ∀ w, ∃ out, stdout (c w).2 = stdout w ++ out ∧ Forall Q out.

(** The finding "deployment ID looks like a model name": a warning about
    API_DEPLOYMENT_ID. *)
Definition about_deployment (line : level * string) : bool :=
  bool_decide (line.1 = WARNING) && PyStr.startswith line.2 "API_DEPLOYMENT_ID".

Definition deployment_warnings (out : list (level * string)) : nat :=
  length (List.filter about_deployment out).

(** A computation that ends with a value, whatever the world it runs in: no
    exception leaves it. *)
Definition never_raises {A} (c : M A) : Prop := ∀ w, ∃ a, (c w).1 = inr a.

(** What [check_dependency] looks at: the module imports, and so does the
    package before its first dot when the name has one. *)
Definition dependency_ok (P : platform) (module_name : string) : bool :=
  if PyStr.contains "." module_name
  then importable P (PyStr.before_dot module_name) && importable P module_name
  else importable P module_name.

(** A run that touches nothing but the console: files, file operations,
    standard input and the requests sent are as before. *)
Definition console_only (w w1 : world) : Prop :=
  fs w1 = fs w ∧ io_trace w1 = io_trace w ∧ stdin w1 = stdin w
  ∧ sent w1 = sent w ∧ environ w1 = environ w ∧ faults w1 = faults w.

(** A computation that only prints and then returns [a], in every world. *)
Definition prints_and_returns {A} (c : M A) (a : A) : Prop :=
  ∀ w, (c w).1 = inr a ∧ console_only w (c w).2.

(** A computation that sends at most [n] requests to the endpoint, after
    those already sent. *)
Definition sends_at_most (n : nat) {A} (c : M A) : Prop :=
  ∀ w, ∃ requests, sent (c w).2 = sent w ++ requests ∧ length requests ≤ n.

(** * Properties *)

(** ** Facts about the string operations *)

Section StringFacts.

Lemma string_app_nil_l (s : string) : "" +:+ s = s.
Proof. reflexivity. Qed.

Lemma string_app_cons (a : ascii) (s t : string) :
  String a s +:+ t = String a (s +:+ t).
Proof. reflexivity. Qed.

Lemma string_app_assoc (s t u : string) : (s +:+ t) +:+ u = s +:+ (t +:+ u).
Proof.
  induction s as [|a s IH]; [reflexivity|].
  rewrite !string_app_cons. by rewrite IH.
Qed.

Lemma startswith_app (p s : string) : PyStr.startswith (p +:+ s) p = true.
Proof.
  induction p as [|a p IH]; [reflexivity|].
  rewrite string_app_cons. cbn [PyStr.startswith].
  destruct (ascii_dec a a); [exact IH | done].
Qed.

Lemma rev_app_app (s t u : string) :
  String.rev_app (s +:+ t) u = String.rev_app t (String.rev_app s u).
Proof.
  revert u. induction s as [|a s IH]; intros u; [reflexivity|].
  rewrite string_app_cons. cbn [String.rev_app]. apply IH.
Qed.

Lemma rev_app_acc (s u : string) :
  String.rev_app s u = String.rev_app s "" +:+ u.
Proof.
  revert u. induction s as [|a s IH]; intros u; [reflexivity|].
  cbn [String.rev_app].
  rewrite IH, (IH (String a "")).
  rewrite string_app_assoc. reflexivity.
Qed.

(** A string that ends with the text [p]. *)
Lemma endswith_app (s p : string) : PyStr.endswith (s +:+ p) p = true.
Proof.
  unfold PyStr.endswith, String.rev.
  rewrite rev_app_app, (rev_app_acc p (String.rev_app s "")).
  apply startswith_app.
Qed.

Lemma substring_all (s t : string) :
  substring 0 (String.length s) (s +:+ t) = s.
Proof.
  induction s as [|a s IH]; [destruct t; reflexivity|].
  rewrite string_app_cons. cbn [String.length substring]. by rewrite IH.
Qed.

Lemma string_length_app (s t : string) :
  String.length (s +:+ t) = (String.length s + String.length t)%nat.
Proof.
  induction s as [|a s IH]; [reflexivity|].
  rewrite string_app_cons. cbn [String.length]. by rewrite IH.
Qed.

(** [("${" + name + "}")[2:-1] == name] *)
Lemma slice_reference (name : string) :
  PyStr.slice_2_m1 ("${" +:+ name +:+ "}") = name.
Proof.
  unfold PyStr.slice_2_m1.
  rewrite !string_app_cons, string_app_nil_l.
  cbn [String.length substring].
  rewrite string_length_app. cbn [String.length].
  replace (S (S (String.length name + 1)) - 3)%nat with (String.length name) by lia.
  apply substring_all.
Qed.

(** [strip] removes the white space of Unicode, not only that of ASCII: a
    no-break space (U+00A0, the bytes 194 and 160) after the answer, an em
    space (U+2003) before it; a letter whose last byte is 160 is kept. *)
Example strip_no_break_space :
  PyStr.strip (String "y" (String (ascii_of_nat 194) (String (ascii_of_nat 160) "")))
  = "y".
Proof. reflexivity. Qed.

Example strip_em_space :
  PyStr.strip (String (ascii_of_nat 226) (String (ascii_of_nat 128)
                 (String (ascii_of_nat 131) " Y ")))
  = "Y".
Proof. reflexivity. Qed.

Example strip_keeps_letters :
  let a_grave := String (ascii_of_nat 195) (String (ascii_of_nat 160) "") in
  PyStr.strip (" " +:+ a_grave +:+ " ") = a_grave ∧ PyStr.len a_grave = 1%nat.
Proof. split; reflexivity. Qed.

End StringFacts.

(** ** Running a script symbolically *)

(** Unfolds the monad and the primitive operations, leaving the Python
    operations on values and strings folded. *)
Ltac run :=
  repeat (progress (
    cbv beta iota delta
      [mbind M_bind bind mret M_ret ret raise lift try_except attempt emit
       print_header print_success print_warning print_error print_info print
       print_exc exists_ next_fault read_text open_w write input environ_get
       import new_client chat];
    cbn [fs environ stdin faults stdout io_trace sent fst snd negb])).

(** One step of a run, for the proofs that go through a script line by
    line. *)
Lemma bind_run {A B} (c : M A) (k : A → M B) (w : world) :
  (c ≫= k) w = match c w with
               | (inr a, w') => k a w'
               | (inl e, w') => (inl e, w')
               end.
Proof. reflexivity. Qed.

Lemma emit_bind {B} (l : level) (text : string) (k : unit → M B) (w : world) :
  (emit l text ≫= k) w
  = k tt (World (fs w) (environ w) (stdin w) (faults w)
                (stdout w ++ [(l, text)]) (io_trace w) (sent w)).
Proof. reflexivity. Qed.

(** ** EnvVarResolver: the environment-variable block of [check_api_connectivity] *)

Section EnvVarResolver.
Import fixed_comprehensive_validation.

(** A value that is not of the brace form is passed through, the world
    untouched. *)
Lemma resolve_literal (w : world) (s : string) :
  is_reference s = false →
  resolve_env_var (YStr s) w = (inr (Some (YStr s)), w).
Proof.
  unfold is_reference, resolve_env_var. intros H.
  cbn [Py.startswith Py.endswith]. run.
  destruct (PyStr.startswith s "${"); [|done].
  rewrite andb_true_l in H. by rewrite H.
Qed.

Lemma reference_is_reference (name : string) :
  PyStr.startswith ("${" +:+ name +:+ "}") "${" = true
  ∧ PyStr.endswith ("${" +:+ name +:+ "}") "}" = true.
Proof.
  split; [apply (startswith_app "${" (name +:+ "}"))|].
  rewrite <- string_app_assoc. apply endswith_app.
Qed.

(** A reference to a variable bound to a non-empty text resolves to it. *)
Lemma resolve_reference (w : world) (name value : string) :
  environ w !! name = Some value →
  value ≠ "" →
  resolve_env_var (YStr ("${" +:+ name +:+ "}")) w = (inr (Some (YStr value)), w).
Proof.
  intros Henv Hvalue. unfold resolve_env_var.
  destruct (reference_is_reference name) as [Hs He].
  cbn [Py.startswith Py.endswith]. rewrite Hs. run. rewrite He.
  rewrite slice_reference, Henv. cbn [from_option id Py.truthy].
  unfold PyStr.eqb. by rewrite bool_decide_eq_false_2.
Qed.

(** A reference to a variable that is unset, or set to the empty text, is
    reported and stops the check. *)
Lemma resolve_missing (w : world) (name : string) :
  from_option id "" (environ w !! name) = "" →
  (resolve_env_var (YStr ("${" +:+ name +:+ "}")) w).1 = inr None.
Proof.
  intros Henv. unfold resolve_env_var.
  destruct (reference_is_reference name) as [Hs He].
  cbn [Py.startswith Py.endswith]. rewrite Hs. run. rewrite He.
  rewrite slice_reference, Henv. done.
Qed.

End EnvVarResolver.

(** The resolver substitutes once and does not look at what it substituted:
    with FOO bound to [${BAR}] and BAR to [baz], resolving ["${FOO}"] gives
    ["${BAR}"], and resolving that result again gives ["baz"], not the same
    text. *)
Lemma env_var_resolver_not_idempotent :
  let w := World ∅ {[ "FOO" := "${BAR}"; "BAR" := "baz" ]} [] [] [] [] [] in
  ∃ once twice : yaml,
    fixed_comprehensive_validation.resolve_env_var (YStr "${FOO}") w
      = (inr (Some once), w)
    ∧ fixed_comprehensive_validation.resolve_env_var once w
      = (inr (Some twice), w)
    ∧ twice ≠ once.
Proof. exists (YStr "${BAR}"), (YStr "baz"). by repeat split. Qed.

(** C6: whatever the variable and the non-empty text it is bound to,
    resolving the reference [${name}] yields that text; resolving the result
    again yields it unchanged when it is not itself of the brace form; and
    every string that is not of the brace form (a [%]-prefixed one included)
    is returned as it is.  No resolution changes the world. *)
Theorem env_var_resolver_substitutes_once (w : world) (name value : string) :
  environ w !! name = Some value →
  value ≠ "" →
  fixed_comprehensive_validation.resolve_env_var (YStr ("${" +:+ name +:+ "}")) w
    = (inr (Some (YStr value)), w)
  ∧ (is_reference value = false →
     fixed_comprehensive_validation.resolve_env_var (YStr value) w
       = (inr (Some (YStr value)), w))
  ∧ ∀ s : string,
      is_reference s = false →
      fixed_comprehensive_validation.resolve_env_var (YStr s) w
        = (inr (Some (YStr s)), w).
Proof.
  intros Hname Hvalue. split; [|split].
  - by apply resolve_reference.
  - apply resolve_literal.
  - intros s. apply resolve_literal.
Qed.

Lemma env_var_resolver_substitutes_once_witness :
  let w := World ∅ {[ "FOO" := "bar" ]} [] [] [] [] [] in
  fixed_comprehensive_validation.resolve_env_var (YStr "${FOO}") w
    = (inr (Some (YStr "bar")), w)
  ∧ fixed_comprehensive_validation.resolve_env_var (YStr "bar") w
    = (inr (Some (YStr "bar")), w)
  ∧ fixed_comprehensive_validation.resolve_env_var (YStr "%FOO%") w
    = (inr (Some (YStr "%FOO%")), w).
Proof.
  intros w.
  destruct (env_var_resolver_substitutes_once w "FOO" "bar") as (H1 & H2 & H3);
    [reflexivity | discriminate |].
  split; [exact H1|]. split; [apply H2; reflexivity | apply H3; reflexivity].
Defined.

(** ** ErrorClassifier: the troubleshooting chain of [test_azure_openai_direct] *)

Section ErrorClassifier.
Import test_api_connectivity.

Example classify_unavailable_model :
  classify "Error code: 404 - unavailable_model" = DeploymentMismatch.
Proof. reflexivity. Qed.

Example classify_unauthorized :
  classify "401 Unauthorized: invalid api key" = AuthFailure.
Proof. reflexivity. Qed.

(** First match wins: the deployment rule hides the two after it, the
    authentication rule hides the endpoint rule. *)
Lemma classify_first_rule (error_msg : string) :
  PyStr.contains "unavailable_model" error_msg = true →
  classify error_msg = DeploymentMismatch.
Proof. unfold classify. by intros ->. Qed.

Lemma classify_second_rule (error_msg : string) :
  PyStr.contains "unavailable_model" error_msg = false →
  PyStr.contains "authentication failed" (PyStr.lower error_msg)
    || PyStr.contains "unauthorized" (PyStr.lower error_msg) = true →
  classify error_msg = AuthFailure.
Proof. unfold classify. by intros -> ->. Qed.

Example classify_order_matters :
  classify "unauthorized for endpoint: unavailable_model" = DeploymentMismatch
  ∧ classify "Unauthorized for this endpoint" = AuthFailure
  ∧ classify "wrong Endpoint" = EndpointMisconfig.
Proof. repeat split. Qed.

(** The second and third rules look at the lower-cased text only: on two
    texts the first rule rejects, the branch depends on nothing else. *)
Lemma classify_later_rules_ignore_case (m1 m2 : string) :
  PyStr.contains "unavailable_model" m1 = false →
  PyStr.contains "unavailable_model" m2 = false →
  PyStr.lower m1 = PyStr.lower m2 →
  classify m1 = classify m2.
Proof. unfold classify. by intros -> -> ->. Qed.

End ErrorClassifier.

(** C4: the chain is a function of the error text alone, and the two texts of
    the specification select the branches it names; but its first test reads
    the text as it is, without [lower()], so it is not case-insensitive: an
    upper-case spelling of the error code is left unclassified, where the
    same test of [check_azure_deployment], made on the lower-cased text,
    recognises it. *)
Theorem classifier_first_rule_is_case_sensitive :
  test_api_connectivity.classify "Error code: 404 - unavailable_model" = DeploymentMismatch
  ∧ test_api_connectivity.classify "401 Unauthorized: invalid api key" = AuthFailure
  ∧ test_api_connectivity.classify "Error code: 404 - UNAVAILABLE_MODEL" = Unclassified
  ∧ darbot_validation.deployment_not_found
      (PyStr.lower "Error code: 404 - UNAVAILABLE_MODEL") = true.
Proof. repeat split. Qed.

(** ** DiagnosticReporter: the summary of [comprehensive_test.main] *)

Section DiagnosticReporter.
Import comprehensive_test.





End DiagnosticReporter.



(** ** AgentSectionResolver: [find_host_agent] *)

Section AgentSectionResolver.
Import fixed_comprehensive_validation.

Lemma contains_key (k : string) (m : list (string * yaml)) (v : yaml) :
  Py.lookup k m = Some v → Py.contains k (YMap m) = inr true.
Proof.
  intros H. cbn [Py.contains]. rewrite H.
  by rewrite bool_decide_eq_true_2 by eauto.
Qed.


Lemma getitem_key (k : string) (m : list (string * yaml)) (v : yaml) :
  Py.lookup k m = Some v → Py.getitem (YMap m) k = inr v.
Proof. intros H. cbn [Py.getitem]. by rewrite H. Qed.





End AgentSectionResolver.

Section DirectTest.
Import test_api_connectivity.
Context (P : platform).

(** Loading a file that is there and parses: the document, one read. *)
Lemma load_config_loaded (w : world) (text : string) (config : yaml) :
  fs w !! config_path P = Some text →
  next_io_succeeds w →
  safe_load P text = inr config →
  (load_config P w).1 = inr config
  ∧ stdout (load_config P w).2 = stdout w
  ∧ sent (load_config P w).2 = sent w
  ∧ stdin (load_config P w).2 = stdin w.
Proof.
  intros Hfs Hio Hload. unfold load_config. run. rewrite Hfs.
  rewrite bool_decide_eq_true_2 by eauto.
  unfold next_io_succeeds, next_fault in Hio.
  run. destruct (faults w) as [|[|] rest]; [|done|]; by rewrite Hfs, Hload.
Qed.

(** Without the key AGENT_SETTINGS the agent section is taken to be empty,
    and the test is skipped. *)
Lemma direct_test_without_settings (w : world)
    (text : string) (config : list (string * yaml)) :
  fs w !! config_path P = Some text →
  next_io_succeeds w →
  safe_load P text = inr (YMap config) →
  config ≠ [] →
  Py.lookup "AGENT_SETTINGS" config = None →
  (test_azure_openai_direct P w).1 = inr true
  ∧ stdout (test_azure_openai_direct P w).2
    = stdout w ++ [(INFO, "Not using Azure OpenAI, skipping direct Azure OpenAI test")]
  ∧ sent (test_azure_openai_direct P w).2 = sent w.
Proof.
  intros Hfs Hio Hload Hne Hsettings.
  destruct (load_config_loaded w text (YMap config) Hfs Hio Hload)
    as (E & Hout & Hsent & _).
  unfold test_azure_openai_direct. run.
  destruct (load_config P w) as [[e|c] w1];
    cbn [fst snd] in E, Hout, Hsent; [done|]. injection E as ->.
  destruct config as [|entry config]; [done|]. cbn [Py.truthy]. run.
  cbn [Py.get]. rewrite Hsettings. cbn [from_option id]. run.
  cbn [Py.get Py.lookup from_option id]. run.
  cbn [Py.get Py.lookup from_option id Py.lower]. run.
  change (PyStr.eqb (PyStr.lower "") "azure") with false. run.
  by rewrite Hout, Hsent.
Qed.

End DirectTest.





(** ** ConfigLoader: the first steps of [check_config_file] *)

Section ConfigLoader.
Import fixed_comprehensive_validation.
Context (P : platform).

(** A path that does not exist: "not found", and nothing is read. *)
Lemma check_config_file_not_found (w : world) :
  fs w !! config_path P = None →
  (check_config_file P w).1 = inr false
  ∧ stdout (check_config_file P w).2
    = stdout w ++ [(HEADER, "Configuration Check");
                   (ERROR, "Config file not found at " +:+ config_path P);
                   (INFO, "You need to create a config.yaml file from the template")]
  ∧ io_trace (check_config_file P w).2 = io_trace w.
Proof.
  intros Hfs. unfold check_config_file. run. rewrite Hfs.
  rewrite bool_decide_eq_false_2 by (by intros [? ?]). run.
  by rewrite <- !(assoc_L (++)).
Qed.

(** A file whose content parses to null: "empty or invalid". *)
Lemma check_config_file_null (w : world) (text : string) :
  fs w !! config_path P = Some text →
  importable P "yaml" = true →
  next_io_succeeds w →
  safe_load P text = inr YNull →
  (check_config_file P w).1 = inr false
  ∧ stdout (check_config_file P w).2
    = stdout w ++ [(HEADER, "Configuration Check");
                   (ERROR, "Config file is empty or invalid")].
Proof.
  intros Hfs Hyaml Hio Hload. unfold check_config_file. run. rewrite Hfs.
  rewrite bool_decide_eq_true_2 by eauto. run.
  unfold import. rewrite Hyaml.
  unfold next_io_succeeds, next_fault in Hio.
  run. destruct (faults w) as [|[|] rest]; [|done|];
    rewrite Hfs, Hload; run; cbn [Py.truthy]; run;
    by rewrite <- !(assoc_L (++)).
Qed.

(** A valid but empty mapping is falsy as well, and gets the same report. *)
Lemma check_config_file_empty_mapping (w : world) (text : string) :
  fs w !! config_path P = Some text →
  importable P "yaml" = true →
  next_io_succeeds w →
  safe_load P text = inr (YMap []) →
  (check_config_file P w).1 = inr false.
Proof.
  intros Hfs Hyaml Hio Hload. unfold check_config_file. run. rewrite Hfs.
  rewrite bool_decide_eq_true_2 by eauto. run.
  unfold import. rewrite Hyaml.
  unfold next_io_succeeds, next_fault in Hio.
  run. destruct (faults w) as [|[|] rest]; [|done|];
    rewrite Hfs, Hload; by run.
Qed.

End ConfigLoader.

(** C7: a configuration file that is empty, or whose content parses to null
    ([yaml.safe_load] returns [None] on both), is reported as an error with
    the message "Config file is empty or invalid" and the check fails; it is
    not taken for an empty mapping that passes.  A path that does not exist
    is a different outcome, reported as "Config file not found". *)
Theorem config_loader_empty_or_missing (P : platform) (w : world) :
  (fs w !! fixed_comprehensive_validation.config_path P = None →
   (fixed_comprehensive_validation.check_config_file P w).1 = inr false
   ∧ stdout (fixed_comprehensive_validation.check_config_file P w).2
     = stdout w ++
       [(HEADER, "Configuration Check");
        (ERROR, "Config file not found at " +:+
                fixed_comprehensive_validation.config_path P);
        (INFO, "You need to create a config.yaml file from the template")])
  ∧ (∀ text : string,
       fs w !! fixed_comprehensive_validation.config_path P = Some text →
       importable P "yaml" = true →
       next_io_succeeds w →
       safe_load P text = inr YNull →
       (fixed_comprehensive_validation.check_config_file P w).1 = inr false
       ∧ stdout (fixed_comprehensive_validation.check_config_file P w).2
         = stdout w ++ [(HEADER, "Configuration Check");
                        (ERROR, "Config file is empty or invalid")]).
Proof.
  split.
  - intros H. destruct (check_config_file_not_found P w H) as (? & ? & _). done.
  - intros text. apply check_config_file_null.
Qed.

Lemma config_loader_empty_or_missing_witness :
  let P := example_platform [] (inr "hello") in
  let path := fixed_comprehensive_validation.config_path P in
  (fixed_comprehensive_validation.check_config_file P (example_world [] [])).1
  = inr false
  ∧ stdout (fixed_comprehensive_validation.check_config_file P
              (example_world [(path, "")] [])).2
    = [(HEADER, "Configuration Check"); (ERROR, "Config file is empty or invalid")]
  ∧ stdout (fixed_comprehensive_validation.check_config_file P
              (example_world [(path, "null")] [])).2
    = [(HEADER, "Configuration Check"); (ERROR, "Config file is empty or invalid")].
Proof.
  intros P path. split; [|split].
  - apply (config_loader_empty_or_missing P (example_world [] [])). reflexivity.
  - apply (config_loader_empty_or_missing P (example_world [(path, "")] []))
      with (text := ""); reflexivity.
  - apply (config_loader_empty_or_missing P (example_world [(path, "null")] []))
      with (text := "null"); reflexivity.
Defined.

(** ** What a computation prints *)

Section Output.
Context (Q : level * string → Prop).

Lemma emits_only_ret {A} (a : A) : emits_only Q (ret a).
Proof. intros w. exists []. by rewrite app_nil_r. Qed.

Lemma emits_only_raise {A} (e : exn) : emits_only Q (@raise A e).
Proof. intros w. exists []. by rewrite app_nil_r. Qed.

Lemma emits_only_lift {A} (r : result A) : emits_only Q (lift r).
Proof. destruct r; [apply emits_only_raise | apply emits_only_ret]. Qed.

Lemma emits_only_emit (l : level) (text : string) :
  Q (l, text) → emits_only Q (emit l text).
Proof. intros H w. exists [(l, text)]. split; [done|]. by constructor. Qed.

Lemma emits_only_bind {A B} (c : M A) (k : A → M B) :
  emits_only Q c → (∀ a, emits_only Q (k a)) → emits_only Q (c ≫= k).
Proof.
  intros Hc Hk w. destruct (Hc w) as (out1 & E1 & F1).
  unfold mbind, M_bind, bind. destruct (c w) as [[e|a] w1]; cbn [snd] in *.
  - by exists out1.
  - destruct (Hk a w1) as (out2 & E2 & F2). exists (out1 ++ out2).
    rewrite E2, E1, (assoc_L (++)). split; [done|]. by apply Forall_app.
Qed.

Lemma emits_only_try_except {A} (c : M A) (h : exn → M A) :
  emits_only Q c → (∀ e, emits_only Q (h e)) → emits_only Q (try_except c h).
Proof.
  intros Hc Hh w. destruct (Hc w) as (out1 & E1 & F1).
  unfold try_except. destruct (c w) as [[e|a] w1]; cbn [snd] in *.
  - destruct (Hh e w1) as (out2 & E2 & F2). exists (out1 ++ out2).
    rewrite E2, E1, (assoc_L (++)). split; [done|]. by apply Forall_app.
  - by exists out1.
Qed.

Lemma emits_only_attempt {A} (c : M A) :
  emits_only Q c → emits_only Q (attempt c).
Proof.
  intros Hc w. destruct (Hc w) as (out1 & E1 & F1).
  unfold attempt. destruct (c w) as [r w1]. by exists out1.
Qed.

(** The operations on files, the environment, standard input and the
    endpoint print nothing. *)
Lemma emits_only_silent {A} (c : M A) :
  (∀ w, stdout (c w).2 = stdout w) → emits_only Q c.
Proof. intros H w. exists []. by rewrite app_nil_r. Qed.

Lemma emits_only_exists (path : string) : emits_only Q (exists_ path).
Proof. by apply emits_only_silent. Qed.

Lemma emits_only_read_text (path : string) : emits_only Q (read_text path).
Proof.
  apply emits_only_silent. intros w. unfold read_text.
  destruct (next_fault w) as [[|] rest]; [done|]. by destruct (fs w !! path).
Qed.

Lemma emits_only_open_w (path : string) : emits_only Q (open_w path).
Proof.
  apply emits_only_silent. intros w. unfold open_w.
  by destruct (next_fault w) as [[|] rest].
Qed.

Lemma emits_only_write (path text : string) : emits_only Q (write path text).
Proof.
  apply emits_only_silent. intros w. unfold write.
  by destruct (next_fault w) as [[|] rest].
Qed.

Lemma emits_only_input : emits_only Q input.
Proof. apply emits_only_silent. intros w. unfold input. by destruct (stdin w). Qed.

Lemma emits_only_environ_get (name : string) : emits_only Q (environ_get name).
Proof. by apply emits_only_silent. Qed.

Lemma emits_only_import (P : platform) (m : string) : emits_only Q (import P m).
Proof.
  unfold import. destruct (importable P m);
    [apply emits_only_ret | apply emits_only_raise].
Qed.

Lemma emits_only_chat (P : platform) (r : request) : emits_only Q (chat P r).
Proof. by apply emits_only_silent. Qed.

End Output.

(** Decomposes a computation along its binds and branches; what is left are
    the conditions on the printed lines. *)
Ltac emits :=
  repeat first
    [ apply emits_only_ret | apply emits_only_raise | apply emits_only_lift
    | apply emits_only_exists | apply emits_only_read_text
    | apply emits_only_open_w | apply emits_only_write | apply emits_only_input
    | apply emits_only_environ_get | apply emits_only_import
    | apply emits_only_chat
    | apply emits_only_attempt
    | apply emits_only_bind; [|intros ?]
    | apply emits_only_try_except; [|intros ?]
    | apply emits_only_emit
    | match goal with
      | |- emits_only _ (if ?b then _ else _) => destruct b
      | |- emits_only _ (match ?x with _ => _ end) => destruct x
      end ].

(** ** Looking a field up in the agent section *)

Section RequiredFields.
Context (P : platform).

(** The scan for missing fields: the fields of the list that are not keys of
    the section, in the order of the list. *)
Lemma collect_missing_spec (fields : list string) (host_agent : list (string * yaml))
    (w : world) :
  collect_missing fields (YMap host_agent) w
  = (inr (List.filter
            (fun field => negb (bool_decide (is_Some (Py.lookup field host_agent))))
            fields), w).
Proof.
  induction fields as [|field fields IH]; [done|].
  cbn [collect_missing List.filter Py.contains]. run. rewrite IH.
  by destruct (bool_decide (is_Some (Py.lookup field host_agent))).
Qed.

Lemma is_Some_true {A} (x : option A) : is_Some x → bool_decide (is_Some x) = true.
Proof. intros H. by apply bool_decide_eq_true_2. Qed.

Lemma is_None_false {A} (x : option A) : x = None → bool_decide (is_Some x) = false.
Proof. intros ->. apply bool_decide_eq_false_2. by intros [? ?]. Qed.

Lemma decide_some (v : yaml) : bool_decide (is_Some (Some v)) = true.
Proof. apply is_Some_true. by eexists. Qed.

Lemma decide_none : bool_decide (is_Some (@None yaml)) = false.
Proof. by apply is_None_false. Qed.

End RequiredFields.

(** ** HeuristicScanner: the deployment rule of [fix_azure_openai_config] *)

Section HeuristicScanner.
Import fix_azure_config.
Context (P : platform).

(** [v in [...]] holds exactly of the strings of the list. *)
Lemma in_strings_spec (v : yaml) (l : list string) :
  Py.in_strings v l = true ↔ ∃ m, m ∈ l ∧ v = YStr m.
Proof.
  unfold Py.in_strings. rewrite existsb_exists. split.
  - intros (m & Hin & Heq). exists m. split; [by apply list_elem_of_In|].
    destruct v; try done. cbn in Heq. unfold PyStr.eqb in Heq.
    by apply bool_decide_eq_true_1 in Heq as ->.
  - intros (m & Hin & ->). exists m. split; [by apply list_elem_of_In|].
    cbn. unfold PyStr.eqb. by apply bool_decide_eq_true_2.
Qed.

(** None of the lines printed while the configuration is updated and saved
    is a warning. *)
Lemma fix_field_no_warning (applies : bool) (prompts : list string)
    (field : string) (state : list (string * yaml) * bool) :
  emits_only (fun line => line.1 ≠ WARNING) (fix_field applies prompts field state).
Proof.
  unfold fix_field. destruct applies; [|emits].
  apply emits_only_bind; [|intros ?; emits].
  induction prompts as [|line prompts IH]; cbn [foldr]; emits; done.
Qed.

Lemma missing_or_placeholder_silent (Q : level * string → Prop) (v : yaml) :
  emits_only Q (missing_or_placeholder v).
Proof. unfold missing_or_placeholder. emits. Qed.

Lemma update_configuration_no_warning
    (config host_agent api_base api_key api_deployment : yaml) :
  emits_only (fun line => line.1 ≠ WARNING)
    (update_configuration P config host_agent api_base api_key api_deployment).
Proof.
  unfold update_configuration, save_changes.
  repeat first
    [ apply fix_field_no_warning | apply missing_or_placeholder_silent
    | progress emits ]; done.
Qed.

(** The issue scan prints one warning about API_DEPLOYMENT_ID when its value
    is in the list, none otherwise. *)
Lemma check_common_issues_deployment (base key : string) (api_deployment : yaml)
    (w : world) :
  ∃ issues out,
    (check_common_issues P (YStr base) (YStr key) api_deployment w).1 = inr issues
    ∧ stdout (check_common_issues P (YStr base) (YStr key) api_deployment w).2
      = stdout w ++ out
    ∧ deployment_warnings out
      = (if Py.in_strings api_deployment common_model_names then 1 else 0)%nat.
Proof.
  unfold check_common_issues, missing_or_placeholder.
  cbn [Py.truthy Py.lower].
  destruct (negb (PyStr.eqb base "")), (negb (PyStr.eqb key ""));
    run;
    destruct (PyStr.contains "your" (PyStr.lower base)),
             (PyStr.contains "your" (PyStr.lower key)),
             (Py.in_strings api_deployment common_model_names);
    run; rewrite <- ?(assoc_L (++));
    (eexists _, _; split; [reflexivity|]);
    first [ by split | by (split; [symmetry; apply app_nil_r|]) ].
Qed.

Lemma get_string_valued (field : string) (host_agent : list (string * yaml)) :
  string_valued field host_agent →
  ∃ s, Py.get (YMap host_agent) field (YStr "") = inr (YStr s).
Proof.
  intros H. cbn [Py.get]. destruct (Py.lookup field host_agent) as [v|] eqn:E.
  - destruct (H v E) as [s ->]. by exists s.
  - by exists "".
Qed.

End HeuristicScanner.

Section DeploymentWarnings.

Lemma deployment_warnings_app (out1 out2 : list (level * string)) :
  deployment_warnings (out1 ++ out2)
  = (deployment_warnings out1 + deployment_warnings out2)%nat.
Proof.
  unfold deployment_warnings. by rewrite List.filter_app, length_app.
Qed.

Lemma deployment_warnings_no_warning (out : list (level * string)) :
  Forall (fun line => line.1 ≠ WARNING) out → deployment_warnings out = 0%nat.
Proof.
  unfold deployment_warnings. induction 1 as [|[l t] out Hl _ IH]; [done|].
  cbn [List.filter]. unfold about_deployment at 1. cbn [fst snd] in *.
  by rewrite bool_decide_eq_false_2.
Qed.

(** The value of API_DEPLOYMENT_ID the scan reads is a listed model name
    exactly when the field holds one. *)
Lemma deployment_in_model_names (host_agent : list (string * yaml)) :
  Py.in_strings (default (YStr "") (Py.lookup "API_DEPLOYMENT_ID" host_agent))
                fix_azure_config.common_model_names = true
  ↔ ∃ m, m ∈ fix_azure_config.common_model_names
         ∧ Py.lookup "API_DEPLOYMENT_ID" host_agent = Some (YStr m).
Proof.
  rewrite in_strings_spec. split; intros (m & Hm & E); exists m; (split; [done|]).
  - destruct (Py.lookup "API_DEPLOYMENT_ID" host_agent) as [v|]; cbn in E.
    + by subst v.
    + injection E as <-. by apply list_elem_of_In in Hm as [|[|[|[|[]]]]].
  - by rewrite E.
Qed.

End DeploymentWarnings.

(** ** The agent section located by [check_config_file] *)

Section LocatedSection.
Import fixed_comprehensive_validation.
Context (P : platform).

Lemma collect_missing_absent (fields : list string) (host_agent : list (string * yaml))
    (w : world) :
  collect_missing fields (YMap host_agent) w = (inr (absent fields host_agent), w).
Proof. apply collect_missing_spec. Qed.

Lemma text_of_field (field s : string) (host_agent : list (string * yaml)) :
  Py.lookup field host_agent = Some (YStr s) → text_of field host_agent = s.
Proof. unfold text_of. by intros ->. Qed.

(** The checks on the located section: they print and return what
    [host_agent_report] says. *)
Lemma check_host_agent_run (host_agent : list (string * yaml)) (w : world) :
  string_valued "API_TYPE" host_agent →
  string_valued "API_KEY" host_agent →
  string_valued "API_DEPLOYMENT_ID" host_agent →
  (check_host_agent P (YMap host_agent) w).1 = inr (host_agent_report host_agent).1
  ∧ stdout (check_host_agent P (YMap host_agent) w).2
    = stdout w ++ (host_agent_report host_agent).2.
Proof.
  intros Stype Skey Sdeployment.
  destruct (check_host_agent P (YMap host_agent) w) as [res w'] eqn:E.
  cbn [fst snd]. revert E.
  unfold check_host_agent, host_agent_report. cbv zeta.
  rewrite bind_run, collect_missing_absent.
  unfold absent. cbn [List.filter].
  destruct (Py.lookup "API_TYPE" host_agent) as [raw|] eqn:Htype;
    destruct (Py.lookup "API_BASE" host_agent) as [base|] eqn:Hbase;
    destruct (Py.lookup "API_KEY" host_agent) as [raw_key|] eqn:Hkey;
    rewrite ?decide_some, ?decide_none; cbn [negb];
    first [rewrite !bool_decide_eq_true_2 by done
          | rewrite !bool_decide_eq_false_2 by done];
    run.
  all: try (intros [= <- <-]; cbn [fst snd stdout]; by split).
  destruct (Stype raw Htype) as [api_type ->];
    destruct (Skey raw_key Hkey) as [key ->].
  rewrite (getitem_key _ _ _ Htype); cbn [Py.lower]; run.
  rewrite (text_of_field _ _ _ Htype), (text_of_field _ _ _ Hkey).
  destruct (PyStr.in_list (PyStr.lower api_type) ["azure"; "aoai"]) eqn:Hin; run.
  2: { intros [= <- <-]. cbn [stdout negb fst snd]. split; [done|].
       by rewrite <- !(assoc_L (++)). }
  cbn [Py.contains]; run.
  destruct (Py.lookup "API_DEPLOYMENT_ID" host_agent) as [raw_deployment|]
    eqn:Hdeployment;
    rewrite ?decide_some, ?decide_none; run.
  2: { intros [= <- <-]. cbn [stdout negb fst snd]. split; [done|].
       by rewrite <- !(assoc_L (++)). }
  destruct (Sdeployment raw_deployment Hdeployment) as [deployment ->].
  rewrite (text_of_field _ _ _ Hdeployment).
  rewrite (getitem_key _ _ _ Hdeployment); run; cbn [Py.startswith]; run;
    rewrite (getitem_key _ _ _ Hkey); run.
  destruct (PyStr.startswith deployment "gpt-"); run;
    cbn [Py.startswith]; run;
    destruct (PyStr.startswith key "${"); run;
    try destruct (PyStr.startswith key "%"); run;
    intros [= <- <-]; cbn [stdout orb app negb fst snd]; (split; [done|]);
    by rewrite <- !(assoc_L (++)).
Qed.

(** [check_config_file] up to the located section. *)
Lemma check_config_file_located (w : world) (text : string) (config : yaml)
    (nested : bool) (host_agent : list (string * yaml)) :
  importable P "yaml" = true →
  fs w !! config_path P = Some text →
  next_io_succeeds w →
  safe_load P text = inr config →
  Py.truthy config = true →
  find_host_agent config = inr (Some (nested, YMap host_agent)) →
  string_valued "API_TYPE" host_agent →
  string_valued "API_KEY" host_agent →
  string_valued "API_DEPLOYMENT_ID" host_agent →
  (check_config_file P w).1 = inr (host_agent_report host_agent).1
  ∧ stdout (check_config_file P w).2
    = stdout w ++
      [(HEADER, "Configuration Check");
       (INFO, if nested then "Found AGENT_SETTINGS.HOST_AGENT configuration"
              else "Found HOST_AGENT configuration")]
      ++ (host_agent_report host_agent).2.
Proof.
  intros Hyaml Hfs Hio Hload Htruthy Hfind Stype Skey Sdeployment.
  unfold check_config_file. run. rewrite Hfs.
  rewrite bool_decide_eq_true_2 by eauto.
  unfold import. rewrite Hyaml.
  unfold next_io_succeeds, next_fault in Hio.
  run. destruct (faults w) as [|[|] more]; [|done|].
  all: rewrite Hfs, Hload; run; rewrite Htruthy; run; rewrite Hfind; run.
  all: match goal with
       | |- context [check_host_agent ?pf ?h ?W] =>
           destruct (check_host_agent_run host_agent W Stype Skey Sdeployment)
             as [E1 E2];
           destruct (check_host_agent pf h W) as [[e|b] w2];
           cbn [fst snd stdout] in E1, E2; [done|]
       end.
  all: cbn [fst snd]; split; [done|]; rewrite E2;
    by rewrite <- !(assoc_L (++)).
Qed.

End LocatedSection.

Section ReportFacts.

Lemma azure_section_in_list (host_agent : list (string * yaml)) :
  string_valued "API_TYPE" host_agent →
  is_Some (Py.lookup "API_TYPE" host_agent) →
  azure_section host_agent
  ↔ PyStr.in_list (PyStr.lower (text_of "API_TYPE" host_agent)) ["azure"; "aoai"] = true.
Proof.
  intros Stype [raw Htype]. destruct (Stype raw Htype) as [api_type ->].
  unfold azure_section, text_of. rewrite Htype. split.
  - intros (t & [= <-] & [-> | ->]); reflexivity.
  - intros H. exists api_type. split; [done|].
    unfold PyStr.in_list in H. apply bool_decide_eq_true_1 in H.
    apply list_elem_of_In in H. simpl in H. intuition.
Qed.

(** The located section passes exactly when the three fields are there, and
    the deployment name as well on azure and aoai. *)
Lemma host_agent_report_result (host_agent : list (string * yaml)) :
  string_valued "API_TYPE" host_agent →
  (host_agent_report host_agent).1 = true
  ↔ is_Some (Py.lookup "API_TYPE" host_agent)
    ∧ is_Some (Py.lookup "API_BASE" host_agent)
    ∧ is_Some (Py.lookup "API_KEY" host_agent)
    ∧ (azure_section host_agent → is_Some (Py.lookup "API_DEPLOYMENT_ID" host_agent)).
Proof.
  intros Stype.
  destruct (Py.lookup "API_TYPE" host_agent) as [raw|] eqn:Htype; cycle 1.
  { unfold host_agent_report, absent. cbn [List.filter]. rewrite Htype, decide_none.
    cbn [negb]. rewrite bool_decide_eq_false_2 by done. cbn [negb fst].
    split; [done|]. by intros ([? ?] & _). }
  assert (is_Some (Py.lookup "API_TYPE" host_agent)) as Hsome by (rewrite Htype; eauto).
  pose proof (azure_section_in_list host_agent Stype Hsome) as Hazure.
  unfold host_agent_report, absent. cbn [List.filter]. rewrite Htype, decide_some.
  cbn [negb].
  destruct (Py.lookup "API_BASE" host_agent) as [base|] eqn:Hbase;
    destruct (Py.lookup "API_KEY" host_agent) as [key|] eqn:Hkey;
    rewrite ?decide_some, ?decide_none; cbn [negb];
    first [rewrite bool_decide_eq_true_2 by done
          | rewrite bool_decide_eq_false_2 by done];
    cbn [negb fst].
  2-4: split; [done|]; intros (_ & H2 & H3 & _);
    first [by destruct H2 | by destruct H3].
  destruct (PyStr.in_list _ _); cbn [negb fst].
  - destruct (Py.lookup "API_DEPLOYMENT_ID" host_agent) as [deployment|] eqn:Hd;
      rewrite ?decide_some, ?decide_none; cbn [negb fst].
    + split; [|done]. intros _. repeat split; eauto.
    + split; [done|]. intros (_ & _ & _ & H). destruct H as [? ?]; [|done].
      by apply Hazure.
  - split; [|done]. intros _. repeat split; eauto.
    intros H. apply Hazure in H. done.
Qed.

(** Outside azure and aoai nothing is warned about. *)
Lemma host_agent_report_other_provider (host_agent : list (string * yaml)) :
  string_valued "API_TYPE" host_agent →
  ¬ azure_section host_agent →
  Forall (fun line => line.1 ≠ WARNING) (host_agent_report host_agent).2.
Proof.
  intros Stype Hother. unfold host_agent_report.
  destruct (negb (bool_decide (absent _ _ = []))) eqn:Hmissing; cbn [snd].
  { by repeat constructor. }
  assert (is_Some (Py.lookup "API_TYPE" host_agent)) as Hsome.
  { apply negb_false_iff, bool_decide_eq_true_1 in Hmissing.
    unfold absent in Hmissing. cbn [List.filter] in Hmissing.
    destruct (Py.lookup "API_TYPE" host_agent); [eauto|].
    by rewrite decide_none in Hmissing. }
  destruct (PyStr.in_list _ _) eqn:Hin; cbn [negb snd].
  - by apply (azure_section_in_list host_agent Stype Hsome) in Hin.
  - by repeat constructor.
Qed.

(** With the key present, no error line names it. *)
Lemma host_agent_report_key_present (host_agent : list (string * yaml)) :
  is_Some (Py.lookup "API_KEY" host_agent) →
  Forall (fun line => line.1 = ERROR → PyStr.contains "API_KEY" line.2 = false)
         (host_agent_report host_agent).2.
Proof.
  intros [key Hkey]. unfold host_agent_report, absent. cbn [List.filter].
  rewrite Hkey, decide_some. cbn [negb].
  destruct (Py.lookup "API_TYPE" host_agent) as [raw|];
    destruct (Py.lookup "API_BASE" host_agent) as [base|];
    rewrite ?decide_some, ?decide_none; cbn [negb];
    first [rewrite bool_decide_eq_true_2 by done
          | rewrite bool_decide_eq_false_2 by done];
    cbn [negb snd].
  2-4: by repeat constructor.
  destruct (PyStr.in_list _ _); cbn [negb snd]; [|by repeat constructor].
  destruct (negb (bool_decide (is_Some _))); cbn [snd]; [by repeat constructor|].
  destruct (PyStr.startswith _ "gpt-"), (PyStr.startswith _ "${" || PyStr.startswith _ "%");
    cbn [app]; by repeat constructor.
Qed.

(** On azure and aoai a complete section has its key looked at: a text that
    starts with neither [${] nor [%] is reported as hardcoded. *)
Lemma host_agent_report_hardcoded_key (host_agent : list (string * yaml)) :
  string_valued "API_TYPE" host_agent →
  azure_section host_agent →
  is_Some (Py.lookup "API_BASE" host_agent) →
  is_Some (Py.lookup "API_KEY" host_agent) →
  is_Some (Py.lookup "API_DEPLOYMENT_ID" host_agent) →
  PyStr.startswith (text_of "API_KEY" host_agent) "${" = false →
  PyStr.startswith (text_of "API_KEY" host_agent) "%" = false →
  (WARNING, "Consider using environment variables for API keys instead of hardcoding them")
  ∈ (host_agent_report host_agent).2.
Proof.
  intros Stype Hazure [base Hbase] [key Hkey] [deployment Hdeployment] Hbrace Hpercent.
  assert (is_Some (Py.lookup "API_TYPE" host_agent)) as Hsome.
  { destruct Hazure as (t & -> & _). eauto. }
  apply (azure_section_in_list host_agent Stype Hsome) in Hazure.
  destruct Hsome as [raw Htype].
  unfold host_agent_report, absent. cbn [List.filter].
  rewrite Htype, Hbase, Hkey, Hdeployment, !decide_some. cbn [negb].
  rewrite bool_decide_eq_true_2 by done. cbn [negb].
  rewrite Hazure, Hbrace, Hpercent. cbn [negb snd orb].
  apply elem_of_app. right. apply elem_of_app. right. by left.
Qed.

(** The deployment rule of [check_config_file] is the prefix [gpt-]. *)
Lemma host_agent_report_deployment (host_agent : list (string * yaml))
    (deployment : string) :
  string_valued "API_TYPE" host_agent →
  azure_section host_agent →
  is_Some (Py.lookup "API_BASE" host_agent) →
  is_Some (Py.lookup "API_KEY" host_agent) →
  Py.lookup "API_DEPLOYMENT_ID" host_agent = Some (YStr deployment) →
  deployment_warnings (host_agent_report host_agent).2
  = (if PyStr.startswith deployment "gpt-" then 1 else 0)%nat.
Proof.
  intros Stype Hazure [base Hbase] [key Hkey] Hdeployment.
  assert (is_Some (Py.lookup "API_TYPE" host_agent)) as Hsome.
  { destruct Hazure as (t & -> & _). eauto. }
  apply (azure_section_in_list host_agent Stype Hsome) in Hazure.
  destruct Hsome as [raw Htype].
  unfold host_agent_report, absent. cbn [List.filter].
  rewrite Htype, Hbase, Hkey, Hdeployment, !decide_some. cbn [negb].
  rewrite bool_decide_eq_true_2 by done. cbn [negb].
  rewrite Hazure. cbn [negb snd].
  rewrite (text_of_field _ _ _ Hdeployment).
  destruct (PyStr.startswith deployment "gpt-"),
    (PyStr.startswith _ "${" || PyStr.startswith _ "%"); reflexivity.
Qed.

End ReportFacts.

(** The two deployment rules differ: gpt-4-turbo is none of the four model
    names, and [check_config_file] warns about it all the same, its test
    being the prefix [gpt-]. *)
Lemma deployment_rule_of_check_config_file_is_a_prefix :
  let host_agent :=
    [("API_TYPE", YStr "azure");
     ("API_BASE", YStr "https://contoso.openai.azure.com");
     ("API_KEY", YStr "${AZURE_OPENAI_API_KEY}");
     ("API_DEPLOYMENT_ID", YStr "gpt-4-turbo")] in
  let P := example_platform [("config", YMap [("HOST_AGENT", YMap host_agent)])]
                            (inr "hello") in
  let w := example_world [(fixed_comprehensive_validation.config_path P, "config")] [] in
  ("gpt-4-turbo" ∉ ["gpt-4"; "gpt-4o"; "gpt-35-turbo"; "gpt-3.5-turbo"])
  ∧ deployment_warnings
      (stdout (fixed_comprehensive_validation.check_config_file P w).2) = 1%nat.
Proof.
  intros host_agent P w. split; [|by vm_compute].
  intros H. apply list_elem_of_In in H. simpl in H. intuition discriminate.
Qed.

(** C5: on an azure or aoai agent section (with API_BASE and API_KEY texts
    when present), [fix_azure_openai_config] prints the warning that
    API_DEPLOYMENT_ID looks like a model name exactly once when the value is
    one of gpt-4, gpt-4o, gpt-35-turbo, gpt-3.5-turbo, and never otherwise;
    [check_config_file] prints it exactly once when the value starts with
    [gpt-], as the four names do, and never otherwise. *)
Theorem heuristic_scanner_deployment_warning (P : platform) (w : world)
    (text : string) (host_agent : list (string * yaml)) :
  next_io_succeeds w →
  azure_section host_agent →
  string_valued "API_BASE" host_agent →
  string_valued "API_KEY" host_agent →
  let listed :=
    ∃ m, m ∈ ["gpt-4"; "gpt-4o"; "gpt-35-turbo"; "gpt-3.5-turbo"]
         ∧ Py.lookup "API_DEPLOYMENT_ID" host_agent = Some (YStr m) in
  (* darbot/fix_azure_config.py *)
  (∀ config : list (string * yaml),
     fs w !! fix_azure_config.config_path P = Some text →
     safe_load P text = inr (YMap config) →
     Py.lookup "HOST_AGENT" config = Some (YMap host_agent) →
     ∃ out,
       stdout (fix_azure_config.fix_azure_openai_config P w).2 = stdout w ++ out
       ∧ (listed → deployment_warnings out = 1%nat)
       ∧ (¬ listed → deployment_warnings out = 0%nat))
  (* fixed_comprehensive_validation.py *)
  ∧ (∀ (config : yaml) (nested : bool) (deployment : string),
       importable P "yaml" = true →
       fs w !! fixed_comprehensive_validation.config_path P = Some text →
       safe_load P text = inr config →
       Py.truthy config = true →
       fixed_comprehensive_validation.find_host_agent config
         = inr (Some (nested, YMap host_agent)) →
       is_Some (Py.lookup "API_BASE" host_agent) →
       is_Some (Py.lookup "API_KEY" host_agent) →
       Py.lookup "API_DEPLOYMENT_ID" host_agent = Some (YStr deployment) →
       ∃ out,
         stdout (fixed_comprehensive_validation.check_config_file P w).2
           = stdout w ++ out
         ∧ (PyStr.startswith deployment "gpt-" = true → deployment_warnings out = 1%nat)
         ∧ (PyStr.startswith deployment "gpt-" = false → deployment_warnings out = 0%nat)
         ∧ (listed → PyStr.startswith deployment "gpt-" = true)).
Proof.
  intros Hio (api_type & Htype & Hazure) Hbase Hkey listed. split.
  - intros config Hfs Hload Hhost.
    assert (listed ↔ ∃ m, m ∈ fix_azure_config.common_model_names
                         ∧ Py.lookup "API_DEPLOYMENT_ID" host_agent = Some (YStr m))
      as Hlisted.
    { subst listed. split; intros (m & Hm & E); exists m; (split; [|done]);
        apply list_elem_of_In in Hm; apply list_elem_of_In; simpl in *; tauto. }
    destruct (get_string_valued _ _ Hbase) as [base Ebase].
    destruct (get_string_valued _ _ Hkey) as [key Ekey].
    cbn [Py.get] in Ebase, Ekey. injection Ebase as Ebase. injection Ekey as Ekey.
    assert (PyStr.in_list (PyStr.lower api_type) ["azure"; "aoai"] = true) as Hin.
    { by destruct Hazure as [-> | ->]. }
    unfold fix_azure_config.fix_azure_openai_config. run. rewrite Hfs.
    rewrite bool_decide_eq_true_2 by eauto.
    unfold next_io_succeeds, next_fault in Hio.
    run. destruct (faults w) as [|[|] rest]; [|done|].
    all: rewrite Hfs, Hload; run;
      rewrite (contains_key _ _ _ Hhost), (getitem_key _ _ _ Hhost);
      run; cbn [Py.get]; rewrite Htype; cbn [from_option id Py.lower]; run;
      rewrite Hin, Ebase, Ekey; run.
    all: match goal with
         | |- context [fix_azure_config.check_common_issues ?pf _ _ ?d ?W] =>
             destruct (check_common_issues_deployment pf base key d W)
               as (issues & out1 & E1 & E2 & Hcount);
             destruct (fix_azure_config.check_common_issues pf _ _ d W)
               as [[e|a] w2]; cbn [fst snd stdout] in E1, E2; [done|]
         end.
    all: destruct a; run.
    all: try (destruct (update_configuration_no_warning P (YMap config)
                (YMap host_agent) (YStr base) (YStr key)
                (default (YStr "") (Py.lookup "API_DEPLOYMENT_ID" host_agent)) w2)
                as (out2 & E3 & Hquiet);
              rewrite E3).
    all: rewrite E2, <- !(assoc_L (++)).
    all: eexists; (split; [reflexivity|]).
    all: rewrite !deployment_warnings_app, Hcount,
           ?(deployment_warnings_no_warning _ Hquiet).
    all: split; intros Hm;
           [ apply Hlisted, deployment_in_model_names in Hm; by rewrite Hm
           | destruct (Py.in_strings _ _) eqn:E;
             [ by apply deployment_in_model_names, Hlisted in E | done ] ].
  - intros config nested deployment Hyaml Hfs Hload Htruthy Hfind Pbase Pkey Hdeployment.
    assert (string_valued "API_TYPE" host_agent) as Stype.
    { intros v Hv. rewrite Htype in Hv. injection Hv as <-. eauto. }
    assert (string_valued "API_DEPLOYMENT_ID" host_agent) as Sdeployment.
    { intros v Hv. rewrite Hdeployment in Hv. injection Hv as <-. eauto. }
    destruct (check_config_file_located P w text config nested host_agent)
      as [_ Hout]; try done.
    eexists. split; [exact Hout|].
    rewrite deployment_warnings_app.
    rewrite (host_agent_report_deployment host_agent deployment) by
      (try done; by exists api_type).
    split; [by intros ->|]. split; [by intros ->|].
    intros (m & Hm & E). rewrite Hdeployment in E. injection E as ->.
    apply list_elem_of_In in Hm. simpl in Hm.
    by destruct Hm as [<- | [<- | [<- | [<- | []]]]].
Qed.

Lemma heuristic_scanner_deployment_warning_witness :
  let section deployment :=
    [("API_TYPE", YStr "azure");
     ("API_BASE", YStr "https://contoso.openai.azure.com");
     ("API_KEY", YStr "0123456789abcdef");
     ("API_DEPLOYMENT_ID", YStr deployment)] in
  let P := example_platform
             [("model", YMap [("HOST_AGENT", YMap (section "gpt-4o"))]);
              ("custom", YMap [("HOST_AGENT", YMap (section "my-custom-deploy"))])]
             (inr "hello") in
  let fix_run text :=
    stdout (fix_azure_config.fix_azure_openai_config P
              (example_world [(fix_azure_config.config_path P, text)] ["n"])).2 in
  let check_run text :=
    stdout (fixed_comprehensive_validation.check_config_file P
              (example_world [(fixed_comprehensive_validation.config_path P, text)]
                             ["n"])).2 in
  deployment_warnings (fix_run "model") = 1%nat
  ∧ deployment_warnings (fix_run "custom") = 0%nat
  ∧ deployment_warnings (check_run "model") = 1%nat
  ∧ deployment_warnings (check_run "custom") = 0%nat.
Proof.
  intros section P fix_run check_run.
  assert (∀ d, azure_section (section d)) as Hazure.
  { intros d. exists "azure". split; [reflexivity | by left]. }
  assert (∀ d field, string_valued field (section d)) as Hstrings.
  { intros d field v Hv. subst section. cbn [Py.lookup] in Hv.
    repeat (destruct (decide _) in Hv; [injection Hv as <-; eauto|]). done. }
  destruct (heuristic_scanner_deployment_warning P
              (example_world [(fix_azure_config.config_path P, "model")] ["n"])
              "model" (section "gpt-4o"))
    as (Hfix1 & Hcheck1); [reflexivity | apply Hazure | apply Hstrings
                          | apply Hstrings |].
  destruct (heuristic_scanner_deployment_warning P
              (example_world [(fix_azure_config.config_path P, "custom")] ["n"])
              "custom" (section "my-custom-deploy"))
    as (Hfix2 & Hcheck2); [reflexivity | apply Hazure | apply Hstrings
                          | apply Hstrings |].
  split; [|split; [|split]].
  - destruct (Hfix1 [("HOST_AGENT", YMap (section "gpt-4o"))])
      as (out & E & Hone & _); [reflexivity | reflexivity | reflexivity |].
    subst fix_run. cbv beta. rewrite E. apply Hone.
    exists "gpt-4o". split; [|reflexivity]. right. by left.
  - destruct (Hfix2 [("HOST_AGENT", YMap (section "my-custom-deploy"))])
      as (out & E & _ & Hnone); [reflexivity | reflexivity | reflexivity |].
    subst fix_run. cbv beta. rewrite E. apply Hnone.
    intros (m & Hm & Em). vm_compute in Em. injection Em as <-.
    apply list_elem_of_In in Hm. simpl in Hm. intuition discriminate.
  - destruct (Hcheck1 (YMap [("HOST_AGENT", YMap (section "gpt-4o"))]) false "gpt-4o")
      as (out & E & Hone & _);
      [reflexivity | reflexivity | reflexivity | reflexivity | reflexivity
      | by eexists | by eexists | reflexivity |].
    subst check_run. cbv beta.
    unfold fixed_comprehensive_validation.config_path.
    unfold fix_azure_config.config_path in E. rewrite E. by apply Hone.
  - destruct (Hcheck2 (YMap [("HOST_AGENT", YMap (section "my-custom-deploy"))])
                false "my-custom-deploy")
      as (out & E & _ & Hnone & _);
      [reflexivity | reflexivity | reflexivity | reflexivity | reflexivity
      | by eexists | by eexists | reflexivity |].
    subst check_run. cbv beta.
    unfold fixed_comprehensive_validation.config_path.
    unfold fix_azure_config.config_path in E. rewrite E. by apply Hnone.
Defined.

(** ** StructuralValidator: the required fields of [check_config_file] *)

(** An empty key is a key: a complete azure section whose API_KEY is the
    empty text passes the required-field check, and the check of the key
    that follows runs on it. *)
Lemma empty_key_is_not_a_missing_field :
  let host_agent :=
    [("API_TYPE", YStr "azure");
     ("API_BASE", YStr "https://contoso.openai.azure.com");
     ("API_KEY", YStr "");
     ("API_DEPLOYMENT_ID", YStr "production")] in
  let P := example_platform [("config", YMap [("HOST_AGENT", YMap host_agent)])]
                            (inr "hello") in
  let w := example_world [(fixed_comprehensive_validation.config_path P, "config")] [] in
  (fixed_comprehensive_validation.check_config_file P w).1 = inr true
  ∧ stdout (fixed_comprehensive_validation.check_config_file P w).2
    = [(HEADER, "Configuration Check");
       (INFO, "Found HOST_AGENT configuration");
       (INFO, "API Type: azure");
       (INFO, "Using Azure OpenAI");
       (WARNING, "Consider using environment variables for API keys instead of hardcoding them");
       (SUCCESS, "Config file has required structure")].
Proof. by vm_compute. Qed.

(** C1: on an agent section whose API_KEY is present and is the empty text,
    [check_config_file] reports no missing API_KEY: it passes exactly when
    API_TYPE and API_BASE are present too (and API_DEPLOYMENT_ID on azure and
    aoai), no error line it prints names API_KEY, and when it passes on azure
    or aoai the check of the key has run and reported a hardcoded key. *)
Theorem empty_key_passes_required_fields (P : platform) (w : world)
    (text : string) (config : yaml) (nested : bool)
    (host_agent : list (string * yaml)) :
  importable P "yaml" = true →
  fs w !! fixed_comprehensive_validation.config_path P = Some text →
  next_io_succeeds w →
  safe_load P text = inr config →
  Py.truthy config = true →
  fixed_comprehensive_validation.find_host_agent config
    = inr (Some (nested, YMap host_agent)) →
  string_valued "API_TYPE" host_agent →
  string_valued "API_DEPLOYMENT_ID" host_agent →
  Py.lookup "API_KEY" host_agent = Some (YStr "") →
  ((fixed_comprehensive_validation.check_config_file P w).1 = inr true
   ↔ is_Some (Py.lookup "API_TYPE" host_agent)
     ∧ is_Some (Py.lookup "API_BASE" host_agent)
     ∧ (azure_section host_agent →
        is_Some (Py.lookup "API_DEPLOYMENT_ID" host_agent)))
  ∧ ∃ out,
      stdout (fixed_comprehensive_validation.check_config_file P w).2
        = stdout w ++ out
      ∧ Forall (fun line => line.1 = ERROR → PyStr.contains "API_KEY" line.2 = false)
               out
      ∧ ((fixed_comprehensive_validation.check_config_file P w).1 = inr true →
         azure_section host_agent →
         (WARNING, "Consider using environment variables for API keys instead of hardcoding them")
         ∈ out).
Proof.
  intros Hyaml Hfs Hio Hload Htruthy Hfind Stype Sdeployment Hkey.
  assert (string_valued "API_KEY" host_agent) as Skey.
  { intros v Hv. rewrite Hkey in Hv. injection Hv as <-. eauto. }
  assert (is_Some (Py.lookup "API_KEY" host_agent)) as Pkey by (rewrite Hkey; eauto).
  destruct (check_config_file_located P w text config nested host_agent)
    as [Hres Hout]; try done.
  pose proof (host_agent_report_result host_agent Stype) as Hiff.
  rewrite Hres, Hout. split.
  - split.
    + intros [= H]. apply Hiff in H. tauto.
    + intros (H1 & H2 & H3). f_equal. apply Hiff. tauto.
  - eexists. split; [reflexivity|]. split.
    + apply Forall_app. split; [by repeat constructor|].
      by apply host_agent_report_key_present.
    + intros [= H] Hazure. apply Hiff in H as (_ & Pbase & _ & Pdeployment).
      apply elem_of_app. right.
      apply host_agent_report_hardcoded_key; try done; [by apply Pdeployment|..];
        by rewrite (text_of_field _ _ _ Hkey).
Qed.

Lemma empty_key_passes_required_fields_witness :
  let host_agent :=
    [("API_TYPE", YStr "azure");
     ("API_BASE", YStr "https://contoso.openai.azure.com");
     ("API_KEY", YStr "");
     ("API_DEPLOYMENT_ID", YStr "production")] in
  let config := YMap [("AGENT_SETTINGS", YMap [("HOST_AGENT", YMap host_agent)])] in
  let P := example_platform [("config", config)] (inr "hello") in
  let w := example_world [(fixed_comprehensive_validation.config_path P, "config")] [] in
  (fixed_comprehensive_validation.check_config_file P w).1 = inr true.
Proof.
  intros host_agent config P w.
  destruct (empty_key_passes_required_fields P w "config" config true host_agent)
    as [Hiff _];
    [reflexivity | reflexivity | reflexivity | reflexivity | reflexivity
    | reflexivity
    | intros v Hv; vm_compute in Hv; injection Hv as <-; eauto
    | intros v Hv; vm_compute in Hv; injection Hv as <-; eauto
    | reflexivity |].
  apply Hiff. split; [by eexists|]. split; [by eexists|]. intros _. by eexists.
Defined.

(** The rules of [check_config_file] are not the ones claimed: an openai
    section without API_BASE fails, an azure section without API_VERSION
    passes, and an unknown provider passes without a warning. *)
Lemma provider_rules_differ :
  let run host_agent :=
    let P := example_platform [("config", YMap [("HOST_AGENT", YMap host_agent)])]
                              (inr "hello") in
    fixed_comprehensive_validation.check_config_file P
      (example_world [(fixed_comprehensive_validation.config_path P, "config")] []) in
  let openai := [("API_TYPE", YStr "openai"); ("API_KEY", YStr "${OPENAI_API_KEY}")] in
  let azure :=
    [("API_TYPE", YStr "azure");
     ("API_BASE", YStr "https://contoso.openai.azure.com");
     ("API_KEY", YStr "${AZURE_OPENAI_API_KEY}");
     ("API_DEPLOYMENT_ID", YStr "production")] in
  let other :=
    [("API_TYPE", YStr "Bedrock");
     ("API_BASE", YStr "https://bedrock.example.com");
     ("API_KEY", YStr "${BEDROCK_API_KEY}")] in
  ((run openai).1 = inr false
   ∧ stdout (run openai).2
     = [(HEADER, "Configuration Check");
        (INFO, "Found HOST_AGENT configuration");
        (ERROR, "Missing required fields in configuration: API_BASE")])
  ∧ (Py.lookup "API_VERSION" azure = None ∧ (run azure).1 = inr true)
  ∧ ((run other).1 = inr true
     ∧ stdout (run other).2
       = [(HEADER, "Configuration Check");
          (INFO, "Found HOST_AGENT configuration");
          (INFO, "API Type: bedrock");
          (SUCCESS, "Config file has required structure")]).
Proof. by vm_compute. Qed.

(** C2: [check_config_file] requires API_TYPE, API_BASE and API_KEY whatever
    the provider, and API_DEPLOYMENT_ID as well when the lower-cased API_TYPE
    is azure or aoai; API_VERSION is not required.  On a located section
    (with texts as API_TYPE, API_KEY and API_DEPLOYMENT_ID when they are
    there) it passes exactly when these keys are present, and fails
    otherwise; for openai and any other provider it requires nothing more
    and prints no warning. *)
Theorem structural_validator_required_fields (P : platform) (w : world)
    (text : string) (config : yaml) (nested : bool)
    (host_agent : list (string * yaml)) :
  importable P "yaml" = true →
  fs w !! fixed_comprehensive_validation.config_path P = Some text →
  next_io_succeeds w →
  safe_load P text = inr config →
  Py.truthy config = true →
  fixed_comprehensive_validation.find_host_agent config
    = inr (Some (nested, YMap host_agent)) →
  string_valued "API_TYPE" host_agent →
  string_valued "API_KEY" host_agent →
  string_valued "API_DEPLOYMENT_ID" host_agent →
  let required :=
    is_Some (Py.lookup "API_TYPE" host_agent)
    ∧ is_Some (Py.lookup "API_BASE" host_agent)
    ∧ is_Some (Py.lookup "API_KEY" host_agent)
    ∧ (azure_section host_agent →
       is_Some (Py.lookup "API_DEPLOYMENT_ID" host_agent)) in
  (required → (fixed_comprehensive_validation.check_config_file P w).1 = inr true)
  ∧ (¬ required →
     (fixed_comprehensive_validation.check_config_file P w).1 = inr false)
  ∧ (¬ azure_section host_agent →
     ∃ out,
       stdout (fixed_comprehensive_validation.check_config_file P w).2
         = stdout w ++ out
       ∧ Forall (fun line => line.1 ≠ WARNING) out).
Proof.
  intros Hyaml Hfs Hio Hload Htruthy Hfind Stype Skey Sdeployment required.
  destruct (check_config_file_located P w text config nested host_agent)
    as [Hres Hout]; try done.
  pose proof (host_agent_report_result host_agent Stype) as Hiff.
  fold required in Hiff.
  rewrite Hres, Hout. split; [|split].
  - intros H. f_equal. by apply Hiff.
  - intros H. f_equal. destruct (host_agent_report host_agent).1; [|done].
    by destruct H; apply Hiff.
  - intros Hother. eexists. split; [reflexivity|].
    apply Forall_app. split; [by repeat constructor|].
    by apply host_agent_report_other_provider.
Qed.

Lemma structural_validator_required_fields_witness :
  let host_agent :=
    [("API_TYPE", YStr "OpenAI");
     ("API_BASE", YStr "https://api.openai.com/v1");
     ("API_KEY", YStr "${OPENAI_API_KEY}")] in
  let config := YMap [("AGENT_SETTINGS", YMap [("HOST_AGENT", YMap host_agent)])] in
  let P := example_platform [("config", config)] (inr "hello") in
  let w := example_world [(fixed_comprehensive_validation.config_path P, "config")] [] in
  (fixed_comprehensive_validation.check_config_file P w).1 = inr true
  ∧ Forall (fun line => line.1 ≠ WARNING)
           (stdout (fixed_comprehensive_validation.check_config_file P w).2).
Proof.
  intros host_agent config P w.
  assert (¬ azure_section host_agent) as Hother.
  { intros (api_type & Hv & Hazure). vm_compute in Hv. injection Hv as <-.
    vm_compute in Hazure. by destruct Hazure. }
  destruct (structural_validator_required_fields P w "config" config true host_agent)
    as (Hpass & _ & Hquiet);
    [reflexivity | reflexivity | reflexivity | reflexivity | reflexivity
    | reflexivity
    | intros v Hv; vm_compute in Hv; injection Hv as <-; eauto
    | intros v Hv; vm_compute in Hv; injection Hv as <-; eauto
    | intros v Hv; vm_compute in Hv; discriminate |].
  split.
  - apply Hpass. split; [by eexists|]. split; [by eexists|]. split; [by eexists|].
    intros Hazure. by destruct Hother.
  - destruct (Hquiet Hother) as (out & E & Hout). by rewrite E.
Defined.

(** ** The fix-configuration flow: backup before overwrite *)

Section FileEffects.

Lemma leaves_files_refl (w : world) : leaves_files w w.
Proof. split; [done|]. exists []. by rewrite app_nil_r. Qed.

Lemma leaves_files_trans (w w1 w2 : world) :
  leaves_files w w1 → leaves_files w1 w2 → leaves_files w w2.
Proof.
  intros [F1 (r1 & T1 & R1)] [F2 (r2 & T2 & R2)]. split; [congruence|].
  exists (r1 ++ r2). rewrite T2, T1, (assoc_L (++)). split; [done|].
  by apply Forall_app.
Qed.

Lemma read_only_ret {A} (a : A) : read_only (ret a).
Proof. intros w. apply leaves_files_refl. Qed.

Lemma read_only_raise {A} (e : exn) : read_only (@raise A e).
Proof. intros w. apply leaves_files_refl. Qed.

Lemma read_only_lift {A} (r : result A) : read_only (lift r).
Proof. destruct r; [apply read_only_raise | apply read_only_ret]. Qed.

Lemma read_only_emit (l : level) (text : string) : read_only (emit l text).
Proof. intros w. split; [done|]. exists []. by rewrite app_nil_r. Qed.

Lemma read_only_bind {A B} (c : M A) (k : A → M B) :
  read_only c → (∀ a, read_only (k a)) → read_only (c ≫= k).
Proof.
  intros Hc Hk w. specialize (Hc w).
  unfold mbind, M_bind, bind. destruct (c w) as [[e|a] w1]; [done|].
  eapply leaves_files_trans; [exact Hc | apply Hk].
Qed.

Lemma read_only_try_except {A} (c : M A) (h : exn → M A) :
  read_only c → (∀ e, read_only (h e)) → read_only (try_except c h).
Proof.
  intros Hc Hh w. specialize (Hc w).
  unfold try_except. destruct (c w) as [[e|a] w1]; [|done].
  eapply leaves_files_trans; [exact Hc | apply Hh].
Qed.

Lemma read_only_attempt {A} (c : M A) : read_only c → read_only (attempt c).
Proof. intros Hc w. specialize (Hc w). unfold attempt. by destruct (c w). Qed.

Lemma read_only_exists (path : string) : read_only (exists_ path).
Proof. intros w. apply leaves_files_refl. Qed.

Lemma read_only_read_text (path : string) : read_only (read_text path).
Proof.
  intros w. unfold read_text.
  assert (Forall is_read [ReadAll path]) by (by repeat constructor).
  destruct (next_fault w) as [[|] rest]; [|destruct (fs w !! path)];
    (split; [done|]; by exists [ReadAll path]).
Qed.

Lemma read_only_input : read_only input.
Proof.
  intros w. unfold input. destruct (stdin w); [apply leaves_files_refl|].
  split; [done|]. exists []. by rewrite app_nil_r.
Qed.

End FileEffects.

Ltac reads :=
  repeat first
    [ apply read_only_ret | apply read_only_raise | apply read_only_lift
    | apply read_only_exists | apply read_only_read_text | apply read_only_input
    | apply read_only_emit
    | apply read_only_attempt
    | apply read_only_bind; [|intros ?]
    | apply read_only_try_except; [|intros ?]
    | match goal with
      | |- read_only (if ?b then _ else _) => destruct b
      | |- read_only (match ?x with _ => _ end) => destruct x
      end ].

Section BackupBeforeOverwrite.
Import fix_azure_config.
Context (P : platform).




















End BackupBeforeOverwrite.



(** The same run, computed: the deployment name is replaced, the backup is
    written and only then the original. *)
Example fix_run_overwrites_after_backup :
  let host_agent :=
    [("API_TYPE", YStr "azure");
     ("API_BASE", YStr "https://contoso.openai.azure.com");
     ("API_KEY", YStr "0123456789abcdef");
     ("API_DEPLOYMENT_ID", YStr "gpt-4o")] in
  let P := example_platform [("original", YMap [("HOST_AGENT", YMap host_agent)])]
                            (inr "hello") in
  let w := example_world [(fix_azure_config.config_path P, "original")]
                         ["y"; "production"] in
  let w' := (fix_azure_config.fix_azure_openai_config P w).2 in
  io_trace w'
  = [ReadAll (fix_azure_config.config_path P);
     OpenedForWrite (fix_azure_config.backup_path P);
     ReadAll (fix_azure_config.config_path P);
     Wrote (fix_azure_config.backup_path P) "original";
     OpenedForWrite (fix_azure_config.config_path P);
     Wrote (fix_azure_config.config_path P) "HOST_AGENT: {}"]
  ∧ fs w' !! fix_azure_config.backup_path P = Some "original"
  ∧ fs w' !! fix_azure_config.config_path P = Some "HOST_AGENT: {}".
Proof. by vm_compute. Qed.

(** A failure while the backup is written stops the flow with the original
    untouched. *)
Example fix_run_backup_failure :
  let host_agent :=
    [("API_TYPE", YStr "azure"); ("API_BASE", YStr "");
     ("API_KEY", YStr "0123456789abcdef"); ("API_DEPLOYMENT_ID", YStr "production")] in
  let P := example_platform [("original", YMap [("HOST_AGENT", YMap host_agent)])]
                            (inr "hello") in
  let w := World {[ fix_azure_config.config_path P := "original" ]} ∅
                 ["y"; "https://contoso.openai.azure.com"]
                 [false; false; false; true] [] [] [] in
  let r := fix_azure_config.fix_azure_openai_config P w in
  r.1 = inr false
  ∧ fs r.2 !! fix_azure_config.config_path P = Some "original"
  ∧ fs r.2 !! fix_azure_config.backup_path P = Some "".
Proof. by vm_compute. Qed.

(** ** ConnectivityProber: the default API version *)

Section DefaultApiVersion.
Context (P : platform).

(** [check_azure_deployment] of darbot_validation.py: for an azure or aoai
    section without API_VERSION the client is built with
    "2024-02-15-preview"; the request goes through it, and the outcome of
    the check is the outcome of that request. *)
Lemma check_azure_deployment_default_version (w : world) (text api_type line : string)
    (rest : list string) (config host_agent : list (string * yaml))
    (api_base api_key : yaml) :
  importable P "yaml" = true →
  importable P "openai" = true →
  fs w !! darbot_validation.config_path P = Some text →
  next_io_succeeds w →
  safe_load P text = inr (YMap config) →
  Py.lookup "HOST_AGENT" config = Some (YMap host_agent) →
  Py.lookup "API_TYPE" host_agent = Some (YStr api_type) →
  PyStr.lower api_type = "azure" ∨ PyStr.lower api_type = "aoai" →
  stdin w = line :: rest →
  PyStr.lower (PyStr.strip line) = "y" →
  Py.lookup "API_BASE" host_agent = Some api_base →
  Py.lookup "API_KEY" host_agent = Some api_key →
  Py.lookup "API_VERSION" host_agent = None →
  let client := AzureOpenAI api_base api_key (YStr "2024-02-15-preview") in
  let probe :=
    Request client (default (YStr "") (Py.lookup "API_DEPLOYMENT_ID" host_agent))
            "Say hello" 10 in
  match client_error P client (environ w) with
  | Some e =>
      sent (darbot_validation.check_azure_deployment P w).2 = sent w
      ∧ (darbot_validation.check_azure_deployment P w).1 = inr false
  | None =>
      sent (darbot_validation.check_azure_deployment P w).2 = sent w ++ [probe]
      ∧ ((darbot_validation.check_azure_deployment P w).1 = inr true
         ↔ ∃ reply, create P probe = inr reply)
  end.
Proof.
  intros Hyaml Hopenai Hfs Hio Hload Hhost Htype Hazure Hstdin Hyes
    Hbase Hkey Hversion client probe.
  assert (PyStr.in_list (PyStr.lower api_type) ["aoai"; "azure"] = true) as Hin.
  { by destruct Hazure as [-> | ->]. }
  unfold darbot_validation.check_azure_deployment, darbot_validation.connection_test.
  unfold import. rewrite Hyaml, Hopenai. run. rewrite Hfs.
  rewrite bool_decide_eq_true_2 by eauto.
  unfold next_io_succeeds, next_fault in Hio.
  run. destruct (faults w) as [|[|] more]; [|done|].
  all: rewrite Hfs, Hload; run;
    rewrite (contains_key _ _ _ Hhost), (getitem_key _ _ _ Hhost); run;
    cbn [Py.get]; rewrite Htype; cbn [from_option id Py.lower]; run;
    rewrite Hin; run; rewrite Hstdin; run; rewrite Hyes;
    change (PyStr.eqb "y" "y") with true; run;
    rewrite (getitem_key _ _ _ Hbase), (getitem_key _ _ _ Hkey), Hversion;
    cbn [from_option id]; run; fold client.
  all: unfold darbot_validation.connection_failed;
    destruct (client_error P client (environ w)) as [e|]; run;
    [ destruct (darbot_validation.deployment_not_found _); by run
    | fold probe; destruct (create P probe) as [e|reply]; run;
      [ destruct (darbot_validation.deployment_not_found _); run;
        (split; [done|]; split; [done | by intros [? ?]])
      | split; [done|]; split; [by eexists | done] ] ].
Qed.

Lemma guidance_runs (c : category) (api_deployment api_base : yaml) (w : world) :
  (test_api_connectivity.guidance P c api_deployment api_base w).1 = inr tt
  ∧ sent (test_api_connectivity.guidance P c api_deployment api_base w).2 = sent w.
Proof. by destruct c. Qed.

(** [test_azure_openai_direct] of test_api_connectivity.py: for an azure
    section (found under AGENT_SETTINGS) without API_VERSION the client is
    built with "2024-05-01". *)
Lemma test_azure_openai_direct_default_version (w : world) (text api_type : string)
    (config settings host_agent : list (string * yaml))
    (api_base api_key api_deployment : yaml) :
  importable P "openai" = true →
  fs w !! test_api_connectivity.config_path P = Some text →
  next_io_succeeds w →
  safe_load P text = inr (YMap config) →
  Py.lookup "AGENT_SETTINGS" config = Some (YMap settings) →
  Py.lookup "HOST_AGENT" settings = Some (YMap host_agent) →
  Py.lookup "API_TYPE" host_agent = Some (YStr api_type) →
  PyStr.lower api_type = "azure" →
  Py.lookup "API_BASE" host_agent = Some api_base →
  Py.lookup "API_KEY" host_agent = Some api_key →
  Py.lookup "API_DEPLOYMENT_ID" host_agent = Some api_deployment →
  Py.truthy api_base = true →
  Py.truthy api_key = true →
  Py.truthy api_deployment = true →
  Py.lookup "API_VERSION" host_agent = None →
  let client := AzureOpenAI api_base api_key (YStr "2024-05-01") in
  let probe := Request client api_deployment "Hello, Azure OpenAI!" 10 in
  match client_error P client (environ w) with
  | Some e =>
      sent (test_api_connectivity.test_azure_openai_direct P w).2 = sent w
      ∧ (test_api_connectivity.test_azure_openai_direct P w).1 = inr false
  | None =>
      sent (test_api_connectivity.test_azure_openai_direct P w).2 = sent w ++ [probe]
      ∧ ((test_api_connectivity.test_azure_openai_direct P w).1 = inr true
         ↔ ∃ reply, create P probe = inr reply)
  end.
Proof.
  intros Hopenai Hfs Hio Hload Hsettings Hhost Htype Hazure Hbase Hkey Hdeployment
    Tbase Tkey Tdeployment Hversion client probe.
  assert (Py.truthy (YMap config) = true) as Htruthy.
  { by destruct config. }
  unfold test_api_connectivity.test_azure_openai_direct,
    test_api_connectivity.load_config.
  unfold import. rewrite Hopenai. run. rewrite Hfs.
  rewrite bool_decide_eq_true_2 by eauto.
  unfold next_io_succeeds, next_fault in Hio.
  run. destruct (faults w) as [|[|] more]; [|done|].
  all: rewrite Hfs, Hload; run; rewrite Htruthy; run;
    cbn [Py.get]; rewrite Hsettings; cbn [from_option id]; run;
    cbn [Py.get]; rewrite Hhost; cbn [from_option id]; run;
    cbn [Py.get]; rewrite Htype; cbn [from_option id Py.lower]; run;
    rewrite Hazure; change (PyStr.eqb "azure" "azure") with true; run;
    cbn [Py.get]; rewrite Hbase, Hkey, Hdeployment, Hversion;
    cbn [from_option id]; run;
    rewrite Tbase, Tkey, Tdeployment; cbn [negb orb]; run; fold client.
  all: destruct (client_error P client (environ w)) as [e|]; run;
    [ by destruct e; run
    | fold probe; destruct (create P probe) as [e|reply]; run;
      [ match goal with
        | |- context [test_api_connectivity.guidance ?pf ?c ?d ?b ?W] =>
            destruct (guidance_runs c d b W) as [G1 G2];
            destruct (test_api_connectivity.guidance pf c d b W) as [[e'|[]] w2];
            cbn [fst snd] in G1, G2; [done|]
        end; run;
        (split; [done|]; split; [done | by intros [? ?]])
      | split; [done|]; split; [by eexists | done] ] ].
Qed.

(** The resolution of a setting that is a text: a reference to a variable
    that is set gives the value of the variable, any other text itself. *)
Lemma resolve_env_var_text (w : world) (s : string) :
  resolvable w s →
  fixed_comprehensive_validation.resolve_env_var (YStr s) w
  = (inr (Some (YStr (resolved w s))), w).
Proof.
  unfold resolvable, resolved. destruct (is_reference s) eqn:Href.
  - intros Hset. specialize (Hset eq_refl).
    unfold is_reference in Href. apply andb_true_iff in Href as [Hs He].
    unfold fixed_comprehensive_validation.resolve_env_var.
    cbn [Py.startswith Py.endswith]. rewrite Hs. run. rewrite He.
    cbn [Py.truthy]. unfold PyStr.eqb. by rewrite bool_decide_eq_false_2.
  - intros _. by apply resolve_literal.
Qed.

(** [check_api_connectivity] of fixed_comprehensive_validation.py: for an
    azure or aoai section without API_VERSION, whose other settings are
    texts (references to variables that are set, or literals), the client is
    built with "2024-02-15-preview". *)
Lemma check_api_connectivity_default_version (w : world)
    (text api_type line api_base api_key api_deployment : string)
    (rest : list string) (config : yaml) (nested : bool)
    (host_agent : list (string * yaml)) :
  importable P "yaml" = true →
  importable P "openai" = true →
  fs w !! fixed_comprehensive_validation.config_path P = Some text →
  next_io_succeeds w →
  stdin w = line :: rest →
  PyStr.lower (PyStr.strip line) = "y" →
  safe_load P text = inr config →
  fixed_comprehensive_validation.find_host_agent config
    = inr (Some (nested, YMap host_agent)) →
  Py.lookup "API_TYPE" host_agent = Some (YStr api_type) →
  PyStr.lower api_type = "azure" ∨ PyStr.lower api_type = "aoai" →
  Py.lookup "API_BASE" host_agent = Some (YStr api_base) →
  Py.lookup "API_KEY" host_agent = Some (YStr api_key) →
  Py.lookup "API_DEPLOYMENT_ID" host_agent = Some (YStr api_deployment) →
  resolvable w api_base →
  resolvable w api_key →
  resolvable w api_deployment →
  Py.lookup "API_VERSION" host_agent = None →
  let client :=
    AzureOpenAI (YStr (resolved w api_base)) (YStr (resolved w api_key))
                (YStr "2024-02-15-preview") in
  let probe := Request client (YStr (resolved w api_deployment)) "Say hello" 10 in
  match client_error P client (environ w) with
  | Some e =>
      sent (fixed_comprehensive_validation.check_api_connectivity P w).2 = sent w
      ∧ (fixed_comprehensive_validation.check_api_connectivity P w).1 = inr false
  | None =>
      sent (fixed_comprehensive_validation.check_api_connectivity P w).2
        = sent w ++ [probe]
      ∧ ((fixed_comprehensive_validation.check_api_connectivity P w).1 = inr true
         ↔ ∃ reply, create P probe = inr reply)
  end.
Proof.
  intros Hyaml Hopenai Hfs Hio Hstdin Hyes Hload Hfind Htype Hazure
    Hbase Hkey Hdeployment Lbase Lkey Ldeployment Hversion client probe.
  assert (PyStr.in_list (PyStr.lower api_type) ["azure"; "aoai"] = true) as Hin.
  { by destruct Hazure as [-> | ->]. }
  assert (∀ files input faults out trace requests s,
            resolved (World files (environ w) input faults out trace requests) s
            = resolved w s) as Hsame by done.
  assert (∀ files input faults out trace requests s,
            resolvable w s →
            resolvable (World files (environ w) input faults out trace requests) s)
    as Hstill by done.
  unfold fixed_comprehensive_validation.check_api_connectivity,
    fixed_comprehensive_validation.test_azure.
  unfold import. rewrite Hyaml, Hopenai. run. rewrite Hfs.
  rewrite bool_decide_eq_true_2 by eauto.
  run. rewrite Hstdin. run. rewrite Hyes. change (PyStr.eqb "y" "y") with true.
  unfold next_io_succeeds, next_fault in Hio.
  run. destruct (faults w) as [|[|] more]; [|done|].
  all: rewrite Hfs, Hload; run; rewrite Hfind; run;
    rewrite (getitem_key _ _ _ Htype); cbn [Py.lower]; run; rewrite Hin; run;
    rewrite (getitem_key _ _ _ Hbase), (getitem_key _ _ _ Hkey),
      (getitem_key _ _ _ Hdeployment); run;
    cbn [Py.get]; rewrite Hversion; cbn [from_option id]; run;
    rewrite (resolve_env_var_text _ _ (Hstill _ _ _ _ _ _ _ Lkey)), Hsame; run;
    rewrite (resolve_env_var_text _ _ (Hstill _ _ _ _ _ _ _ Lbase)), Hsame; run;
    rewrite (resolve_env_var_text _ _ (Hstill _ _ _ _ _ _ _ Ldeployment)), Hsame;
    run; fold client.
  all: destruct (client_error P client (environ w)) as [e|]; run;
    [ destruct (PyStr.contains "unavailable_model" _); by run
    | fold probe; destruct (create P probe) as [e|reply]; run;
      [ destruct (PyStr.contains "unavailable_model" _); run;
        (split; [done|]; split; [done | by intros [? ?]])
      | split; [done|]; split; [by eexists | done] ] ].
Qed.

End DefaultApiVersion.

(** The direct test takes no aoai section for an Azure one: on a complete
    aoai section without API_VERSION it sends no probe, with no default or
    any other version, where the two other checks send theirs. *)
Lemma direct_test_skips_aoai :
  let host_agent :=
    [("API_TYPE", YStr "aoai");
     ("API_BASE", YStr "https://contoso.openai.azure.com");
     ("API_KEY", YStr "0123456789abcdef");
     ("API_DEPLOYMENT_ID", YStr "production")] in
  let P := example_platform
             [("nested", YMap [("AGENT_SETTINGS", YMap [("HOST_AGENT", YMap host_agent)])]);
              ("top", YMap [("HOST_AGENT", YMap host_agent)])]
             (inr "Hello!") in
  let direct := test_api_connectivity.test_azure_openai_direct P
                  (example_world [(test_api_connectivity.config_path P, "nested")] []) in
  let deployment := darbot_validation.check_azure_deployment P
                      (example_world [(darbot_validation.config_path P, "top")] ["y"]) in
  Py.lookup "API_VERSION" host_agent = None
  ∧ direct.1 = inr true
  ∧ stdout direct.2
    = [(INFO, "Not using Azure OpenAI, skipping direct Azure OpenAI test")]
  ∧ sent direct.2 = []
  ∧ length (sent deployment.2) = 1%nat.
Proof. by vm_compute. Qed.

(** C10: an azure or aoai agent section in which API_VERSION is absent does
    not make the connectivity check fail: the client is built with the
    built-in default version, "2024-02-15-preview" in darbot_validation.py
    and fixed_comprehensive_validation.py and "2024-05-01" in
    test_api_connectivity.py (which probes azure sections only).  When the
    SDK builds the client, the request is sent through it and the check
    succeeds exactly when that request does; when the SDK refuses the
    settings, the check fails without a request. *)
Theorem connectivity_check_default_api_version (P : platform) (w : world)
    (text : string) (host_agent : list (string * yaml)) :
  importable P "yaml" = true →
  importable P "openai" = true →
  next_io_succeeds w →
  Py.lookup "API_VERSION" host_agent = None →
  (* darbot_validation.py *)
  (∀ (api_type line : string) (rest : list string)
     (config : list (string * yaml)) (api_base api_key : yaml),
     fs w !! darbot_validation.config_path P = Some text →
     safe_load P text = inr (YMap config) →
     Py.lookup "HOST_AGENT" config = Some (YMap host_agent) →
     Py.lookup "API_TYPE" host_agent = Some (YStr api_type) →
     PyStr.lower api_type = "azure" ∨ PyStr.lower api_type = "aoai" →
     stdin w = line :: rest →
     PyStr.lower (PyStr.strip line) = "y" →
     Py.lookup "API_BASE" host_agent = Some api_base →
     Py.lookup "API_KEY" host_agent = Some api_key →
     let client := AzureOpenAI api_base api_key (YStr "2024-02-15-preview") in
     let probe :=
       Request client (default (YStr "") (Py.lookup "API_DEPLOYMENT_ID" host_agent))
               "Say hello" 10 in
     match client_error P client (environ w) with
     | Some e =>
         sent (darbot_validation.check_azure_deployment P w).2 = sent w
         ∧ (darbot_validation.check_azure_deployment P w).1 = inr false
     | None =>
         sent (darbot_validation.check_azure_deployment P w).2 = sent w ++ [probe]
         ∧ ((darbot_validation.check_azure_deployment P w).1 = inr true
            ↔ ∃ reply, create P probe = inr reply)
     end)
  (* fixed_comprehensive_validation.py *)
  ∧ (∀ (api_type line api_base api_key api_deployment : string)
       (rest : list string) (config : yaml) (nested : bool),
       fs w !! fixed_comprehensive_validation.config_path P = Some text →
       stdin w = line :: rest →
       PyStr.lower (PyStr.strip line) = "y" →
       safe_load P text = inr config →
       fixed_comprehensive_validation.find_host_agent config
         = inr (Some (nested, YMap host_agent)) →
       Py.lookup "API_TYPE" host_agent = Some (YStr api_type) →
       PyStr.lower api_type = "azure" ∨ PyStr.lower api_type = "aoai" →
       Py.lookup "API_BASE" host_agent = Some (YStr api_base) →
       Py.lookup "API_KEY" host_agent = Some (YStr api_key) →
       Py.lookup "API_DEPLOYMENT_ID" host_agent = Some (YStr api_deployment) →
       resolvable w api_base →
       resolvable w api_key →
       resolvable w api_deployment →
       let client :=
         AzureOpenAI (YStr (resolved w api_base)) (YStr (resolved w api_key))
                     (YStr "2024-02-15-preview") in
       let probe :=
         Request client (YStr (resolved w api_deployment)) "Say hello" 10 in
       match client_error P client (environ w) with
       | Some e =>
           sent (fixed_comprehensive_validation.check_api_connectivity P w).2
             = sent w
           ∧ (fixed_comprehensive_validation.check_api_connectivity P w).1
             = inr false
       | None =>
           sent (fixed_comprehensive_validation.check_api_connectivity P w).2
             = sent w ++ [probe]
           ∧ ((fixed_comprehensive_validation.check_api_connectivity P w).1
                = inr true
              ↔ ∃ reply, create P probe = inr reply)
       end)
  (* test_api_connectivity.py *)
  ∧ (∀ (api_type : string) (config settings : list (string * yaml))
       (api_base api_key api_deployment : yaml),
       fs w !! test_api_connectivity.config_path P = Some text →
       safe_load P text = inr (YMap config) →
       Py.lookup "AGENT_SETTINGS" config = Some (YMap settings) →
       Py.lookup "HOST_AGENT" settings = Some (YMap host_agent) →
       Py.lookup "API_TYPE" host_agent = Some (YStr api_type) →
       PyStr.lower api_type = "azure" →
       Py.lookup "API_BASE" host_agent = Some api_base →
       Py.lookup "API_KEY" host_agent = Some api_key →
       Py.lookup "API_DEPLOYMENT_ID" host_agent = Some api_deployment →
       Py.truthy api_base = true →
       Py.truthy api_key = true →
       Py.truthy api_deployment = true →
       let client := AzureOpenAI api_base api_key (YStr "2024-05-01") in
       let probe := Request client api_deployment "Hello, Azure OpenAI!" 10 in
       match client_error P client (environ w) with
       | Some e =>
           sent (test_api_connectivity.test_azure_openai_direct P w).2 = sent w
           ∧ (test_api_connectivity.test_azure_openai_direct P w).1 = inr false
       | None =>
           sent (test_api_connectivity.test_azure_openai_direct P w).2
             = sent w ++ [probe]
           ∧ ((test_api_connectivity.test_azure_openai_direct P w).1 = inr true
              ↔ ∃ reply, create P probe = inr reply)
       end).
Proof.
  intros Hyaml Hopenai Hio Hversion. split; [|split].
  - intros. by eapply check_azure_deployment_default_version.
  - intros. by eapply check_api_connectivity_default_version.
  - intros. by eapply test_azure_openai_direct_default_version.
Qed.

Lemma connectivity_check_default_api_version_witness :
  let host_agent :=
    [("API_TYPE", YStr "AOAI");
     ("API_BASE", YStr "https://contoso.openai.azure.com");
     ("API_KEY", YStr "${AZURE_OPENAI_API_KEY}");
     ("API_DEPLOYMENT_ID", YStr "production")] in
  let P := example_platform [("config", YMap [("HOST_AGENT", YMap host_agent)])]
                            (inr "Hello!") in
  let w := World {[ darbot_validation.config_path P := "config" ]}
                 {[ "AZURE_OPENAI_API_KEY" := "0123456789abcdef" ]}
                 ["Y"] [] [] [] [] in
  sent (darbot_validation.check_azure_deployment P w).2
  = [Request (AzureOpenAI (YStr "https://contoso.openai.azure.com")
                          (YStr "${AZURE_OPENAI_API_KEY}")
                          (YStr "2024-02-15-preview"))
             (YStr "production") "Say hello" 10]
  ∧ sent (fixed_comprehensive_validation.check_api_connectivity P w).2
    = [Request (AzureOpenAI (YStr "https://contoso.openai.azure.com")
                            (YStr "0123456789abcdef") (YStr "2024-02-15-preview"))
               (YStr "production") "Say hello" 10].
Proof.
  intros host_agent P w.
  destruct (connectivity_check_default_api_version P w "config" host_agent)
    as (Hdarbot & Hfixed & _); [reflexivity | reflexivity | reflexivity | reflexivity |].
  split.
  - exact (proj1 (Hdarbot "AOAI" "Y" [] [("HOST_AGENT", YMap host_agent)]
                    (YStr "https://contoso.openai.azure.com")
                    (YStr "${AZURE_OPENAI_API_KEY}")
                    eq_refl eq_refl eq_refl eq_refl (or_intror eq_refl)
                    eq_refl eq_refl eq_refl eq_refl)).
  - assert (∀ s : string, s ∈ ["https://contoso.openai.azure.com"; "production"] →
                          resolvable w s) as Hliteral.
    { intros s Hs Href. apply list_elem_of_In in Hs. simpl in Hs.
      destruct Hs as [<- | [<- | []]]; discriminate. }
    assert (resolvable w "${AZURE_OPENAI_API_KEY}") as Hset.
    { intros _. by vm_compute. }
    exact (proj1 (Hfixed "AOAI" "Y" "https://contoso.openai.azure.com"
                    "${AZURE_OPENAI_API_KEY}" "production" []
                    (YMap [("HOST_AGENT", YMap host_agent)]) false
                    eq_refl eq_refl eq_refl eq_refl eq_refl eq_refl
                    (or_intror eq_refl) eq_refl eq_refl eq_refl
                    (Hliteral _ ltac:(by left)) Hset
                    (Hliteral _ ltac:(by right; left)))).
Defined.

(** The third script reads the section under AGENT_SETTINGS, with its own
    default. *)
Example test_azure_openai_direct_probe :
  let host_agent :=
    [("API_TYPE", YStr "azure");
     ("API_BASE", YStr "https://contoso.openai.azure.com");
     ("API_KEY", YStr "0123456789abcdef");
     ("API_DEPLOYMENT_ID", YStr "production")] in
  let P := example_platform
             [("config", YMap [("AGENT_SETTINGS", YMap [("HOST_AGENT", YMap host_agent)])])]
             (inr "Hello!") in
  let r := test_api_connectivity.test_azure_openai_direct P
             (example_world [(test_api_connectivity.config_path P, "config")] []) in
  r.1 = inr true
  ∧ sent r.2
    = [Request (AzureOpenAI (YStr "https://contoso.openai.azure.com")
                            (YStr "0123456789abcdef") (YStr "2024-05-01"))
               (YStr "production") "Hello, Azure OpenAI!" 10].
Proof. by vm_compute. Qed.

(** * Further properties of the scripts *)

(** ** Checks that end with a value *)

Section NeverRaises.

Lemma never_raises_ret {A} (a : A) : never_raises (ret a).
Proof. intros w. by exists a. Qed.

Lemma never_raises_emit (l : level) (text : string) : never_raises (emit l text).
Proof. intros w. by exists tt. Qed.

Lemma never_raises_exists (path : string) : never_raises (exists_ path).
Proof. intros w. by eexists. Qed.

Lemma never_raises_environ_get (name : string) : never_raises (environ_get name).
Proof. intros w. by eexists. Qed.

Lemma never_raises_bind {A B} (c : M A) (k : A → M B) :
  never_raises c → (∀ a, never_raises (k a)) → never_raises (c ≫= k).
Proof.
  intros Hc Hk w. destruct (Hc w) as [a Ha].
  unfold mbind, M_bind, bind. destruct (c w) as [[e|a'] w1]; [done|].
  apply Hk.
Qed.

(** A [try] whose handler catches every exception and does not raise. *)
Lemma never_raises_try_except {A} (c : M A) (h : exn → M A) :
  (∀ e, never_raises (h e)) → never_raises (try_except c h).
Proof.
  intros Hh w. unfold try_except. destruct (c w) as [[e|a] w1].
  - apply Hh.
  - by exists a.
Qed.

Lemma never_raises_attempt {A} (c : M A) : never_raises (attempt c).
Proof. intros w. unfold attempt. destruct (c w) as [r w1]. by exists r. Qed.

End NeverRaises.

Ltac total :=
  repeat first
    [ apply never_raises_ret | apply never_raises_emit | apply never_raises_exists
    | apply never_raises_environ_get | apply never_raises_attempt
    | apply never_raises_try_except; intros ?
    | apply never_raises_bind; [|intros ?]
    | match goal with
      | |- never_raises (if ?b then _ else _) => destruct b
      | |- never_raises (match ?x with _ => _ end) => destruct x
      end ].

Section GuardedChecks.
Context (P : platform).



End GuardedChecks.

(** ** Computations that only print *)

Section Prints.

Lemma console_only_refl (w : world) : console_only w w.
Proof. by repeat split. Qed.

Lemma console_only_trans (w w1 w2 : world) :
  console_only w w1 → console_only w1 w2 → console_only w w2.
Proof.
  intros (A1 & A2 & A3 & A4 & A5 & A6) (B1 & B2 & B3 & B4 & B5 & B6).
  repeat split; congruence.
Qed.

Lemma prints_and_returns_ret {A} (a : A) : prints_and_returns (ret a) a.
Proof. intros w. split; [done | apply console_only_refl]. Qed.

Lemma prints_and_returns_emit (l : level) (text : string) :
  prints_and_returns (emit l text) tt.
Proof. intros w. by repeat split. Qed.

Lemma prints_and_returns_bind {A B} (c : M A) (k : A → M B) (a : A) (b : B) :
  prints_and_returns c a → prints_and_returns (k a) b →
  prints_and_returns (c ≫= k) b.
Proof.
  intros Hc Hk w. destruct (Hc w) as [E C]. rewrite bind_run.
  destruct (c w) as [[e|a'] w1]; cbn [fst snd] in *; [done|].
  injection E as ->. destruct (Hk w1) as [E' C']. split; [done|].
  by eapply console_only_trans.
Qed.

End Prints.

(** Decomposes a chain of [print]s that ends in a [return]. *)
Ltac prints :=
  repeat match goal with
         | |- prints_and_returns (ret _) _ => apply prints_and_returns_ret
         | |- prints_and_returns (emit _ _) _ => apply prints_and_returns_emit
         | |- prints_and_returns (print_header _) _ => apply prints_and_returns_emit
         | |- prints_and_returns (print_success _) _ => apply prints_and_returns_emit
         | |- prints_and_returns (print_warning _) _ => apply prints_and_returns_emit
         | |- prints_and_returns (print_error _) _ => apply prints_and_returns_emit
         | |- prints_and_returns (print_info _) _ => apply prints_and_returns_emit
         | |- prints_and_returns (print _) _ => apply prints_and_returns_emit
         | |- prints_and_returns (_ ≫= _) _ =>
             eapply prints_and_returns_bind; [|cbv beta]
         | |- prints_and_returns (if ?b then _ else _) _ => destruct b
         end.

(** ** The configuration helper: what a run changes *)

Section FixRun.
Import fix_azure_config.
Context (P : platform).

(** The issue test on a text: it is empty, or has "your" in it. *)
Lemma missing_or_placeholder_text (s : string) (w : world) :
  missing_or_placeholder (YStr s) w
  = (inr (PyStr.eqb s "" || PyStr.contains "your" (PyStr.lower s)), w).
Proof.
  unfold missing_or_placeholder. cbn [Py.truthy Py.lower].
  destruct (PyStr.eqb s ""); by run.
Qed.

(** The world in which [main] calls the helper: the banner is printed. *)
Lemma fix_main_exit_code (w w0 : world) (success : bool) :
  w0 = World (fs w) (environ w) (stdin w) (faults w)
             (stdout w ++ [(PLAIN, "UFO² AZURE OPENAI CONFIGURATION HELPER");
                           (PLAIN, "Date: 2025-05-25")])
             (io_trace w) (sent w) →
  (fix_azure_openai_config P w0).1 = inr success →
  (main P w).1 = inr (if success then 0%Z else 1%Z)
  ∧ fs (main P w).2 = fs (fix_azure_openai_config P w0).2
  ∧ stdin (main P w).2 = stdin (fix_azure_openai_config P w0).2.
Proof.
  intros Hw0 E. unfold main, print.
  rewrite emit_bind. cbv beta. rewrite emit_bind. cbv beta.
  cbn [fs environ stdin faults stdout io_trace sent].
  rewrite <- (assoc_L (++)). cbn [app]. rewrite <- Hw0. rewrite bind_run.
  destruct (fix_azure_openai_config P w0) as [[e|b] w1];
    cbn [fst snd] in *; [done|].
  injection E as ->.
  destruct success;
    match goal with
    | |- (?c w1).1 = inr ?code ∧ _ =>
        let H := fresh in
        assert (prints_and_returns c code) as H by prints;
        destruct (H w1) as (R & F & _ & S & _)
    end; by repeat split.
Qed.

End FixRun.

(** ** [test_azure_openai_direct]: what it does before the probe *)

(** X2: [test_azure_openai_direct] reads the agent section with chained
    [.get] calls outside any [try]: when the document, the value of
    AGENT_SETTINGS or the value of HOST_AGENT under it is there but is not a
    mapping (a null AGENT_SETTINGS, say), the function does not return
    [False]: [AttributeError] leaves it. *)
Theorem direct_test_raises_on_non_mapping (P : platform) (w : world)
    (text : string) (config : yaml) :
  fs w !! test_api_connectivity.config_path P = Some text →
  next_io_succeeds w →
  safe_load P text = inr config →
  Py.truthy config = true →
  (∀ m, config ≠ YMap m)
  ∨ (∃ m settings,
       config = YMap m ∧ Py.lookup "AGENT_SETTINGS" m = Some settings
       ∧ ∀ s, settings ≠ YMap s)
  ∨ (∃ m s host_agent,
       config = YMap m ∧ Py.lookup "AGENT_SETTINGS" m = Some (YMap s)
       ∧ Py.lookup "HOST_AGENT" s = Some host_agent
       ∧ ∀ h, host_agent ≠ YMap h) →
  (test_api_connectivity.test_azure_openai_direct P w).1 = inl AttributeError.
Proof.
  intros Hfs Hio Hload Htruthy Hshape.
  destruct (load_config_loaded P w text config Hfs Hio Hload) as (E & _).
  unfold test_api_connectivity.test_azure_openai_direct. run.
  destruct (test_api_connectivity.load_config P w) as [[e|c] w1];
    cbn [fst] in E; [done|]. injection E as ->.
  rewrite Htruthy. run.
  destruct Hshape as [Hdoc | [(m & settings & -> & Hs & Hno)
                             | (m & s & host & -> & Hs & Hh & Hno)]].
  - destruct config; try done. by destruct (Hdoc m).
  - cbn [Py.get]. rewrite Hs. cbn [from_option id]. run.
    destruct settings; try done. by destruct (Hno m0).
  - cbn [Py.get]. rewrite Hs. cbn [from_option id]. run.
    cbn [Py.get]. rewrite Hh. cbn [from_option id]. run.
    destruct host; try done. by destruct (Hno m0).
Qed.

Lemma direct_test_raises_on_non_mapping_witness :
  let P := example_platform [("settings", YMap [("AGENT_SETTINGS", YNull)])]
                            (inr "hello") in
  let w := example_world [(test_api_connectivity.config_path P, "settings")] [] in
  (test_api_connectivity.test_azure_openai_direct P w).1 = inl AttributeError.
Proof.
  intros P w.
  apply (direct_test_raises_on_non_mapping P w "settings"
           (YMap [("AGENT_SETTINGS", YNull)]));
    [reflexivity | reflexivity | reflexivity | reflexivity |].
  right. left. exists [("AGENT_SETTINGS", YNull)], YNull.
  split; [reflexivity|]. split; [reflexivity|]. intros s. discriminate.
Defined.

(** X6: [test_azure_openai_direct] looks for the agent section under
    AGENT_SETTINGS only.  On a document without that key, whatever a
    top-level HOST_AGENT says, it reports "Not using Azure OpenAI", sends no
    request and passes. *)
Theorem direct_test_ignores_top_level_section (P : platform) (w : world)
    (text : string) (config : list (string * yaml)) :
  fs w !! test_api_connectivity.config_path P = Some text →
  next_io_succeeds w →
  safe_load P text = inr (YMap config) →
  config ≠ [] →
  Py.lookup "AGENT_SETTINGS" config = None →
  (test_api_connectivity.test_azure_openai_direct P w).1 = inr true
  ∧ stdout (test_api_connectivity.test_azure_openai_direct P w).2
    = stdout w ++ [(INFO, "Not using Azure OpenAI, skipping direct Azure OpenAI test")]
  ∧ sent (test_api_connectivity.test_azure_openai_direct P w).2 = sent w.
Proof. apply direct_test_without_settings. Qed.

Lemma direct_test_ignores_top_level_section_witness :
  let config :=
    [("HOST_AGENT", YMap [("API_TYPE", YStr "azure");
                          ("API_BASE", YStr "https://contoso.openai.azure.com");
                          ("API_KEY", YStr "0123456789abcdef");
                          ("API_DEPLOYMENT_ID", YStr "production")])] in
  let P := example_platform [("config", YMap config)] (inl (APIError "unreachable")) in
  let w := example_world [(test_api_connectivity.config_path P, "config")] [] in
  (test_api_connectivity.test_azure_openai_direct P w).1 = inr true
  ∧ sent (test_api_connectivity.test_azure_openai_direct P w).2 = [].
Proof.
  intros config P w.
  destruct (direct_test_ignores_top_level_section P w "config" config)
    as (E & _ & Hsent); [reflexivity | reflexivity | reflexivity | done
                        | reflexivity |].
  by split.
Defined.

(** X7: on an azure section under AGENT_SETTINGS in which API_BASE, API_KEY
    or API_DEPLOYMENT_ID is absent or falsy (the empty text, null),
    [test_azure_openai_direct] stops before creating a client: it prints
    "Missing Azure OpenAI configuration", sends no request and fails. *)
Theorem direct_test_requires_settings (P : platform) (w : world)
    (text api_type : string) (config settings host_agent : list (string * yaml)) :
  fs w !! test_api_connectivity.config_path P = Some text →
  next_io_succeeds w →
  safe_load P text = inr (YMap config) →
  Py.lookup "AGENT_SETTINGS" config = Some (YMap settings) →
  Py.lookup "HOST_AGENT" settings = Some (YMap host_agent) →
  Py.lookup "API_TYPE" host_agent = Some (YStr api_type) →
  PyStr.lower api_type = "azure" →
  Py.truthy (default (YStr "") (Py.lookup "API_BASE" host_agent)) = false
  ∨ Py.truthy (default (YStr "") (Py.lookup "API_KEY" host_agent)) = false
  ∨ Py.truthy (default (YStr "") (Py.lookup "API_DEPLOYMENT_ID" host_agent)) = false →
  (test_api_connectivity.test_azure_openai_direct P w).1 = inr false
  ∧ stdout (test_api_connectivity.test_azure_openai_direct P w).2
    = stdout w ++ [(PLAIN, "=== Testing Direct Azure OpenAI Connectivity ===");
                   (ERROR, "Missing Azure OpenAI configuration")]
  ∧ sent (test_api_connectivity.test_azure_openai_direct P w).2 = sent w.
Proof.
  intros Hfs Hio Hload Hsettings Hhost Htype Hazure Hfalsy.
  destruct (load_config_loaded P w text (YMap config) Hfs Hio Hload)
    as (E & Hout & Hsent & _).
  unfold test_api_connectivity.test_azure_openai_direct. run.
  destruct (test_api_connectivity.load_config P w) as [[e|c] w1];
    cbn [fst snd] in E, Hout, Hsent; [done|]. injection E as ->.
  destruct config as [|entry config]; [done|]. cbn [Py.truthy]. run.
  cbn [Py.get]. rewrite Hsettings. cbn [from_option id]. run.
  cbn [Py.get]. rewrite Hhost. cbn [from_option id]. run.
  cbn [Py.get]. rewrite Htype. cbn [from_option id Py.lower]. run.
  rewrite Hazure. change (PyStr.eqb "azure" "azure") with true. run.
  cbn [Py.get]. run.
  assert (negb (Py.truthy (default (YStr "") (Py.lookup "API_BASE" host_agent)))
          || negb (Py.truthy (default (YStr "") (Py.lookup "API_KEY" host_agent)))
          || negb (Py.truthy (default (YStr "")
                                (Py.lookup "API_DEPLOYMENT_ID" host_agent))) = true)
    as ->.
  { destruct Hfalsy as [-> | [-> | ->]]; cbn [negb orb];
      rewrite ?orb_true_r; reflexivity. }
  run. by rewrite Hout, Hsent, <- !(assoc_L (++)).
Qed.

Lemma direct_test_requires_settings_witness :
  let host_agent :=
    [("API_TYPE", YStr "Azure");
     ("API_BASE", YStr "https://contoso.openai.azure.com");
     ("API_KEY", YStr "");
     ("API_DEPLOYMENT_ID", YStr "production")] in
  let config := [("AGENT_SETTINGS", YMap [("HOST_AGENT", YMap host_agent)])] in
  let P := example_platform [("config", YMap config)] (inr "hello") in
  let w := example_world [(test_api_connectivity.config_path P, "config")] [] in
  (test_api_connectivity.test_azure_openai_direct P w).1 = inr false
  ∧ sent (test_api_connectivity.test_azure_openai_direct P w).2 = [].
Proof.
  intros host_agent config P w.
  destruct (direct_test_requires_settings P w "config" "Azure" config
              [("HOST_AGENT", YMap host_agent)] host_agent)
    as (E & _ & Hsent);
    [reflexivity | reflexivity | reflexivity | reflexivity | reflexivity
    | reflexivity | reflexivity | right; left; reflexivity |].
  by split.
Defined.

(** ** The connectivity checks: when no request is sent *)

Section NoRequest.
Context (P : platform).

(** An environment reference to a variable that is unset, or set to the
    empty text: the error line, and nothing else changes. *)
Lemma resolve_missing_world (w : world) (name : string) :
  default "" (environ w !! name) = "" →
  fixed_comprehensive_validation.resolve_env_var (YStr ("${" +:+ name +:+ "}")) w
  = (inr None,
     World (fs w) (environ w) (stdin w) (faults w)
           (stdout w ++ [(ERROR, "Environment variable " +:+ name +:+ " is not set")])
           (io_trace w) (sent w)).
Proof.
  intros Henv. unfold fixed_comprehensive_validation.resolve_env_var.
  destruct (reference_is_reference name) as [Hs He].
  cbn [Py.startswith Py.endswith]. rewrite Hs. run. rewrite He.
  rewrite slice_reference, Henv. done.
Qed.

End NoRequest.

(** X3: [check_api_connectivity] asks before it does anything.  On any
    answer other than y (in either case, blanks around it stripped) it
    prints "API test skipped by user" and passes without importing a
    module, reading the configuration or sending a request; when standard
    input is at its end, the [EOFError] of [input()] is caught and the check
    fails, again without a request. *)
Theorem connectivity_check_declined (P : platform) (w : world) (text : string) :
  fs w !! fixed_comprehensive_validation.config_path P = Some text →
  (∀ line rest,
     stdin w = line :: rest →
     PyStr.lower (PyStr.strip line) ≠ "y" →
     (fixed_comprehensive_validation.check_api_connectivity P w).1 = inr true
     ∧ stdout (fixed_comprehensive_validation.check_api_connectivity P w).2
       = stdout w ++
         [(HEADER, "API Connectivity Test");
          (INFO, "This test will attempt to connect to the configured API");
          (INFO, "Would you like to continue? (y/n)");
          (WARNING, "API test skipped by user")]
     ∧ stdin (fixed_comprehensive_validation.check_api_connectivity P w).2 = rest
     ∧ io_trace (fixed_comprehensive_validation.check_api_connectivity P w).2
       = io_trace w
     ∧ sent (fixed_comprehensive_validation.check_api_connectivity P w).2 = sent w)
  ∧ (stdin w = [] →
     (fixed_comprehensive_validation.check_api_connectivity P w).1 = inr false
     ∧ io_trace (fixed_comprehensive_validation.check_api_connectivity P w).2
       = io_trace w
     ∧ sent (fixed_comprehensive_validation.check_api_connectivity P w).2 = sent w).
Proof.
  intros Hfs. split.
  - intros line rest Hstdin Hno.
    unfold fixed_comprehensive_validation.check_api_connectivity. run.
    rewrite Hfs, bool_decide_eq_true_2 by eauto. run. rewrite Hstdin. run.
    unfold PyStr.eqb. rewrite bool_decide_eq_false_2 by done. run.
    by rewrite <- !(assoc_L (++)).
  - intros Hstdin.
    unfold fixed_comprehensive_validation.check_api_connectivity. run.
    rewrite Hfs, bool_decide_eq_true_2 by eauto. run. rewrite Hstdin. by run.
Qed.

Lemma connectivity_check_declined_witness :
  let P := example_platform [] (inr "hello") in
  let path := fixed_comprehensive_validation.config_path P in
  (fixed_comprehensive_validation.check_api_connectivity P
     (example_world [(path, "HOST_AGENT: {}")] [" No "])).1 = inr true
  ∧ (fixed_comprehensive_validation.check_api_connectivity P
       (example_world [(path, "HOST_AGENT: {}")] [])).1 = inr false.
Proof.
  intros P path. split.
  - destruct (connectivity_check_declined P
                (example_world [(path, "HOST_AGENT: {}")] [" No "]) "HOST_AGENT: {}")
      as [Hdeclined _]; [reflexivity|].
    destruct (Hdeclined " No " []) as (E & _); [reflexivity | by vm_compute |].
    exact E.
  - destruct (connectivity_check_declined P
                (example_world [(path, "HOST_AGENT: {}")] []) "HOST_AGENT: {}")
      as [_ Heof]; [reflexivity|].
    destruct Heof as (E & _); [reflexivity|]. exact E.
Defined.

(** X4: in [check_api_connectivity], an API_KEY of the form [${NAME}] whose
    variable is unset, or set to the empty text, stops the azure test: the
    error "Environment variable NAME is not set" is printed, no request is
    sent and the check fails. *)
Theorem connectivity_check_unset_variable (P : platform) (w : world)
    (text api_type line name : string) (rest : list string) (config : yaml)
    (nested : bool) (host_agent : list (string * yaml))
    (api_base api_deployment : yaml) :
  importable P "yaml" = true →
  importable P "openai" = true →
  fs w !! fixed_comprehensive_validation.config_path P = Some text →
  next_io_succeeds w →
  stdin w = line :: rest →
  PyStr.lower (PyStr.strip line) = "y" →
  safe_load P text = inr config →
  fixed_comprehensive_validation.find_host_agent config
    = inr (Some (nested, YMap host_agent)) →
  Py.lookup "API_TYPE" host_agent = Some (YStr api_type) →
  PyStr.lower api_type = "azure" ∨ PyStr.lower api_type = "aoai" →
  Py.lookup "API_BASE" host_agent = Some api_base →
  Py.lookup "API_KEY" host_agent = Some (YStr ("${" +:+ name +:+ "}")) →
  Py.lookup "API_DEPLOYMENT_ID" host_agent = Some api_deployment →
  default "" (environ w !! name) = "" →
  (fixed_comprehensive_validation.check_api_connectivity P w).1 = inr false
  ∧ stdout (fixed_comprehensive_validation.check_api_connectivity P w).2
    = stdout w ++
      [(HEADER, "API Connectivity Test");
       (INFO, "This test will attempt to connect to the configured API");
       (INFO, "Would you like to continue? (y/n)");
       (INFO, "Testing Azure OpenAI connectivity...");
       (ERROR, "Environment variable " +:+ name +:+ " is not set")]
  ∧ sent (fixed_comprehensive_validation.check_api_connectivity P w).2 = sent w.
Proof.
  intros Hyaml Hopenai Hfs Hio Hstdin Hyes Hload Hfind Htype Hazure
    Hbase Hkey Hdeployment Henv.
  assert (PyStr.in_list (PyStr.lower api_type) ["azure"; "aoai"] = true) as Hin.
  { by destruct Hazure as [-> | ->]. }
  unfold fixed_comprehensive_validation.check_api_connectivity,
    fixed_comprehensive_validation.test_azure.
  unfold import. rewrite Hyaml, Hopenai. run. rewrite Hfs.
  rewrite bool_decide_eq_true_2 by eauto.
  run. rewrite Hstdin. run. rewrite Hyes. change (PyStr.eqb "y" "y") with true.
  unfold next_io_succeeds, next_fault in Hio.
  run. destruct (faults w) as [|[|] more]; [|done|].
  all: rewrite Hfs, Hload; run; rewrite Hfind; run;
    rewrite (getitem_key _ _ _ Htype); cbn [Py.lower]; run; rewrite Hin; run;
    rewrite (getitem_key _ _ _ Hbase), (getitem_key _ _ _ Hkey),
      (getitem_key _ _ _ Hdeployment); run;
    cbn [Py.get]; run;
    rewrite resolve_missing_world by exact Henv; run;
    by rewrite <- !(assoc_L (++)).
Qed.

Lemma connectivity_check_unset_variable_witness :
  let host_agent :=
    [("API_TYPE", YStr "azure");
     ("API_BASE", YStr "https://contoso.openai.azure.com");
     ("API_KEY", YStr "${AZURE_OPENAI_API_KEY}");
     ("API_DEPLOYMENT_ID", YStr "production")] in
  let P := example_platform [("config", YMap [("HOST_AGENT", YMap host_agent)])]
                            (inr "hello") in
  let w := example_world
             [(fixed_comprehensive_validation.config_path P, "config")] ["y"] in
  (fixed_comprehensive_validation.check_api_connectivity P w).1 = inr false
  ∧ sent (fixed_comprehensive_validation.check_api_connectivity P w).2 = [].
Proof.
  intros host_agent P w.
  destruct (connectivity_check_unset_variable P w "config" "azure" "y"
              "AZURE_OPENAI_API_KEY" [] (YMap [("HOST_AGENT", YMap host_agent)])
              false host_agent (YStr "https://contoso.openai.azure.com")
              (YStr "production"))
    as (E & _ & Hsent);
    [reflexivity | reflexivity | reflexivity | reflexivity | reflexivity
    | reflexivity | reflexivity | reflexivity | reflexivity | by left
    | reflexivity | reflexivity | reflexivity | reflexivity |].
  by split.
Defined.

(** X5: [check_azure_deployment] sends a request only to an azure or aoai
    section and only after the answer y.  On another provider (API_TYPE a
    text that is neither, or absent) it passes without reading standard
    input; on an azure or aoai section and any other answer it passes having
    read that one line; in both cases no request is sent. *)
Theorem deployment_check_skips (P : platform) (w : world) (text : string)
    (config host_agent : list (string * yaml)) :
  importable P "yaml" = true →
  fs w !! darbot_validation.config_path P = Some text →
  next_io_succeeds w →
  safe_load P text = inr (YMap config) →
  Py.lookup "HOST_AGENT" config = Some (YMap host_agent) →
  ∀ api_type : string,
    default (YStr "") (Py.lookup "API_TYPE" host_agent) = YStr api_type →
    (PyStr.lower api_type ≠ "azure" →
     PyStr.lower api_type ≠ "aoai" →
     (darbot_validation.check_azure_deployment P w).1 = inr true
     ∧ stdin (darbot_validation.check_azure_deployment P w).2 = stdin w
     ∧ sent (darbot_validation.check_azure_deployment P w).2 = sent w)
    ∧ (∀ line rest,
         PyStr.lower api_type = "azure" ∨ PyStr.lower api_type = "aoai" →
         stdin w = line :: rest →
         PyStr.lower (PyStr.strip line) ≠ "y" →
         (darbot_validation.check_azure_deployment P w).1 = inr true
         ∧ stdin (darbot_validation.check_azure_deployment P w).2 = rest
         ∧ sent (darbot_validation.check_azure_deployment P w).2 = sent w).
Proof.
  intros Hyaml Hfs Hio Hload Hhost api_type Htype.
  unfold darbot_validation.check_azure_deployment.
  unfold import. rewrite Hyaml. run. rewrite Hfs.
  rewrite bool_decide_eq_true_2 by eauto.
  unfold next_io_succeeds, next_fault in Hio. run.
  split.
  - intros Hazure Haoai.
    assert (PyStr.in_list (PyStr.lower api_type) ["aoai"; "azure"] = false) as Hin.
    { unfold PyStr.in_list. apply bool_decide_eq_false_2.
      intros H. apply list_elem_of_In in H. cbn [In] in H. intuition. }
    destruct (faults w) as [|[|] more]; [|done|].
    all: rewrite Hfs, Hload; run;
      rewrite (contains_key _ _ _ Hhost), (getitem_key _ _ _ Hhost); run;
      cbn [Py.get]; rewrite Htype; cbn [Py.lower]; run; rewrite Hin; by run.
  - intros line rest Hazure Hstdin Hno.
    assert (PyStr.in_list (PyStr.lower api_type) ["aoai"; "azure"] = true) as Hin.
    { by destruct Hazure as [-> | ->]. }
    destruct (faults w) as [|[|] more]; [|done|].
    all: rewrite Hfs, Hload; run;
      rewrite (contains_key _ _ _ Hhost), (getitem_key _ _ _ Hhost); run;
      cbn [Py.get]; rewrite Htype; cbn [Py.lower]; run; rewrite Hin; run;
      rewrite Hstdin; run;
      unfold PyStr.eqb; rewrite bool_decide_eq_false_2 by done; by run.
Qed.

Lemma deployment_check_skips_witness :
  let section provider :=
    [("API_TYPE", YStr provider); ("API_KEY", YStr "sk-0123456789")] in
  let P := example_platform
             [("openai", YMap [("HOST_AGENT", YMap (section "openai"))]);
              ("azure", YMap [("HOST_AGENT", YMap (section "Azure"))])]
             (inr "hello") in
  let path := darbot_validation.config_path P in
  stdin (darbot_validation.check_azure_deployment P
           (example_world [(path, "openai")] ["kept"])).2 = ["kept"]
  ∧ sent (darbot_validation.check_azure_deployment P
            (example_world [(path, "azure")] ["n"; "kept"])).2 = [].
Proof.
  intros section P path. split.
  - destruct (deployment_check_skips P (example_world [(path, "openai")] ["kept"])
                "openai" [("HOST_AGENT", YMap (section "openai"))]
                (section "openai"))
      with (api_type := "openai") as [Hother _];
      [reflexivity | reflexivity | reflexivity | reflexivity | reflexivity
      | reflexivity |].
    destruct Hother as (_ & E & _); [by vm_compute | by vm_compute |]. exact E.
  - destruct (deployment_check_skips P (example_world [(path, "azure")] ["n"; "kept"])
                "azure" [("HOST_AGENT", YMap (section "Azure"))]
                (section "Azure"))
      with (api_type := "Azure") as [_ Hdeclined];
      [reflexivity | reflexivity | reflexivity | reflexivity | reflexivity
      | reflexivity |].
    destruct (Hdeclined "n" ["kept"]) as (_ & _ & E);
      [by left | reflexivity | by vm_compute |].
    exact E.
Defined.

(** X18: [check_azure_deployment] answered with y on an azure or aoai
    section that lacks API_BASE or API_KEY: the [KeyError] of the subscript
    is caught, the failure is printed, no request is sent and the check
    fails, whatever text the platform gives to the exception. *)
Theorem deployment_check_missing_setting (P : platform) (w : world)
    (text api_type line : string) (rest : list string)
    (config host_agent : list (string * yaml)) :
  importable P "yaml" = true →
  importable P "openai" = true →
  fs w !! darbot_validation.config_path P = Some text →
  next_io_succeeds w →
  safe_load P text = inr (YMap config) →
  Py.lookup "HOST_AGENT" config = Some (YMap host_agent) →
  Py.lookup "API_TYPE" host_agent = Some (YStr api_type) →
  PyStr.lower api_type = "azure" ∨ PyStr.lower api_type = "aoai" →
  stdin w = line :: rest →
  PyStr.lower (PyStr.strip line) = "y" →
  Py.lookup "API_BASE" host_agent = None ∨ Py.lookup "API_KEY" host_agent = None →
  (darbot_validation.check_azure_deployment P w).1 = inr false
  ∧ sent (darbot_validation.check_azure_deployment P w).2 = sent w
  ∧ ∃ field out,
      (field = "API_BASE" ∨ field = "API_KEY")
      ∧ Py.lookup field host_agent = None
      ∧ stdout (darbot_validation.check_azure_deployment P w).2
        = stdout w ++
          [(HEADER, "Azure OpenAI Deployment Check");
           (INFO, "Would you like to test Azure OpenAI connectivity? (y/n)");
           (ERROR, "Azure OpenAI connection failed: " +:+ str_exn P (KeyError field))]
          ++ out.
Proof.
  intros Hyaml Hopenai Hfs Hio Hload Hhost Htype Hazure Hstdin Hyes Hmissing.
  assert (PyStr.in_list (PyStr.lower api_type) ["aoai"; "azure"] = true) as Hin.
  { by destruct Hazure as [-> | ->]. }
  assert (∃ field, (field = "API_BASE" ∨ field = "API_KEY")
                   ∧ Py.lookup field host_agent = None
                   ∧ (field = "API_KEY" → is_Some (Py.lookup "API_BASE" host_agent)))
    as (field & Hfield & Hnone & Hfirst).
  { destruct (Py.lookup "API_BASE" host_agent) as [base|] eqn:Hbase.
    - destruct Hmissing as [|Hkey]; [done|]. exists "API_KEY". eauto.
    - exists "API_BASE". split; [by left|]. split; [done|]. intros ?. done. }
  destruct (darbot_validation.check_azure_deployment P w) as [res w'] eqn:E.
  cbn [fst snd]. revert E.
  unfold darbot_validation.check_azure_deployment, darbot_validation.connection_test.
  unfold import. rewrite Hyaml, Hopenai. run. rewrite Hfs.
  rewrite bool_decide_eq_true_2 by eauto.
  unfold next_io_succeeds, next_fault in Hio.
  run. destruct (faults w) as [|[|] more]; [|done|].
  all: rewrite Hfs, Hload; run;
    rewrite (contains_key _ _ _ Hhost), (getitem_key _ _ _ Hhost); run;
    cbn [Py.get]; rewrite Htype; cbn [from_option id Py.lower]; run;
    rewrite Hin; run; rewrite Hstdin; run; rewrite Hyes;
    change (PyStr.eqb "y" "y") with true; run.
  all: destruct Hfield as [-> | ->].
  all: try (destruct (Hfirst eq_refl) as [base Hbase];
            rewrite (getitem_key _ _ _ Hbase); run).
  all: cbn [Py.getitem]; rewrite Hnone; run.
  all: unfold darbot_validation.connection_failed; run;
    destruct (darbot_validation.deployment_not_found _); run;
    intros [= <- <-]; cbn [sent stdout];
    (split; [done|]); (split; [done|]);
    match type of Hnone with Py.lookup ?f _ = None => exists f end;
    eexists; (split; [by eauto|]); (split; [exact Hnone|]);
    rewrite <- !(assoc_L (++)); cbn [app]; do 4 f_equal; reflexivity.
Qed.

Lemma deployment_check_missing_setting_witness :
  let host_agent :=
    [("API_TYPE", YStr "azure");
     ("API_BASE", YStr "https://contoso.openai.azure.com");
     ("API_DEPLOYMENT_ID", YStr "production")] in
  let P := example_platform [("config", YMap [("HOST_AGENT", YMap host_agent)])]
                            (inr "hello") in
  let w := example_world [(darbot_validation.config_path P, "config")] ["y"] in
  (darbot_validation.check_azure_deployment P w).1 = inr false
  ∧ sent (darbot_validation.check_azure_deployment P w).2 = [].
Proof.
  intros host_agent P w.
  destruct (deployment_check_missing_setting P w "config" "azure" "y" []
              [("HOST_AGENT", YMap host_agent)] host_agent)
    as (E & Hsent & _);
    [reflexivity | reflexivity | reflexivity | reflexivity | reflexivity
    | reflexivity | reflexivity | by left | reflexivity | reflexivity
    | right; reflexivity |].
  by split.
Defined.

Section FixRunUnchanged.
Import fix_azure_config.
Context (P : platform).

(** The issue scan on an endpoint and a key that are texts: its result,
    with nothing but the console touched. *)
Lemma check_common_issues_result (base key : string) (api_deployment : yaml)
    (w : world) :
  (check_common_issues P (YStr base) (YStr key) api_deployment w).1
  = inr ((PyStr.eqb base "" || PyStr.contains "your" (PyStr.lower base))
         || (PyStr.eqb key "" || PyStr.contains "your" (PyStr.lower key))
         || Py.in_strings api_deployment common_model_names)
  ∧ console_only w (check_common_issues P (YStr base) (YStr key) api_deployment w).2.
Proof.
  unfold check_common_issues. run. rewrite !missing_or_placeholder_text.
  destruct (PyStr.eqb base "" || PyStr.contains "your" (PyStr.lower base));
    run; rewrite !missing_or_placeholder_text;
    destruct (PyStr.eqb key "" || PyStr.contains "your" (PyStr.lower key));
    run; destruct (Py.in_strings api_deployment common_model_names);
    run; by repeat split.
Qed.

End FixRunUnchanged.

Section FixRunDeclined.
Import fix_azure_config.
Context (P : platform).

Lemma ends_with_app {A} (base l : list A) (x : A) :
  (∃ mid, l = base ++ mid) → ∃ out, l ++ [x] = base ++ out ++ [x].
Proof. intros [mid ->]. exists mid. by rewrite (assoc_L (++)). Qed.

(** The helper on a section with a detected issue, declined or answered
    with blank lines only. *)
Lemma fix_unchanged_run (w : world) (original api_type base key : string)
    (config host_agent : list (string * yaml)) :
  fs w !! config_path P = Some original →
  next_io_succeeds w →
  safe_load P original = inr (YMap config) →
  Py.lookup "HOST_AGENT" config = Some (YMap host_agent) →
  Py.lookup "API_TYPE" host_agent = Some (YStr api_type) →
  PyStr.lower api_type = "azure" ∨ PyStr.lower api_type = "aoai" →
  default (YStr "") (Py.lookup "API_BASE" host_agent) = YStr base →
  default (YStr "") (Py.lookup "API_KEY" host_agent) = YStr key →
  (PyStr.eqb base "" || PyStr.contains "your" (PyStr.lower base))
  || (PyStr.eqb key "" || PyStr.contains "your" (PyStr.lower key))
  || Py.in_strings (default (YStr "") (Py.lookup "API_DEPLOYMENT_ID" host_agent))
                   common_model_names = true →
  (∃ line rest,
     stdin w = line :: rest ∧ PyStr.lower (PyStr.strip line) ≠ "y")
  ∨ (∃ yes line1 line2 line3 rest,
       stdin w = yes :: line1 :: line2 :: line3 :: rest
       ∧ PyStr.lower (PyStr.strip yes) = "y"
       ∧ PyStr.strip line1 = "" ∧ PyStr.strip line2 = ""
       ∧ PyStr.strip line3 = "") →
  (fix_azure_openai_config P w).1 = inr false
  ∧ fs (fix_azure_openai_config P w).2 = fs w
  ∧ io_trace (fix_azure_openai_config P w).2 = io_trace w ++ [ReadAll (config_path P)]
  ∧ ∃ out, stdout (fix_azure_openai_config P w).2
           = stdout w ++ out ++ [no_changes_line].
Proof.
  intros Hfs Hio Hload Hhost Htype Hazure Hbase Hkey Hissue Hanswers.
  assert (PyStr.in_list (PyStr.lower api_type) ["azure"; "aoai"] = true) as Hin.
  { by destruct Hazure as [-> | ->]. }
  destruct (fix_azure_openai_config P w) as [res w'] eqn:E. cbn [fst snd].
  revert E. unfold fix_azure_openai_config. run. rewrite Hfs.
  rewrite bool_decide_eq_true_2 by eauto.
  unfold next_io_succeeds, next_fault in Hio.
  run. destruct (faults w) as [|[|] more]; [|done|].
  all: rewrite Hfs, Hload; run;
    rewrite (contains_key _ _ _ Hhost), (getitem_key _ _ _ Hhost); run;
    cbn [Py.get]; rewrite Htype; cbn [from_option id Py.lower]; run;
    rewrite Hin, Hbase, Hkey; run.
  all: match goal with
       | |- context [check_common_issues ?pf _ _ ?d ?W] =>
           destruct (check_common_issues_result pf base key d W)
             as (E1 & F1 & F2 & F3 & F4 & F5 & F6);
           destruct (check_common_issues_deployment pf base key d W)
             as (issues & out1 & _ & O1 & _);
           destruct (check_common_issues pf _ _ d W)
             as [[e|a] w2]; cbn [fst snd stdout fs io_trace stdin] in *; [done|]
       end.
  all: assert (a = true) as -> by (injection E1 as E1; rewrite E1; exact Hissue); run.
  all: unfold update_configuration; run; rewrite F3.
  all: destruct Hanswers as [(line & rest & Hstdin & Hno)
                           | (yes & l1 & l2 & l3 & rest & Hstdin & Hyes & B1 & B2 & B3)];
    rewrite Hstdin; run.
  1, 3: unfold PyStr.eqb; rewrite bool_decide_eq_false_2 by done; run;
    intros [= <- <-]; cbn [fs io_trace stdout];
    rewrite F1, F2;
    (split; [done|]; split; [done|]; split; [done|]);
    apply (ends_with_app _ _ no_changes_line);
    rewrite O1, <- !(assoc_L (++)); eexists; reflexivity.
  all: rewrite Hyes; change (PyStr.eqb "y" "y") with true; run;
    cbn [Py.items]; run; rewrite missing_or_placeholder_text.
  all: unfold fix_field; cbn [foldr];
    destruct (PyStr.eqb base "" || PyStr.contains "your" (PyStr.lower base));
    run; rewrite ?B1, ?B2, ?B3; cbn [Py.truthy];
    change (PyStr.eqb "" "") with true; run;
    rewrite missing_or_placeholder_text;
    destruct (PyStr.eqb key "" || PyStr.contains "your" (PyStr.lower key));
    run; rewrite ?B1, ?B2, ?B3; cbn [Py.truthy];
    change (PyStr.eqb "" "") with true; run;
    destruct (Py.in_strings _ common_model_names);
    run; rewrite ?B1, ?B2, ?B3; cbn [Py.truthy];
    change (PyStr.eqb "" "") with true; run;
    intros [= <- <-]; cbn [fs io_trace stdout];
    rewrite F1, F2;
    (split; [done|]; split; [done|]; split; [done|]);
    apply (ends_with_app _ _ no_changes_line);
    rewrite O1, <- !(assoc_L (++)); eexists; reflexivity.
Qed.

End FixRunDeclined.
(** X9: a run of the helper that changes nothing.  On an azure or aoai
    section with a detected issue, an answer other than y to the first
    question, or the answer y followed by a blank line at every prompt, ends
    with "No changes were made to your configuration": the helper returns
    [False], [main] exits with 1, and no file is written, the one file
    operation being the initial read of the configuration. *)
Theorem fix_run_without_changes (P : platform) (w : world)
    (original api_type base key : string)
    (config host_agent : list (string * yaml)) :
  fs w !! fix_azure_config.config_path P = Some original →
  next_io_succeeds w →
  safe_load P original = inr (YMap config) →
  Py.lookup "HOST_AGENT" config = Some (YMap host_agent) →
  Py.lookup "API_TYPE" host_agent = Some (YStr api_type) →
  PyStr.lower api_type = "azure" ∨ PyStr.lower api_type = "aoai" →
  default (YStr "") (Py.lookup "API_BASE" host_agent) = YStr base →
  default (YStr "") (Py.lookup "API_KEY" host_agent) = YStr key →
  (PyStr.eqb base "" || PyStr.contains "your" (PyStr.lower base))
  || (PyStr.eqb key "" || PyStr.contains "your" (PyStr.lower key))
  || Py.in_strings (default (YStr "") (Py.lookup "API_DEPLOYMENT_ID" host_agent))
                   fix_azure_config.common_model_names = true →
  (∃ line rest,
     stdin w = line :: rest ∧ PyStr.lower (PyStr.strip line) ≠ "y")
  ∨ (∃ yes line1 line2 line3 rest,
       stdin w = yes :: line1 :: line2 :: line3 :: rest
       ∧ PyStr.lower (PyStr.strip yes) = "y"
       ∧ PyStr.strip line1 = "" ∧ PyStr.strip line2 = ""
       ∧ PyStr.strip line3 = "") →
  (fix_azure_config.fix_azure_openai_config P w).1 = inr false
  ∧ (fix_azure_config.main P w).1 = inr 1%Z
  ∧ fs (fix_azure_config.main P w).2 = fs w
  ∧ io_trace (fix_azure_config.fix_azure_openai_config P w).2
    = io_trace w ++ [ReadAll (fix_azure_config.config_path P)]
  ∧ ∃ out, stdout (fix_azure_config.fix_azure_openai_config P w).2
           = stdout w ++ out ++ [no_changes_line].
Proof.
  intros Hfs Hio Hload Hhost Htype Hazure Hbase Hkey Hissue Hanswers.
  destruct (fix_unchanged_run P w original api_type base key config host_agent
              Hfs Hio Hload Hhost Htype Hazure Hbase Hkey Hissue Hanswers)
    as (Hresult & _ & Htrace & Hout).
  set (w0 := World (fs w) (environ w) (stdin w) (faults w)
                   (stdout w ++ [(PLAIN, "UFO² AZURE OPENAI CONFIGURATION HELPER");
                                 (PLAIN, "Date: 2025-05-25")])
                   (io_trace w) (sent w)).
  destruct (fix_unchanged_run P w0 original api_type base key config host_agent
              Hfs Hio Hload Hhost Htype Hazure Hbase Hkey Hissue Hanswers)
    as (Hresult0 & Hfiles0 & _).
  destruct (fix_main_exit_code P w w0 false eq_refl Hresult0) as (M1 & M2 & _).
  split; [exact Hresult|]. split; [exact M1|].
  split; [by rewrite M2, Hfiles0|].
  split; [exact Htrace | exact Hout].
Qed.

Lemma fix_run_without_changes_witness :
  let host_agent :=
    [("API_TYPE", YStr "azure");
     ("API_BASE", YStr "https://your-resource.openai.azure.com");
     ("API_KEY", YStr "0123456789abcdef");
     ("API_DEPLOYMENT_ID", YStr "production")] in
  let config := [("HOST_AGENT", YMap host_agent)] in
  let P := example_platform [("original", YMap config)] (inr "hello") in
  let path := fix_azure_config.config_path P in
  (fix_azure_config.main P (example_world [(path, "original")] ["no"])).1 = inr 1%Z
  ∧ fs (fix_azure_config.main P
          (example_world [(path, "original")] ["y"; ""; " "; ""])).2
    = {[ path := "original" ]}.
Proof.
  intros host_agent config P path. split.
  - destruct (fix_run_without_changes P (example_world [(path, "original")] ["no"])
                "original" "azure" "https://your-resource.openai.azure.com"
                "0123456789abcdef" config host_agent)
      as (_ & Hmain & _);
      [reflexivity | reflexivity | reflexivity | reflexivity | reflexivity
      | by left | reflexivity | reflexivity | reflexivity
      | left; exists "no", []; split; [reflexivity | by vm_compute] |].
    exact Hmain.
  - destruct (fix_run_without_changes P
                (example_world [(path, "original")] ["y"; ""; " "; ""])
                "original" "azure" "https://your-resource.openai.azure.com"
                "0123456789abcdef" config host_agent)
      as (_ & _ & Hfiles & _);
      [reflexivity | reflexivity | reflexivity | reflexivity | reflexivity
      | by left | reflexivity | reflexivity | reflexivity
      | right; exists "y", "", " ", "", []; repeat split; reflexivity |].
    rewrite Hfiles. reflexivity.
Defined.

(** ** The required fields of [check_config] and [check_config_file] *)

(** X10: [check_config] of darbot_validation.py requires API_TYPE, API_KEY
    and API_BASE in HOST_AGENT, whatever the provider, and nothing else: on
    a document whose HOST_AGENT is a mapping (with a text as API_TYPE when
    there is one) it passes exactly when the three keys are present.  An
    absent API_DEPLOYMENT_ID never makes it fail.  When keys are absent, one
    error line names all of them, in the order API_TYPE, API_KEY,
    API_BASE. *)
Theorem darbot_check_config_required_fields (P : platform) (w : world)
    (text : string) (config host_agent : list (string * yaml)) :
  importable P "yaml" = true →
  fs w !! darbot_validation.config_path P = Some text →
  next_io_succeeds w →
  safe_load P text = inr (YMap config) →
  Py.lookup "HOST_AGENT" config = Some (YMap host_agent) →
  string_valued "API_TYPE" host_agent →
  let missing :=
    List.filter (fun field => negb (bool_decide (is_Some (Py.lookup field host_agent))))
                ["API_TYPE"; "API_KEY"; "API_BASE"] in
  ((darbot_validation.check_config P w).1 = inr true ↔ missing = [])
  ∧ (missing ≠ [] →
     (darbot_validation.check_config P w).1 = inr false
     ∧ stdout (darbot_validation.check_config P w).2
       = stdout w ++
         [(HEADER, "Config Check");
          (ERROR, "Missing required fields in HOST_AGENT config: " +:+ join missing)]).
Proof.
  intros Hyaml Hfs Hio Hload Hhost Stype missing.
  destruct (darbot_validation.check_config P w) as [res w'] eqn:E. cbn [fst snd].
  revert E. unfold darbot_validation.check_config. run. rewrite Hfs.
  rewrite bool_decide_eq_true_2 by eauto.
  unfold import. rewrite Hyaml.
  unfold next_io_succeeds, next_fault in Hio.
  run. destruct (faults w) as [|[|] more]; [|done|].
  all: rewrite Hfs, Hload; run.
  all: destruct config as [|entry config]; [done|]; cbn [Py.truthy]; run.
  all: rewrite (contains_key _ _ _ Hhost), (getitem_key _ _ _ Hhost); run.
  all: rewrite collect_missing_spec; fold missing.
  all: destruct missing as [|field others] eqn:Emissing;
    first [rewrite bool_decide_eq_true_2 by done | rewrite bool_decide_eq_false_2 by done];
    run.
  2, 4: intros [= <- <-]; cbn [stdout];
    (split; [by split|]); intros _; split; [done|];
    by rewrite <- !(assoc_L (++)).
  all: assert (∃ api_type, Py.lookup "API_TYPE" host_agent = Some (YStr api_type))
         as [api_type Htype].
  1, 3: subst missing; cbn [List.filter] in Emissing;
    destruct (Py.lookup "API_TYPE" host_agent) as [v|] eqn:Htype;
    [ destruct (Stype v Htype) as [s ->]; by exists s
    | rewrite (is_None_false _ eq_refl) in Emissing; done ].
  all: rewrite (getitem_key _ _ _ Htype); cbn [Py.lower]; run.
  all: destruct (PyStr.in_list (PyStr.lower api_type) ["aoai"; "azure"]); run;
    cbn [Py.contains Py.get]; run;
    repeat match goal with
           | |- context [if ?b then _ else _] => destruct b; run
           end;
    intros [= <- <-]; split; first [by split | done].
Qed.

Lemma darbot_check_config_required_fields_witness :
  let complete :=
    [("API_TYPE", YStr "azure");
     ("API_BASE", YStr "https://contoso.openai.azure.com");
     ("API_KEY", YStr "0123456789abcdef")] in
  let partial := [("API_TYPE", YStr "azure"); ("API_DEPLOYMENT_ID", YStr "production")] in
  let P := example_platform
             [("complete", YMap [("HOST_AGENT", YMap complete)]);
              ("partial", YMap [("HOST_AGENT", YMap partial)])]
             (inr "hello") in
  let path := darbot_validation.config_path P in
  (darbot_validation.check_config P (example_world [(path, "complete")] [])).1
  = inr true
  ∧ stdout (darbot_validation.check_config P (example_world [(path, "partial")] [])).2
    = [(HEADER, "Config Check");
       (ERROR, "Missing required fields in HOST_AGENT config: API_KEY, API_BASE")].
Proof.
  intros complete partial P path. split.
  - apply (darbot_check_config_required_fields P
             (example_world [(path, "complete")] []) "complete"
             [("HOST_AGENT", YMap complete)] complete);
      [reflexivity | reflexivity | reflexivity | reflexivity | reflexivity
      | intros v Hv; vm_compute in Hv; injection Hv as <-; eauto
      | reflexivity].
  - apply (darbot_check_config_required_fields P
             (example_world [(path, "partial")] []) "partial"
             [("HOST_AGENT", YMap partial)] partial);
      [reflexivity | reflexivity | reflexivity | reflexivity | reflexivity
      | intros v Hv; vm_compute in Hv; injection Hv as <-; eauto
      | by vm_compute].
Defined.

(** X11: [check_config_file] of fixed_comprehensive_validation.py requires
    API_TYPE, API_BASE and API_KEY in the agent section, whatever the
    provider, and API_DEPLOYMENT_ID as well when the lower-cased API_TYPE is
    azure or aoai: on a located section that is a mapping (with texts as
    API_TYPE, API_KEY and API_DEPLOYMENT_ID when they are there) it passes
    exactly when these keys are present. *)
Theorem check_config_file_required_fields (P : platform) (w : world)
    (text : string) (config : yaml) (nested : bool)
    (host_agent : list (string * yaml)) :
  importable P "yaml" = true →
  fs w !! fixed_comprehensive_validation.config_path P = Some text →
  next_io_succeeds w →
  safe_load P text = inr config →
  Py.truthy config = true →
  fixed_comprehensive_validation.find_host_agent config
    = inr (Some (nested, YMap host_agent)) →
  string_valued "API_TYPE" host_agent →
  string_valued "API_KEY" host_agent →
  string_valued "API_DEPLOYMENT_ID" host_agent →
  let azure :=
    ∃ api_type, Py.lookup "API_TYPE" host_agent = Some (YStr api_type)
                ∧ (PyStr.lower api_type = "azure" ∨ PyStr.lower api_type = "aoai") in
  (fixed_comprehensive_validation.check_config_file P w).1 = inr true
  ↔ is_Some (Py.lookup "API_TYPE" host_agent)
    ∧ is_Some (Py.lookup "API_BASE" host_agent)
    ∧ is_Some (Py.lookup "API_KEY" host_agent)
    ∧ (azure → is_Some (Py.lookup "API_DEPLOYMENT_ID" host_agent)).
Proof.
  intros Hyaml Hfs Hio Hload Htruthy Hfind Stype Skey Sdeployment azure.
  destruct (fixed_comprehensive_validation.check_config_file P w) as [res w'] eqn:E.
  cbn [fst snd]. revert E.
  unfold fixed_comprehensive_validation.check_config_file. run. rewrite Hfs.
  rewrite bool_decide_eq_true_2 by eauto.
  unfold import. rewrite Hyaml.
  unfold next_io_succeeds, next_fault in Hio.
  run. destruct (faults w) as [|[|] more]; [|done|].
  all: rewrite Hfs, Hload; run; rewrite Htruthy; run; rewrite Hfind; run.
  all: unfold fixed_comprehensive_validation.check_host_agent;
    rewrite bind_run, collect_missing_spec; cbn [List.filter].
  all: destruct (Py.lookup "API_TYPE" host_agent) as [raw|] eqn:Htype;
    destruct (Py.lookup "API_BASE" host_agent) as [base|] eqn:Hbase;
    destruct (Py.lookup "API_KEY" host_agent) as [raw_key|] eqn:Hkey;
    rewrite ?decide_some, ?decide_none; cbn [negb];
    first [rewrite bool_decide_eq_true_2 by done
          | rewrite bool_decide_eq_false_2 by done];
    run.
  all: try (intros [= <- <-]; split; [done|]; intros (H1 & H2 & H3 & _);
            first [by destruct H1 | by destruct H2 | by destruct H3]).
  all: destruct (Stype raw Htype) as [api_type ->];
    destruct (Skey raw_key Hkey) as [key ->].
  all: rewrite (getitem_key _ _ _ Htype); cbn [Py.lower]; run.
  all: assert (azure ↔ PyStr.in_list (PyStr.lower api_type) ["azure"; "aoai"] = true)
         as Hazure by
      (subst azure; split;
       [ intros (t & Ht & Hor); assert (t = api_type) as -> by congruence;
         by destruct Hor as [-> | ->]
       | intros H; exists api_type; split; [done|];
         unfold PyStr.in_list in H; apply bool_decide_eq_true_1 in H;
         apply list_elem_of_In in H; simpl in H; intuition ]).
  all: destruct (PyStr.in_list (PyStr.lower api_type) ["azure"; "aoai"]) eqn:Hin;
    run.
  2, 4: intros [= <- <-]; (split; [|done]); intros _;
    repeat split; eauto; intros Ha; apply Hazure in Ha; done.
  all: cbn [Py.contains]; run.
  all: destruct (Py.lookup "API_DEPLOYMENT_ID" host_agent) as [raw_deployment|]
         eqn:Hdeployment;
    rewrite ?decide_some, ?decide_none; run.
  2, 4: intros [= <- <-]; split; [done|];
    intros (_ & _ & _ & Hd); destruct Hd as [? ?]; [by apply Hazure | done].
  all: destruct (Sdeployment raw_deployment Hdeployment) as [deployment ->].
  all: rewrite (getitem_key _ _ _ Hdeployment); run; cbn [Py.startswith]; run;
    rewrite (getitem_key _ _ _ Hkey); run.
  all: destruct (PyStr.startswith deployment "gpt-"); run;
    cbn [Py.startswith]; run;
    destruct (PyStr.startswith key "${"); run;
    try destruct (PyStr.startswith key "%"); run;
    intros [= <- <-]; (split; [|done]); intros _; repeat split; eauto.
Qed.

Lemma check_config_file_required_fields_witness :
  let host_agent :=
    [("API_TYPE", YStr "OpenAI");
     ("API_BASE", YStr "https://api.openai.com/v1");
     ("API_KEY", YStr "${OPENAI_API_KEY}")] in
  let config := YMap [("AGENT_SETTINGS", YMap [("HOST_AGENT", YMap host_agent)])] in
  let P := example_platform [("config", config)] (inr "hello") in
  let w := example_world [(fixed_comprehensive_validation.config_path P, "config")] [] in
  (fixed_comprehensive_validation.check_config_file P w).1 = inr true.
Proof.
  intros host_agent config P w.
  apply (check_config_file_required_fields P w "config" config true host_agent);
    [reflexivity | reflexivity | reflexivity | reflexivity | reflexivity
    | reflexivity
    | intros v Hv; vm_compute in Hv; injection Hv as <-; eauto
    | intros v Hv; vm_compute in Hv; injection Hv as <-; eauto
    | intros v Hv; vm_compute in Hv; discriminate |].
  split; [by eexists|]. split; [by eexists|]. split; [by eexists|].
  intros (api_type & Hv & Hazure). vm_compute in Hv. injection Hv as <-.
  vm_compute in Hazure. by destruct Hazure.
Defined.

(** ** The dependency checks *)

Section Dependencies.
Context (P : platform).

(** [check_dependency] touches nothing and tells whether the module, and the
    package before its first dot, import. *)
Lemma check_dependency_spec (module_name : string) (w : world) :
  ∃ message,
    check_dependency P module_name w = (inr (dependency_ok P module_name, message), w).
Proof.
  unfold check_dependency, dependency_ok, import.
  destruct (PyStr.contains "." module_name).
  - destruct (importable P (PyStr.before_dot module_name)),
      (importable P module_name); run;
      try destruct (import_exception P (PyStr.before_dot module_name));
      try destruct (import_exception P module_name); run; by eexists.
  - destruct (importable P module_name); run;
      try destruct (import_exception P module_name); run; by eexists.
Qed.

(** The loop over the critical dependencies: [all_ok] stays [True] exactly
    when every dependency is fine, and the missing ones are appended in
    order. *)
Lemma check_each_dependency_spec (deps : list string) (state : bool * list string)
    (w : world) :
  ∃ w',
    check_each_dependency P deps state w
    = (inr (state.1 && forallb (dependency_ok P) deps,
            state.2 ++ List.filter (fun dep => negb (dependency_ok P dep)) deps), w')
    ∧ console_only w w'
    ∧ ∃ out, stdout w' = stdout w ++ out.
Proof.
  revert state w. induction deps as [|dep deps IH]; intros [all_ok missing] w.
  - exists w. cbn [check_each_dependency forallb List.filter fst snd].
    rewrite andb_true_r, app_nil_r. split; [done|].
    split; [apply console_only_refl|]. exists []. by rewrite app_nil_r.
  - cbn [check_each_dependency forallb List.filter fst snd].
    rewrite bind_run. destruct (check_dependency_spec dep w) as [message ->].
    cbn [fst snd]. destruct (dependency_ok P dep); cbn [negb andb].
    + destruct (IH (all_ok, missing)
                  (World (fs w) (environ w) (stdin w) (faults w)
                         (stdout w ++ [(SUCCESS, message)]) (io_trace w) (sent w)))
        as (w' & E & C & out & O).
      exists w'. split; [exact E|].
      split; [by destruct C as (? & ? & ? & ? & ? & ?)|].
      eexists. rewrite O. cbn [stdout]. by rewrite <- (assoc_L (++)).
    + destruct (IH (false, missing ++ [dep])
                  (World (fs w) (environ w) (stdin w) (faults w)
                         (stdout w ++ [(ERROR, message)]) (io_trace w) (sent w)))
        as (w' & E & C & out & O).
      exists w'. cbn [fst snd andb] in E. rewrite <- (assoc_L (++)) in E.
      cbn [app] in E. rewrite andb_false_r.
      split; [exact E|].
      split; [by destruct C as (? & ? & ? & ? & ? & ?)|].
      eexists. rewrite O. cbn [stdout]. by rewrite <- (assoc_L (++)).
Qed.

(** The missing list is empty exactly when every dependency is fine. *)
Lemma no_missing_dependency (deps : list string) :
  bool_decide (List.filter (fun dep => negb (dependency_ok P dep)) deps = [])
  = forallb (dependency_ok P) deps.
Proof.
  induction deps as [|dep deps IH]; [done|].
  cbn [List.filter forallb]. destruct (dependency_ok P dep); cbn [negb andb].
  - exact IH.
  - by apply bool_decide_eq_false_2.
Qed.

(** [check_critical_dependencies] of darbot_validation.py. *)
Lemma check_critical_dependencies_run (w : world) :
  let missing := List.filter (fun dep => negb (dependency_ok P dep))
                             darbot_validation.critical_deps in
  (darbot_validation.check_critical_dependencies P w).1
  = inr (forallb (dependency_ok P) darbot_validation.critical_deps)
  ∧ console_only w (darbot_validation.check_critical_dependencies P w).2
  ∧ (missing ≠ [] →
     ∃ out, stdout (darbot_validation.check_critical_dependencies P w).2
            = stdout w ++ out ++
              [(ERROR, "Missing dependencies: " +:+ join missing);
               (INFO, "Run: pip install " +:+ join_spaces missing)]).
Proof.
  intros missing. unfold darbot_validation.check_critical_dependencies.
  unfold print_header. rewrite emit_bind, bind_run.
  match goal with |- context [check_each_dependency P ?d ?s ?W] =>
    destruct (check_each_dependency_spec d s W) as (w1 & -> & C & out & O) end.
  cbn [fst snd andb app]. fold missing.
  destruct C as (C1 & C2 & C3 & C4 & C5 & C6).
  cbn [fs io_trace stdin sent environ faults stdout] in *.
  pose proof (no_missing_dependency darbot_validation.critical_deps) as Hall.
  fold missing in Hall.
  destruct (forallb (dependency_ok P) darbot_validation.critical_deps); run.
  - apply bool_decide_eq_true_1 in Hall.
    split; [done|]. split; [by repeat split|]. by intros ?.
  - split; [done|]. split; [by repeat split|]. intros _.
    exists ((HEADER, "Critical Dependency Check") :: out).
    by rewrite O, <- !(assoc_L (++)).
Qed.

End Dependencies.

(** X12: [check_critical_dependencies] of darbot_validation.py passes
    exactly when each of its nine modules imports, and the package [azure]
    before [azure.identity] as well; it touches nothing but the console, and
    when it fails its last two lines name the failing dependencies, in the
    order of the list. *)
Theorem critical_dependencies_check (P : platform) (w : world) :
  let missing := List.filter (fun dep => negb (dependency_ok P dep))
                             darbot_validation.critical_deps in
  (darbot_validation.check_critical_dependencies P w).1
  = inr (forallb (importable P)
           ["azure"; "azure.identity"; "openai"; "faiss"; "cv2"; "yaml";
            "numpy"; "pywinauto"; "pyautogui"; "torch"])
  ∧ console_only w (darbot_validation.check_critical_dependencies P w).2
  ∧ (missing ≠ [] →
     ∃ out, stdout (darbot_validation.check_critical_dependencies P w).2
            = stdout w ++ out ++
              [(ERROR, "Missing dependencies: " +:+ join missing);
               (INFO, "Run: pip install " +:+ join_spaces missing)]).
Proof.
  intros missing.
  destruct (check_critical_dependencies_run P w) as (E & C & Hout).
  split; [|by split]. rewrite E. f_equal.
  cbn [forallb darbot_validation.critical_deps].
  change (dependency_ok P "azure.identity")
    with (importable P "azure" && importable P "azure.identity").
  by rewrite <- andb_assoc.
Qed.

Lemma critical_dependencies_check_witness :
  let P := Platform "/opt/UFO"
             (fun m => negb (PyStr.eqb m "torch") && negb (PyStr.eqb m "azure"))
             (fun m => if PyStr.eqb m "torch"
                       then OtherError "OSError" "DLL load failed"
                       else ModuleNotFoundError m)
             (fun c _ => text_credentials c)
             (table_parser []) (fun _ => "") (fun _ => inr "hello")
             (fun _ => "") (fun _ => "") in
  let w := example_world [] [] in
  (darbot_validation.check_critical_dependencies P w).1 = inr false
  ∧ ∃ out, stdout (darbot_validation.check_critical_dependencies P w).2
           = out ++ [(ERROR, "Missing dependencies: azure.identity, torch");
                     (INFO, "Run: pip install azure.identity torch")].
Proof.
  intros P w.
  destruct (critical_dependencies_check P w) as (E & _ & Hout).
  split; [exact E|]. apply Hout. by vm_compute.
Defined.

(** ** [main] of darbot_validation.py *)

Section DarbotMain.
Import darbot_validation.
Context (P : platform) (python_version : string).





End DarbotMain.


(** ** test_mission.py and comprehensive_test.py: the checks *)


Section PackageChecks.
Context (P : platform).

(** The loop of [check_python_packages]: each package is imported under its
    name with [-] replaced by [_]; the loop ends with the packages whose
    import failed, unless an import raises an exception that is not an
    [ImportError], which leaves the loop. *)
Lemma check_packages_spec (packages missing : list string) (w : world) :
  ∃ w',
    comprehensive_test.check_packages P packages missing w
    = (match first_escaping P (map PyStr.replace_dash packages) with
       | Some e => inl e
       | None =>
           inr (missing ++
                List.filter
                  (fun package => negb (importable P (PyStr.replace_dash package)))
                  packages)
       end, w')
    ∧ console_only w w'.
Proof.
  revert missing w. induction packages as [|package packages IH]; intros missing w.
  - exists w. cbn [comprehensive_test.check_packages List.filter map first_escaping].
    rewrite app_nil_r. split; [done | apply console_only_refl].
  - cbn [comprehensive_test.check_packages List.filter map first_escaping].
    unfold import, comprehensive_test.print_test, escaping.
    destruct (importable P (PyStr.replace_dash package)); cbn [negb].
    + destruct (IH missing
                  (World (fs w) (environ w) (stdin w) (faults w)
                         (stdout w ++ [(SUCCESS, "Package: " +:+ package)])
                         (io_trace w) (sent w)))
        as (w' & E & C).
      exists w'. split; [exact E|]. by destruct C as (? & ? & ? & ? & ? & ?).
    + destruct (IH (missing ++ [package])
                  (World (fs w) (environ w) (stdin w) (faults w)
                         ((stdout w ++ [(ERROR, "Package: " +:+ package)])
                          ++ [(PLAIN, "Not installed or import failed")])
                         (io_trace w) (sent w)))
        as (w' & E & C).
      rewrite <- (assoc_L (++) missing) in E. cbn [app] in E.
      destruct (import_exception P (PyStr.replace_dash package));
        first [ exists w'; split; [exact E|];
                by destruct C as (? & ? & ? & ? & ? & ?)
              | exists w; split; [reflexivity | apply console_only_refl] ].
Qed.

Lemma import_packages_spec (packages failed : list string) (w : world) :
  ∃ w',
    test_mission.import_packages P packages failed w
    = (match first_escaping P (map PyStr.replace_dash packages) with
       | Some e => inl e
       | None =>
           inr (failed ++
                List.filter
                  (fun package => negb (importable P (PyStr.replace_dash package)))
                  packages)
       end, w')
    ∧ console_only w w'.
Proof.
  revert failed w. induction packages as [|package packages IH]; intros failed w.
  - exists w. cbn [test_mission.import_packages List.filter map first_escaping].
    rewrite app_nil_r. split; [done | apply console_only_refl].
  - cbn [test_mission.import_packages List.filter map first_escaping].
    unfold import, escaping.
    destruct (importable P (PyStr.replace_dash package)); cbn [negb].
    + destruct (IH failed
                  (World (fs w) (environ w) (stdin w) (faults w)
                         (stdout w ++ [(SUCCESS, package)]) (io_trace w) (sent w)))
        as (w' & E & C).
      exists w'. split; [exact E|]. by destruct C as (? & ? & ? & ? & ? & ?).
    + destruct (IH (failed ++ [package])
                  (World (fs w) (environ w) (stdin w) (faults w)
                         (stdout w ++ [(ERROR, package)]) (io_trace w) (sent w)))
        as (w' & E & C).
      rewrite <- (assoc_L (++) failed) in E. cbn [app] in E.
      destruct (import_exception P (PyStr.replace_dash package));
        first [ exists w'; split; [exact E|];
                by destruct C as (? & ? & ? & ? & ? & ?)
              | exists w; split; [reflexivity | apply console_only_refl] ].
Qed.

Lemma no_missing_package (packages : list string) :
  bool_decide
    (List.filter (fun package => negb (importable P (PyStr.replace_dash package)))
                 packages = [])
  = forallb (fun package => importable P (PyStr.replace_dash package)) packages.
Proof.
  induction packages as [|package packages IH]; [done|].
  cbn [List.filter forallb].
  destruct (importable P (PyStr.replace_dash package)); cbn [negb andb].
  - exact IH.
  - by apply bool_decide_eq_false_2.
Qed.

End PackageChecks.

(** X17: the package checks of comprehensive_test.py and test_mission.py
    import each listed distribution under its own name with [-] replaced by
    [_], one after the other under [except ImportError].  When no import
    raises an exception of another class, they pass exactly when modules of
    these names import ([azure_identity], [faiss_cpu], [opencv_python],
    [pyyaml], ...), the usual import names [yaml], [cv2], [faiss] or
    [azure.identity] never being tried, and the packages reported missing
    are those whose replaced name does not import, in the order of the
    list.  The first import that raises an exception of another class ends
    the check, which raises it. *)
Theorem package_checks_import_replaced_names (P : platform) (w : world) :
  let missing packages :=
    List.filter (fun package => negb (importable P (PyStr.replace_dash package)))
                packages in
  (comprehensive_test.check_python_packages P w).1
  = match first_escaping P
            ["pandas"; "azure_identity"; "faiss_cpu"; "sentence_transformers";
             "langchain_huggingface"; "lxml"; "opencv_python"; "pyautogui";
             "pywinauto"; "openai"; "pyyaml"; "numpy"; "torch"] with
    | Some e => inl e
    | None =>
        inr (forallb (importable P)
               ["pandas"; "azure_identity"; "faiss_cpu"; "sentence_transformers";
                "langchain_huggingface"; "lxml"; "opencv_python"; "pyautogui";
                "pywinauto"; "openai"; "pyyaml"; "numpy"; "torch"],
             missing comprehensive_test.required_packages)
    end
  ∧ (test_mission.test_required_packages P w).1
    = match first_escaping P
              ["pandas"; "azure_identity"; "faiss_cpu"; "sentence_transformers";
               "langchain_huggingface"; "lxml"; "opencv_python"; "pyautogui"] with
      | Some e => inl e
      | None =>
          inr (forallb (importable P)
                 ["pandas"; "azure_identity"; "faiss_cpu"; "sentence_transformers";
                  "langchain_huggingface"; "lxml"; "opencv_python"; "pyautogui"])
      end.
Proof.
  intros missing. split.
  - unfold comprehensive_test.check_python_packages, print_header.
    rewrite emit_bind, bind_run.
    match goal with |- context [comprehensive_test.check_packages P ?p ?m ?W] =>
      destruct (check_packages_spec P p m W) as (w1 & -> & _) end.
    change (map PyStr.replace_dash comprehensive_test.required_packages)
      with ["pandas"; "azure_identity"; "faiss_cpu"; "sentence_transformers";
            "langchain_huggingface"; "lxml"; "opencv_python"; "pyautogui";
            "pywinauto"; "openai"; "pyyaml"; "numpy"; "torch"].
    destruct (first_escaping P _); [done|].
    cbn [app]. unfold ret. cbn [fst]. rewrite no_missing_package. reflexivity.
  - unfold test_mission.test_required_packages, print.
    rewrite emit_bind, bind_run.
    match goal with |- context [test_mission.import_packages P ?p ?m ?W] =>
      destruct (import_packages_spec P p m W) as (w1 & -> & _) end.
    change (map PyStr.replace_dash test_mission.required_packages)
      with ["pandas"; "azure_identity"; "faiss_cpu"; "sentence_transformers";
            "langchain_huggingface"; "lxml"; "opencv_python"; "pyautogui"].
    destruct (first_escaping P _); [done|].
    cbn [app]. rewrite no_missing_package.
    change (forallb (fun package => importable P (PyStr.replace_dash package))
              test_mission.required_packages)
      with (forallb (importable P)
              ["pandas"; "azure_identity"; "faiss_cpu"; "sentence_transformers";
               "langchain_huggingface"; "lxml"; "opencv_python"; "pyautogui"]).
    destruct (forallb (importable P) _); by run.
Qed.

Section ConfigurationCheck.
Import comprehensive_test.
Context (P : platform).



End ConfigurationCheck.



(** ** The diagnostics never write a file *)

Section ReadOnlyChecks.

Lemma read_only_environ_get (name : string) : read_only (environ_get name).
Proof. intros w. apply leaves_files_refl. Qed.

Lemma read_only_import (P : platform) (m : string) : read_only (import P m).
Proof.
  unfold import. destruct (importable P m);
    [apply read_only_ret | apply read_only_raise].
Qed.

Lemma read_only_new_client (P : platform) (c : client) :
  read_only (new_client P c).
Proof.
  intros w. unfold new_client.
  destruct (client_error P c (environ w)); apply leaves_files_refl.
Qed.

Lemma read_only_chat (P : platform) (r : request) : read_only (chat P r).
Proof. intros w. split; [done|]. exists []. by rewrite app_nil_r. Qed.

End ReadOnlyChecks.

(** Decomposes a computation along its structure, by the shape of the
    goal. *)
Ltac readonly :=
  repeat match goal with
         | |- read_only (ret _) => apply read_only_ret
         | |- read_only (raise _) => apply read_only_raise
         | |- read_only (lift _) => apply read_only_lift
         | |- read_only (exists_ _) => apply read_only_exists
         | |- read_only (read_text _) => apply read_only_read_text
         | |- read_only input => apply read_only_input
         | |- read_only (environ_get _) => apply read_only_environ_get
         | |- read_only (import _ _) => apply read_only_import
         | |- read_only (new_client _ _) => apply read_only_new_client
         | |- read_only (chat _ _) => apply read_only_chat
         | |- read_only (emit _ _) => apply read_only_emit
         | |- read_only (print_header _) => apply read_only_emit
         | |- read_only (print_success _) => apply read_only_emit
         | |- read_only (print_warning _) => apply read_only_emit
         | |- read_only (print_error _) => apply read_only_emit
         | |- read_only (print_info _) => apply read_only_emit
         | |- read_only (print _) => apply read_only_emit
         | |- read_only (print_exc _) => apply read_only_emit
         | |- read_only (attempt _) => apply read_only_attempt
         | |- read_only (try_except _ _) => apply read_only_try_except; [|intros ?]
         | |- read_only (_ ≫= _) => apply read_only_bind; [|intros ?]
         | |- read_only (if ?b then _ else _) => destruct b
         | |- read_only (match ?x with _ => _ end) => destruct x
         end.

Section ReadOnlyLoops.
Context (P : platform).

Lemma require_each_reads (missing present : string → string)
    (fields : list string) (host_agent : yaml) :
  read_only (require_each missing present fields host_agent).
Proof.
  induction fields as [|field fields IH]; cbn [require_each]; readonly.
  exact IH.
Qed.

Lemma collect_missing_reads (fields : list string) (host_agent : yaml) :
  read_only (collect_missing fields host_agent).
Proof.
  induction fields as [|field fields IH]; cbn [collect_missing]; readonly.
  exact IH.
Qed.

Lemma scan_env_vars_reads (items : list (string * yaml)) (has_env_vars : bool) :
  read_only (comprehensive_validation.scan_env_vars items has_env_vars).
Proof.
  revert has_env_vars.
  induction items as [|[key value] items IH]; intros has_env_vars;
    cbn [comprehensive_validation.scan_env_vars]; readonly; apply IH.
Qed.

Lemma validate_config_reads : read_only (comprehensive_validation.validate_config P).
Proof.
  unfold comprehensive_validation.validate_config,
    comprehensive_validation.validate_loaded,
    comprehensive_validation.azure_checks,
    comprehensive_validation.environment_and_models.
  repeat first [ apply require_each_reads | apply scan_env_vars_reads
               | progress readonly ].
Qed.

End ReadOnlyLoops.

Section ReadOnlyDiagnostics.
Context (P : platform).

Lemma check_config_file_reads :
  read_only (fixed_comprehensive_validation.check_config_file P).
Proof.
  unfold fixed_comprehensive_validation.check_config_file,
    fixed_comprehensive_validation.check_host_agent.
  repeat first [ apply collect_missing_reads | progress readonly ].
Qed.

Lemma check_api_connectivity_reads :
  read_only (fixed_comprehensive_validation.check_api_connectivity P).
Proof.
  unfold fixed_comprehensive_validation.check_api_connectivity,
    fixed_comprehensive_validation.test_azure,
    fixed_comprehensive_validation.test_openai,
    fixed_comprehensive_validation.resolve_env_var.
  readonly.
Qed.

Lemma check_config_reads : read_only (darbot_validation.check_config P).
Proof.
  unfold darbot_validation.check_config.
  repeat first [ apply collect_missing_reads | progress readonly ].
Qed.

Lemma check_azure_deployment_reads :
  read_only (darbot_validation.check_azure_deployment P).
Proof.
  unfold darbot_validation.check_azure_deployment,
    darbot_validation.connection_test, darbot_validation.connection_failed.
  readonly.
Qed.

Lemma test_azure_openai_direct_reads :
  read_only (test_api_connectivity.test_azure_openai_direct P).
Proof.
  unfold test_api_connectivity.test_azure_openai_direct,
    test_api_connectivity.load_config, test_api_connectivity.guidance.
  readonly.
Qed.

Lemma check_sections_reads (sections : list string) (config : yaml) :
  read_only (comprehensive_test.check_sections P sections config).
Proof.
  induction sections as [|section sections IH];
    cbn [comprehensive_test.check_sections];
    unfold comprehensive_test.print_test; readonly; exact IH.
Qed.

Lemma check_configuration_reads :
  read_only (comprehensive_test.check_configuration P).
Proof.
  unfold comprehensive_test.check_configuration, comprehensive_test.print_test.
  repeat first [ apply check_sections_reads | progress readonly ].
Qed.

Lemma test_config_file_reads : read_only (test_mission.test_config_file P).
Proof. unfold test_mission.test_config_file. readonly. Qed.

End ReadOnlyDiagnostics.

(** X19: the diagnostics never create or change a file.  Whatever the
    answers, the importable modules, the replies of the endpoint and the
    failures, the file system after each of these checks is the one before
    it, and the file operations performed are reads only. *)
Theorem diagnostics_never_write (P : platform) :
  read_only (comprehensive_validation.validate_config P)
  ∧ read_only (fixed_comprehensive_validation.check_config_file P)
  ∧ read_only (fixed_comprehensive_validation.check_api_connectivity P)
  ∧ read_only (darbot_validation.check_config P)
  ∧ read_only (darbot_validation.check_azure_deployment P)
  ∧ read_only (test_api_connectivity.test_azure_openai_direct P)
  ∧ read_only (comprehensive_test.check_configuration P)
  ∧ read_only (test_mission.test_config_file P).
Proof.
  split_and!.
  - apply validate_config_reads.
  - apply check_config_file_reads.
  - apply check_api_connectivity_reads.
  - apply check_config_reads.
  - apply check_azure_deployment_reads.
  - apply test_azure_openai_direct_reads.
  - apply check_configuration_reads.
  - apply test_config_file_reads.
Qed.

(** ** The connectivity checks send at most one request *)

Section Requests.

Lemma sends_at_most_mono {A} (n m : nat) (c : M A) :
  n ≤ m → sends_at_most n c → sends_at_most m c.
Proof.
  intros Hle Hc w. destruct (Hc w) as (requests & E & Hn).
  exists requests. split; [done | lia].
Qed.

Lemma sends_nothing {A} (c : M A) :
  (∀ w, sent (c w).2 = sent w) → sends_at_most 0 c.
Proof. intros H w. exists []. by rewrite app_nil_r. Qed.

Lemma sends_at_most_ret {A} (a : A) : sends_at_most 0 (ret a).
Proof. by apply sends_nothing. Qed.

Lemma sends_at_most_raise {A} (e : exn) : sends_at_most 0 (@raise A e).
Proof. by apply sends_nothing. Qed.

Lemma sends_at_most_lift {A} (r : result A) : sends_at_most 0 (lift r).
Proof. destruct r; [apply sends_at_most_raise | apply sends_at_most_ret]. Qed.

Lemma sends_at_most_emit (l : level) (text : string) : sends_at_most 0 (emit l text).
Proof. by apply sends_nothing. Qed.

Lemma sends_at_most_exists (path : string) : sends_at_most 0 (exists_ path).
Proof. by apply sends_nothing. Qed.

Lemma sends_at_most_read_text (path : string) : sends_at_most 0 (read_text path).
Proof.
  apply sends_nothing. intros w. unfold read_text.
  destruct (next_fault w) as [[|] rest]; [done|]. by destruct (fs w !! path).
Qed.

Lemma sends_at_most_input : sends_at_most 0 input.
Proof. apply sends_nothing. intros w. unfold input. by destruct (stdin w). Qed.

Lemma sends_at_most_environ_get (name : string) : sends_at_most 0 (environ_get name).
Proof. by apply sends_nothing. Qed.

Lemma sends_at_most_import (P : platform) (m : string) : sends_at_most 0 (import P m).
Proof.
  unfold import. destruct (importable P m);
    [apply sends_at_most_ret | apply sends_at_most_raise].
Qed.

(** Building a client sends nothing. *)
Lemma sends_at_most_new_client (P : platform) (c : client) :
  sends_at_most 0 (new_client P c).
Proof.
  apply sends_nothing. intros w. unfold new_client.
  by destruct (client_error P c (environ w)).
Qed.

(** One call of the endpoint is one request. *)
Lemma sends_at_most_chat (P : platform) (r : request) : sends_at_most 1 (chat P r).
Proof. intros w. by exists [r]. Qed.

Lemma sends_at_most_bind {A B} (n m : nat) (c : M A) (k : A → M B) :
  sends_at_most n c → (∀ a, sends_at_most m (k a)) →
  sends_at_most (n + m) (c ≫= k).
Proof.
  intros Hc Hk w. destruct (Hc w) as (r1 & E1 & L1).
  unfold mbind, M_bind, bind. destruct (c w) as [[e|a] w1]; cbn [snd] in *.
  - exists r1. split; [done | lia].
  - destruct (Hk a w1) as (r2 & E2 & L2). exists (r1 ++ r2).
    rewrite E2, E1, (assoc_L (++)), length_app. split; [done | lia].
Qed.

Lemma sends_at_most_try_except {A} (n m : nat) (c : M A) (h : exn → M A) :
  sends_at_most n c → (∀ e, sends_at_most m (h e)) →
  sends_at_most (n + m) (try_except c h).
Proof.
  intros Hc Hh w. destruct (Hc w) as (r1 & E1 & L1).
  unfold try_except. destruct (c w) as [[e|a] w1]; cbn [snd] in *.
  - destruct (Hh e w1) as (r2 & E2 & L2). exists (r1 ++ r2).
    rewrite E2, E1, (assoc_L (++)), length_app. split; [done | lia].
  - exists r1. split; [done | lia].
Qed.

Lemma sends_at_most_attempt {A} (n : nat) (c : M A) :
  sends_at_most n c → sends_at_most n (attempt c).
Proof.
  intros Hc w. destruct (Hc w) as (r1 & E1 & L1).
  unfold attempt. destruct (c w) as [r w1]. by exists r1.
Qed.

End Requests.

(** A computation that sends nothing, by the shape of the goal. *)
Ltac silent :=
  repeat match goal with
         | |- sends_at_most 0 (ret _) => apply sends_at_most_ret
         | |- sends_at_most 0 (raise _) => apply sends_at_most_raise
         | |- sends_at_most 0 (lift _) => apply sends_at_most_lift
         | |- sends_at_most 0 (exists_ _) => apply sends_at_most_exists
         | |- sends_at_most 0 (read_text _) => apply sends_at_most_read_text
         | |- sends_at_most 0 input => apply sends_at_most_input
         | |- sends_at_most 0 (environ_get _) => apply sends_at_most_environ_get
         | |- sends_at_most 0 (import _ _) => apply sends_at_most_import
         | |- sends_at_most 0 (new_client _ _) => apply sends_at_most_new_client
         | |- sends_at_most 0 (emit _ _) => apply sends_at_most_emit
         | |- sends_at_most 0 (print_header _) => apply sends_at_most_emit
         | |- sends_at_most 0 (print_success _) => apply sends_at_most_emit
         | |- sends_at_most 0 (print_warning _) => apply sends_at_most_emit
         | |- sends_at_most 0 (print_error _) => apply sends_at_most_emit
         | |- sends_at_most 0 (print_info _) => apply sends_at_most_emit
         | |- sends_at_most 0 (print _) => apply sends_at_most_emit
         | |- sends_at_most 0 (print_exc _) => apply sends_at_most_emit
         | |- sends_at_most 0 (attempt _) => apply sends_at_most_attempt
         | |- sends_at_most 0 (try_except _ _) =>
             apply (sends_at_most_try_except 0 0); [|intros ?]
         | |- sends_at_most 0 (_ ≫= _) =>
             apply (sends_at_most_bind 0 0); [|intros ?]
         | |- sends_at_most 0 (if ?b then _ else _) => destruct b
         | |- sends_at_most 0 (match ?x with _ => _ end) => destruct x
         end.

(** A computation that sends at most one request: at a sequence, either
    what comes first sends nothing, or what follows does. *)
Ltac one_request :=
  match goal with
  | |- sends_at_most 1 (chat _ _) => apply sends_at_most_chat
  | |- sends_at_most 1 (_ ≫= _) =>
      first [ apply (sends_at_most_bind 0 1); [solve [silent] | intros ?; one_request]
            | apply (sends_at_most_bind 1 0); [one_request | intros ?; solve [silent]] ]
  | |- sends_at_most 1 (try_except _ _) =>
      first [ apply (sends_at_most_try_except 1 0); [one_request | intros ?; solve [silent]]
            | apply (sends_at_most_try_except 0 1); [solve [silent] | intros ?; one_request] ]
  | |- sends_at_most 1 (attempt _) => apply sends_at_most_attempt; one_request
  | |- sends_at_most 1 (if ?b then _ else _) => destruct b; one_request
  | |- sends_at_most 1 (match ?x with _ => _ end) => destruct x; one_request
  | |- sends_at_most 1 _ =>
      apply (sends_at_most_mono 0 1); [lia | solve [silent]]
  end.

Section RequestsOfChecks.
Context (P : platform).

Lemma check_api_connectivity_requests :
  sends_at_most 1 (fixed_comprehensive_validation.check_api_connectivity P).
Proof.
  unfold fixed_comprehensive_validation.check_api_connectivity,
    fixed_comprehensive_validation.test_azure,
    fixed_comprehensive_validation.test_openai,
    fixed_comprehensive_validation.resolve_env_var.
  one_request.
Qed.

Lemma check_azure_deployment_requests :
  sends_at_most 1 (darbot_validation.check_azure_deployment P).
Proof.
  unfold darbot_validation.check_azure_deployment,
    darbot_validation.connection_test, darbot_validation.connection_failed.
  one_request.
Qed.

Lemma test_azure_openai_direct_requests :
  sends_at_most 1 (test_api_connectivity.test_azure_openai_direct P).
Proof.
  unfold test_api_connectivity.test_azure_openai_direct,
    test_api_connectivity.load_config, test_api_connectivity.guidance.
  one_request.
Qed.

End RequestsOfChecks.

(** X20: each connectivity check sends at most one request per run.
    Whatever the configuration, the answers and the replies, the requests
    sent before are kept as they are and at most one is added: there is no
    retry and no second probe. *)
Theorem connectivity_checks_send_at_most_one_request (P : platform) :
  sends_at_most 1 (fixed_comprehensive_validation.check_api_connectivity P)
  ∧ sends_at_most 1 (darbot_validation.check_azure_deployment P)
  ∧ sends_at_most 1 (test_api_connectivity.test_azure_openai_direct P).
Proof.
  split_and!.
  - apply check_api_connectivity_requests.
  - apply check_azure_deployment_requests.
  - apply test_azure_openai_direct_requests.
Qed.

Section SilentValidators.
Context (P : platform).

Lemma sends_at_most_open_w (path : string) : sends_at_most 0 (open_w path).
Proof.
  apply sends_nothing. intros w. unfold open_w.
  by destruct (next_fault w) as [[|] rest].
Qed.

Lemma sends_at_most_write (path text : string) : sends_at_most 0 (write path text).
Proof.
  apply sends_nothing. intros w. unfold write.
  by destruct (next_fault w) as [[|] rest].
Qed.

Lemma require_each_silent (missing present : string → string)
    (fields : list string) (host_agent : yaml) :
  sends_at_most 0 (require_each missing present fields host_agent).
Proof.
  induction fields as [|field fields IH]; cbn [require_each]; silent.
  exact IH.
Qed.

Lemma collect_missing_silent (fields : list string) (host_agent : yaml) :
  sends_at_most 0 (collect_missing fields host_agent).
Proof.
  induction fields as [|field fields IH]; cbn [collect_missing]; silent.
  exact IH.
Qed.

Lemma scan_env_vars_silent (items : list (string * yaml)) (has_env_vars : bool) :
  sends_at_most 0 (comprehensive_validation.scan_env_vars items has_env_vars).
Proof.
  revert has_env_vars.
  induction items as [|[key value] items IH]; intros has_env_vars;
    cbn [comprehensive_validation.scan_env_vars]; silent; apply IH.
Qed.

Lemma fix_field_silent (applies : bool) (prompts : list string) (field : string)
    (state : list (string * yaml) * bool) :
  sends_at_most 0 (fix_azure_config.fix_field applies prompts field state).
Proof.
  unfold fix_azure_config.fix_field. destruct applies; [|silent].
  apply (sends_at_most_bind 0 0); [|intros ?; silent].
  induction prompts as [|line prompts IH]; cbn [foldr]; silent. exact IH.
Qed.

Lemma validate_config_silent :
  sends_at_most 0 (comprehensive_validation.validate_config P).
Proof.
  unfold comprehensive_validation.validate_config,
    comprehensive_validation.validate_loaded,
    comprehensive_validation.azure_checks,
    comprehensive_validation.environment_and_models.
  repeat first [ apply require_each_silent | apply scan_env_vars_silent
               | progress silent ].
Qed.

Lemma check_config_file_silent :
  sends_at_most 0 (fixed_comprehensive_validation.check_config_file P).
Proof.
  unfold fixed_comprehensive_validation.check_config_file,
    fixed_comprehensive_validation.check_host_agent.
  repeat first [ apply collect_missing_silent | progress silent ].
Qed.

Lemma check_config_silent : sends_at_most 0 (darbot_validation.check_config P).
Proof.
  unfold darbot_validation.check_config.
  repeat first [ apply collect_missing_silent | progress silent ].
Qed.

Lemma fix_azure_openai_config_silent :
  sends_at_most 0 (fix_azure_config.fix_azure_openai_config P).
Proof.
  unfold fix_azure_config.fix_azure_openai_config,
    fix_azure_config.update_configuration, fix_azure_config.save_changes,
    fix_azure_config.check_common_issues, fix_azure_config.missing_or_placeholder.
  repeat first [ apply fix_field_silent | apply sends_at_most_open_w
               | apply sends_at_most_write | progress silent ].
Qed.

End SilentValidators.

(** X21: the structural validators and the configuration helper never
    contact the endpoint: whatever the configuration and the answers, no
    request is sent by [validate_config], [check_config_file],
    [check_config] or [fix_azure_openai_config]. *)
Theorem validators_send_no_request (P : platform) (w : world) :
  sent (comprehensive_validation.validate_config P w).2 = sent w
  ∧ sent (fixed_comprehensive_validation.check_config_file P w).2 = sent w
  ∧ sent (darbot_validation.check_config P w).2 = sent w
  ∧ sent (fix_azure_config.fix_azure_openai_config P w).2 = sent w.
Proof.
  assert (∀ A (c : M A), sends_at_most 0 c → sent (c w).2 = sent w) as Hnone.
  { intros A c Hc. destruct (Hc w) as (requests & -> & Hlen).
    destruct requests; [by rewrite app_nil_r | cbn in Hlen; lia]. }
  split_and!; apply Hnone.
  - apply validate_config_silent.
  - apply check_config_file_silent.
  - apply check_config_silent.
  - apply fix_azure_openai_config_silent.
Qed.
